(** * ProjectBuilder.py: a shallow embedding and its verified properties

    The script provisions a folder hierarchy node / project / site / sensor /
    day / run / tier and keeps a per-project field log (a CSV ledger) whose
    rows are validated by [Rowchecker] before [Sitebuilder] creates their
    folders and stamps them with a checksum.

    Layout of the development:
    - [Py]-level values: the runtime values the script inspects with
      [type(..) == int], [==], [in], truth tests and f-strings;
    - the pandas and GitPython entry points the script calls, as interfaces;
    - the functions of ProjectBuilder.py, in source order of dependency;
    - the properties. *)

From Stdlib Require Import Ascii String.
From stdpp Require Import gmap strings list fin_maps pretty.

Open Scope Z_scope.
Open Scope string_scope.
Open Scope list_scope.

#[global] Set Warnings "-clear-no-such-hyp".

(* ===================================================================== *)
(** ** Python runtime values *)
(* ===================================================================== *)

(** A float64 as far as the script can tell floats apart: it tests
    [np.isnan], compares with [==] and prints.  The only floats it computes
    are checksums, which are integers below 10^8 converted with [float(..)],
    so a float is either not-a-number or holds an integer exactly. *)
Inductive pyfloat :=
| NaN
| FInt (z : Z).

(** The values found in a row of a DataFrame or in a loaded YAML document.
    [NpInt64] is numpy's fixed-width integer scalar, which is not a
    subclass of [int]; [PyBool] is a subclass of [int]. *)
Inductive pyval :=
| PyNone
| PyBool (b : bool)
| PyInt (z : Z)
| PyFloat (f : pyfloat)
| PyStr (s : string)
| NpInt64 (z : Z).

(** What [type(v)] returns. *)
Inductive pytype := TNoneType | TBool | TInt | TFloat | TStr | TNpInt64.

#[global] Instance pyfloat_eq_dec : EqDecision pyfloat.
Proof. solve_decision. Defined.
#[global] Instance pyval_eq_dec : EqDecision pyval.
Proof. solve_decision. Defined.
#[global] Instance pytype_eq_dec : EqDecision pytype.
Proof. solve_decision. Defined.

Definition type_of (v : pyval) : pytype :=
  match v with
  | PyNone => TNoneType
  | PyBool _ => TBool
  | PyInt _ => TInt
  | PyFloat _ => TFloat
  | PyStr _ => TStr
  | NpInt64 _ => TNpInt64
  end.

(** The number a value denotes in Python's numeric tower, if it is one. *)
Definition num_val (v : pyval) : option pyfloat :=
  match v with
  | PyBool b => Some (FInt (Z.b2z b))
  | PyInt z => Some (FInt z)
  | NpInt64 z => Some (FInt z)
  | PyFloat f => Some f
  | PyNone | PyStr _ => None
  end.

(** [a == b]: numbers compare by value across [bool], [int], [float] and
    numpy integers, not-a-number equals nothing, strings compare with
    strings, [None] with [None]. *)
Definition py_eq (a b : pyval) : bool :=
  match num_val a, num_val b with
  | Some (FInt x), Some (FInt y) => Z.eqb x y
  | Some _, Some _ => false
  | None, None =>
      match a, b with
      | PyStr s, PyStr t => bool_decide (s = t)
      | PyNone, PyNone => true
      | _, _ => false
      end
  | _, _ => false
  end.

(** [x in l] for a list [l]: some element equals [x].  (Python also accepts
    an identical element; the lists tested below hold no not-a-number, for
    which alone identity and equality differ.) *)
Definition py_in (x : pyval) (l : list pyval) : bool := existsb (py_eq x) l.

(** Truth value, as tested by [if v:]. *)
Definition py_truth (v : pyval) : bool :=
  match v with
  | PyNone => false
  | PyBool b => b
  | PyInt z | NpInt64 z => negb (Z.eqb z 0)
  | PyFloat NaN => true
  | PyFloat (FInt z) => negb (Z.eqb z 0)
  | PyStr s => negb (bool_decide (s = ""))
  end.

(** [str(v)], which is also what an f-string field without a format
    specification inserts.  The float case is Python's shortest repr for an
    integral float below 10^16. *)
Definition py_str (v : pyval) : string :=
  match v with
  | PyNone => "None"
  | PyBool true => "True"
  | PyBool false => "False"
  | PyInt z | NpInt64 z => pretty z
  | PyFloat NaN => "nan"
  | PyFloat (FInt z) => pretty z +:+ ".0"
  | PyStr s => s
  end.

(** [f"{z:02d}"]: decimal, zero-padded to a minimum width of two.  A wider
    number is printed in full: the width is a minimum, nothing is cut. *)
Definition fmt_02d (z : Z) : string :=
  if bool_decide (0 <= z < 10) then "0" +:+ pretty z else pretty z.

(** [np.isnan(v)]: defined on numbers only, a [TypeError] otherwise. *)
Definition np_isnan (v : pyval) : option bool :=
  match num_val v with
  | Some NaN => Some true
  | Some (FInt _) => Some false
  | None => None
  end.

(* ===================================================================== *)
(** ** Records read from the configuration and the ledger *)
(* ===================================================================== *)

(** One entry of [ProjectInfo["project"]["sites"]].  The script reads the
    keys ["name"], ["year"] and ["ControlledEnvironment"]; the other keys of
    the template (season, latitude, ...) are never inspected. *)
Record site_dict := mkSite {
  s_name : pyval;
  s_year : pyval;
  s_ControlledEnvironment : pyval }.

(** The loaded ProjectSummary.yaml, as far as it is read. *)
Record project_info := mkProjectInfo {
  p_ShortName : string;
  p_sites : list site_dict }.

(** One node of NodeSummary.yaml: keys ["name"] and ["SensorPlatforms"]. *)
Record node_dict := mkNode {
  n_name : string;
  n_SensorPlatforms : list string }.

(** A pandas Series: labels with their values, in order. *)
Definition Series := list (string * pyval).

(** A row of FieldLog.csv as [iterrows] yields it.  The column set is
    fixed ([colnames] in [main], enforced by [_df_col_check]); the cells are
    whatever the CSV reader produced. *)
Record FieldRow := mkRow {
  Year : pyval;
  Month : pyval;
  Day : pyval;
  Sensor : pyval;
  Technician : pyval;
  Runs : pyval;
  Site : pyval;
  MakeNotesFile : pyval;
  CheckSum : pyval }.

Definition colnames : list string :=
  ["Year"; "Month"; "Day"; "Sensor"; "Technician"; "Runs"; "Site";
   "MakeNotesFile"; "CheckSum"].

(** [flrow.drop("CheckSum")]. *)
Definition drop_CheckSum (flrow : FieldRow) : Series :=
  [("Year", Year flrow); ("Month", Month flrow); ("Day", Day flrow);
   ("Sensor", Sensor flrow); ("Technician", Technician flrow);
   ("Runs", Runs flrow); ("Site", Site flrow);
   ("MakeNotesFile", MakeNotesFile flrow)].

#[global] Instance site_dict_eq_dec : EqDecision site_dict.
Proof. solve_decision. Defined.
#[global] Instance FieldRow_eq_dec : EqDecision FieldRow.
Proof. solve_decision. Defined.

(* ===================================================================== *)
(** ** Exceptions and results *)
(* ===================================================================== *)

(** The rule a row broke: the [error_message] handed to [_ErrorMessage]. *)
Inductive Cause :=
| TypeMismatch (field : string) (expected found : pytype)
| InvalidDate (text : string)
| FutureDate (date now : Z)
| TooHistorical (date past_date : Z)
| UnknownSensor (sensor : pyval) (valid : list string)
| InvalidRunCount (runs : pyval)
| UnknownSite (site : pyval) (sites : list site_dict)
| SiteYearMismatch (errorlog : list site_dict).

Inductive Exn :=
(** raised by [_ErrorMessage]: the ledger file, the whole row, the cause *)
| ValueError_row (flog_fname : string) (flrow : FieldRow) (cause : Cause)
(** raised by [_sitenamemaker]: the site and the YAML file named *)
| ValueError_site (site : site_dict) (psyl_fname : string)
| TypeError (operation : string)
| BdbQuit
| SystemExit
| FileNotFoundError (path : string)
| ParserError (path : string).

Inductive outcome (A : Type) :=
| Ok (a : A)
| Raise (e : Exn).
Arguments Ok {A} a.
Arguments Raise {A} e.

Definition obind {A B} (m : outcome A) (k : A → outcome B) : outcome B :=
  match m with
  | Ok a => k a
  | Raise e => Raise e
  end.

Notation "x ←? m ; k" := (obind m (fun x => k))
  (at level 100, m at next level, right associativity,
   format "'[' x  ←?  m ; '//' k ']'").
Notation "m ;;? k" := (obind m (fun _ => k))
  (at level 100, right associativity).

(** Raise when the test holds (an [if test: raise ...] statement). *)
Definition raise_when (test : bool) (e : Exn) : outcome unit :=
  if test then Raise e else Ok tt.

(* ===================================================================== *)
(** ** [_sitenamemaker] *)
(* ===================================================================== *)

Definition _sitenamemaker (site : site_dict) (psyl_fname : string)
  : outcome string :=
  let sitename := py_str (s_year site) +:+ py_str (s_name site) in
  if negb (bool_decide (s_ControlledEnvironment site = PyNone)) then
    if negb (py_in (s_ControlledEnvironment site) [PyBool true; PyBool false])
    then Raise (ValueError_site site psyl_fname)
    else if py_truth (s_ControlledEnvironment site)
         then Ok (sitename +:+ "_C")
         else Ok (sitename +:+ "_F")
  else Ok sitename.

(* ===================================================================== *)
(** ** The libraries the script calls *)
(* ===================================================================== *)

(** Observable actions, in the order the script performs them. *)
Inductive Event :=
| EvMakedirs (path : string)          (* pymkdir: print(path); os.makedirs(path) *)
| EvTouch (path : string)             (* pathlib.Path(path).touch() *)
| EvToCsv (path : string)             (* DataFrame.to_csv(path, index=False) *)
| EvYamlDump (path : string)          (* yaml.dump(template, path) *)
| EvGitAdd (path : string)            (* repo.git.add(path) *)
| EvGitPull
| EvGitCommit
| EvGitPush
| EvChecksumConflict (flog_fname : string) (flrow : FieldRow) (check : pyfloat)
| EvBreakpoint                        (* breakpoint() *)
| EvNotice (text : string).           (* any other print *)

(** What the operator does at the debugger prompt opened by [breakpoint()]:
    resume the program, or quit the session ([bdb.BdbQuit] is raised; this
    is also what an exhausted standard input does). *)
Inductive pdb_cmd := pdb_continue | pdb_quit.

(** The two pandas entry points whose results the script depends on and
    whose code is pandas' own:
    - [pd.util.hash_pandas_object] on a Series: one unsigned 64-bit hash per
      element;
    - [pd.Timestamp] on the text [f"{Year}-{Month}-{Day}"]: the instant in
      nanoseconds since the epoch, or nothing when pandas raises. *)
Class Pandas := {
  hash_pandas_object : Series → list Z;
  Timestamp : string → option Z }.

(** [pd.Timedelta(hours=12)] and [pd.Timedelta(days=14)], in nanoseconds. *)
Definition hours_12 : Z := 12 * 3600 * 1000000000.
Definition days_14 : Z := 14 * 86400 * 1000000000.

(** The default of [Rowchecker]'s parameter [past_date], evaluated once,
    when the [def] statement runs: fourteen days before that instant. *)
Definition default_past_date (import_time : Z) : Z := import_time - days_14.

(* ===================================================================== *)
(** ** [Rowchecker] *)
(* ===================================================================== *)

Definition uint64 (z : Z) : Z := z mod 2 ^ 64.

(** [type(flrow[vname]) == T] for each listed column, first failure wins. *)
Fixpoint first_dtype_error (T : pytype) (fields : list (string * (FieldRow → pyval)))
    (flrow : FieldRow) : option Cause :=
  match fields with
  | [] => None
  | (vname, get) :: rest =>
      if bool_decide (type_of (get flrow) = T)
      then first_dtype_error T rest flrow
      else Some (TypeMismatch vname T (type_of (get flrow)))
  end.

Definition int_fields : list (string * (FieldRow → pyval)) :=
  [("Year", Year); ("Month", Month); ("Day", Day); ("Runs", Runs)].
Definition str_fields : list (string * (FieldRow → pyval)) :=
  [("Technician", Technician); ("Sensor", Sensor); ("Site", Site)].

(** [prow[prow == True].index]: the labels whose cell equals [True]. *)
Definition enabled_sensors (prow : Series) : list string :=
  (filter (λ kv, py_eq kv.2 (PyBool true) = true) prow).*1.

(** [label in index] for a pandas Index of strings. *)
Definition in_index (label : pyval) (index : list string) : bool :=
  match label with
  | PyStr s => bool_decide (s ∈ index)
  | _ => false
  end.

(** [v < n] for an integer [n]; the script applies it to a value already
    known to be an [int]. *)
Definition py_lt_int (v : pyval) (n : Z) : bool :=
  match num_val v with
  | Some (FInt x) => bool_decide (x < n)
  | _ => false
  end.

(** The loop of lines 577-585: the first site with the row's name and the
    row's year; same-named sites of another year are collected on the way. *)
Fixpoint find_site (sites : list site_dict) (flrow : FieldRow)
    (errorlog : list site_dict) : option site_dict * list site_dict :=
  match sites with
  | [] => (None, errorlog)
  | site :: rest =>
      if py_eq (s_name site) (Site flrow) then
        if negb (py_eq (s_year site) (Year flrow))
        then find_site rest flrow (errorlog ++ [site])   (* continue *)
        else (Some site, errorlog)                       (* break *)
      else find_site rest flrow errorlog
  end.

(** [f"{flrow.Year}-{flrow.Month}-{flrow.Day}"], the text handed to
    [pd.Timestamp]. *)
Definition date_text (flrow : FieldRow) : string :=
  py_str (Year flrow) +:+ "-" +:+ py_str (Month flrow) +:+ "-" +:+
  py_str (Day flrow).

(** The result of the field-level checks with [check] set afterwards: what
    a stage that raises nothing and only passes [check] through yields. *)
Definition returning (check : option pyfloat)
    (o : outcome (option pyfloat * site_dict))
  : outcome (option pyfloat * site_dict) :=
  match o with
  | Ok (_, site) => Ok (check, site)
  | Raise e => Raise e
  end.

Section Rowchecker.
Context `{Pandas}.

(** Lines 525-526: [float(hashes.sum() % 100000000)].  The sum of a uint64
    Series wraps around at 2^64. *)
Definition row_checksum (flrow : FieldRow) : pyfloat :=
  let hashes := hash_pandas_object (drop_CheckSum flrow) in
  FInt (uint64 (foldr Z.add 0 (uint64 <$> hashes)) mod 100000000).

(** Lines 527-536.  The result is the value of [check] afterwards: the
    recomputed checksum, or [None] when the stored one matches.  On a
    mismatch the script prints and calls [breakpoint()]; [sys.exit()] is
    commented out, so a resumed session falls through with [check] still
    holding the recomputed value. *)
Definition checksum_stage (dbg : pdb_cmd) (flog_fname : string) (flrow : FieldRow)
  : list Event * outcome (option pyfloat) :=
  let check := row_checksum flrow in
  match np_isnan (CheckSum flrow) with
  | None => ([], Raise (TypeError "isnan"))
  | Some true => ([], Ok (Some check))
  | Some false =>
      if negb (py_eq (PyFloat check) (CheckSum flrow)) then
        ([EvChecksumConflict flog_fname flrow check; EvBreakpoint],
         match dbg with
         | pdb_continue => Ok (Some check)
         | pdb_quit => Raise BdbQuit
         end)
      else ([], Ok None)
  end.

(** Lines 554-561, for a row whose [check] is not [None]. *)
Definition date_bounds (now : Z) (historical : bool) (past_date : Z)
    (flog_fname : string) (flrow : FieldRow) (date : Z) : outcome unit :=
  if bool_decide (date > now + hours_12) then
    Raise (ValueError_row flog_fname flrow (FutureDate date now))
  else if bool_decide (date < past_date) then
    raise_when (negb historical)
      (ValueError_row flog_fname flrow (TooHistorical date past_date))
  else Ok tt.

(** Lines 538-590: everything after the checksum comparison, for a given
    value of [check]. *)
Definition field_checks (now : Z) (flog_fname : string) (flrow : FieldRow)
    (prow : Series) (ProjectInfo : project_info) (historical : bool)
    (past_date : Z) (check : option pyfloat)
  : outcome (option pyfloat * site_dict) :=
  let _ErrorMessage := λ cause, ValueError_row flog_fname flrow cause in
  (* ========== Check all the dtypes rows ========== *)
  match first_dtype_error TInt int_fields flrow with
  | Some cause => Raise (_ErrorMessage cause)
  | None => Ok tt
  end ;;?
  match first_dtype_error TStr str_fields flrow with
  | Some cause => Raise (_ErrorMessage cause)
  | None => Ok tt
  end ;;?
  (* ========== Check the date of the row ========== *)
  let text := date_text flrow in
  date ←? match Timestamp text with
          | Some date => Ok date
          | None => Raise (_ErrorMessage (InvalidDate text))
          end ;
  (* +++++ Check if the date is in the future or past +++++ *)
  match check with
  | Some _ => date_bounds now historical past_date flog_fname flrow date
  | None => Ok tt
  end ;;?
  (* ========== Check if the sensor is valid ========== *)
  raise_when (negb (in_index (Sensor flrow) (enabled_sensors prow)))
    (_ErrorMessage (UnknownSensor (Sensor flrow) (enabled_sensors prow))) ;;?
  (* ========== Check the number of runs ========== *)
  raise_when (py_lt_int (Runs flrow) 1)
    (_ErrorMessage (InvalidRunCount (Runs flrow))) ;;?
  (* ========== Check the site name and year ========== *)
  if negb (py_in (Site flrow) (s_name <$> p_sites ProjectInfo)) then
    Raise (_ErrorMessage (UnknownSite (Site flrow) (p_sites ProjectInfo)))
  else
    match find_site (p_sites ProjectInfo) flrow [] with
    | (None, errorlog) => Raise (_ErrorMessage (SiteYearMismatch errorlog))
    | (Some outsite, _) => Ok (check, outsite)
    end.

(** [Rowchecker(flog_fname, flrow, prow, ProjectInfo, historical, past_date)].
    [now] is the reading of [pd.Timestamp.now()] and [dbg] the operator's
    answer should the debugger open.  The result pairs what was printed
    with the returned [(check, site)] or the exception raised. *)
Definition Rowchecker (now : Z) (dbg : pdb_cmd) (flog_fname : string)
    (flrow : FieldRow) (prow : Series) (ProjectInfo : project_info)
    (historical : bool) (past_date : Z)
  : list Event * outcome (option pyfloat * site_dict) :=
  let '(printed, stage) := checksum_stage dbg flog_fname flrow in
  (printed,
   check ←? stage ;
   field_checks now flog_fname flrow prow ProjectInfo historical past_date check).

End Rowchecker.

(* ===================================================================== *)
(** ** Tables, files and the working tree *)
(* ===================================================================== *)

(** A pandas DataFrame: the row labels and the columns in order, each with
    its cells.  Column order and repeated labels are observable
    ([dfx.columns.tolist() == colnms]), hence a list of columns. *)
Record DataFrame := mkDF {
  df_index : list pyval;
  df_data : list (string * list pyval) }.

Definition df_columns (df : DataFrame) : list string := (df_data df).*1.

(** [df.empty]: some axis has length zero. *)
Definition df_empty (df : DataFrame) : bool :=
  bool_decide (df_index df = []) || bool_decide (df_data df = []).

(** [dfx[col] = fill_val] for a label [col] the frame does not have yet: a
    new last column, every cell holding [fill_val]. *)
Definition df_add_column (fill_val : pyval) (dfx : DataFrame) (col : string)
  : DataFrame :=
  mkDF (df_index dfx)
       (df_data dfx ++ [(col, replicate (length (df_index dfx)) fill_val)]).

(** [dfx[colnms]]: for each requested label in turn, the column(s) carrying
    it. *)
Definition df_select (dfx : DataFrame) (colnms : list string) : DataFrame :=
  mkDF (df_index dfx)
       (c ← colnms; filter (λ kv, kv.1 = c) (df_data dfx)).

(** The Series [iterrows] yields for position [i]. *)
Definition df_row (df : DataFrame) (i : nat) : Series :=
  (λ kv, (kv.1, default PyNone (kv.2 !! i))) <$> df_data df.

(** [df.iterrows()]: label and row, top to bottom. *)
Definition iterrows (df : DataFrame) : list (pyval * Series) :=
  imap (λ i label, (label, df_row df i)) (df_index df).

(** [df.loc[index, col] = v] for an existing column [col]: the cell of every
    row labelled [index]. *)
Definition df_loc_set (df : DataFrame) (index : pyval) (col : string) (v : pyval)
  : DataFrame :=
  mkDF (df_index df)
       ((λ kv, if bool_decide (kv.1 = col)
               then (kv.1, zip_with (λ label cell,
                                       if py_eq label index then v else cell)
                                    (df_index df) kv.2)
               else kv) <$> df_data df).

(** Attribute access on a row of the field log ([frow.Year], ...). *)
Fixpoint series_get (label : string) (row : Series) : pyval :=
  match row with
  | [] => PyNone
  | (k, v) :: rest => if bool_decide (k = label) then v else series_get label rest
  end.

Definition FieldRow_of_Series (row : Series) : FieldRow :=
  mkRow (series_get "Year" row) (series_get "Month" row) (series_get "Day" row)
        (series_get "Sensor" row) (series_get "Technician" row)
        (series_get "Runs" row) (series_get "Site" row)
        (series_get "MakeNotesFile" row) (series_get "CheckSum" row).

(** What a file holds.  CSV and YAML text is kept parsed: the script never
    looks at the text, only at what pandas and PyYAML make of it. *)
Inductive FileBody :=
| CsvFile (table : list (string * list pyval))
| NodeYaml (nodes : list node_dict)
| ProjectYaml (info : project_info)
| EmptyFile.

(** A change reported by [repo.index.diff(..)]. *)
Record Diff := mkDiff {
  a_path : string;
  b_path : string;
  change_type : string }.

(** GitPython, as far as the script uses it.  The repository is a state of
    its own; [git add] and the diff against the working tree read the files.
    [head_tree_has] stands for the walk down [repo.head.commit.tree]. *)
Class GitPython := {
  Repo : Type;
  git_pull : Repo → string * Repo;
  git_add : string → gmap string FileBody → Repo → Repo;
  head_tree_has : string → Repo → bool;
  index_diff_HEAD : Repo → list Diff;
  index_diff_None : gmap string FileBody → Repo → list Diff;
  git_commit : Repo → Repo;
  git_push : Repo → Repo }.

(** Paths are the strings the script builds.  [slash_prefixes "" p] lists
    what precedes each separator of [p]. *)
Fixpoint slash_prefixes (acc : string) (path : string) : list string :=
  match path with
  | EmptyString => []
  | String c rest =>
      if bool_decide (c = "/"%char)
      then acc :: slash_prefixes (acc +:+ "/") rest
      else slash_prefixes (acc +:+ String c EmptyString) rest
  end.

(** The directories above [path]. *)
Definition ancestors (path : string) : list string :=
  filter (λ p, p ≠ EmptyString) (slash_prefixes EmptyString path).

(** [os.path.dirname(path)]. *)
Definition dirname (path : string) : string :=
  default EmptyString (last (slash_prefixes EmptyString path)).

(** [path.replace("./", "")]. *)
Fixpoint strip_dot_slash (path : string) : string :=
  match path with
  | String "." (String "/" rest) => strip_dot_slash rest
  | String c rest => String c (strip_dot_slash rest)
  | EmptyString => EmptyString
  end.

(* ===================================================================== *)
(** ** The run: working tree, repository, output *)
(* ===================================================================== *)

(** The command line ([argparse]): [--no-git], [--projectsYAML],
    [--historical]. *)
Record Args := mkArgs {
  no_git : bool;
  projectsYAML : string;
  historical : bool }.

(** What the run is given from outside: the system clock, as the instant
    [clock k] at which the [k]-th row of the run is validated, the instant
    the module was loaded (at which the default [past_date] was computed),
    and the operator at the debugger. *)
Record RunEnv := mkEnv {
  clock : nat → Z;
  import_time : Z;
  debugger : pdb_cmd }.

Section Builder.
Context `{Pandas} `{GitPython}.

Record World := mkWorld {
  dirs : gset string;               (* directories that exist *)
  files : gmap string FileBody;     (* regular files that exist *)
  repo : Repo;                      (* the git repository *)
  log : list Event;                 (* what happened so far, oldest first *)
  ticks : nat }.                    (* rows validated so far *)

(** Computations that read and change the world and may raise.  After a
    raise the world is as the exception left it: nothing is rolled back. *)
Definition M (A : Type) : Type := World → outcome A * World.

Definition ret {A} (a : A) : M A := λ w, (Ok a, w).
Definition raise {A} (e : Exn) : M A := λ w, (Raise e, w).
Definition bind {A B} (m : M A) (k : A → M B) : M B :=
  λ w, match m w with
       | (Ok a, w') => k a w'
       | (Raise e, w') => (Raise e, w')
       end.
Definition lift {A} (o : outcome A) : M A := λ w, (o, w).

Notation "x ←$ m ; k" := (bind m (fun x => k))
  (at level 100, m at next level, right associativity,
   format "'[' x  ←$  m ; '//' k ']'").
Notation "m ;;$ k" := (bind m (fun _ => k))
  (at level 100, right associativity).

(** [for x in xs: s = body(s, x)], stopping at the first exception. *)
Fixpoint for_each {A S} (body : S → A → M S) (xs : list A) (s : S) : M S :=
  match xs with
  | [] => ret s
  | x :: rest => s' ←$ body s x ; for_each body rest s'
  end.

Definition emit (ev : Event) : M unit :=
  λ w, (Ok tt, mkWorld (dirs w) (files w) (repo w) (log w ++ [ev]) (ticks w)).

Definition emit_all (evs : list Event) : M unit :=
  λ w, (Ok tt, mkWorld (dirs w) (files w) (repo w) (log w ++ evs) (ticks w)).

(** The instant at which the next row is validated: what
    [pd.Timestamp.now()] gives if [Rowchecker] reads it for that row (it
    does so only for a row with no checksum yet). *)
Definition read_clock (env : RunEnv) : M Z :=
  λ w, (Ok (clock env (ticks w)),
        mkWorld (dirs w) (files w) (repo w) (log w) (S (ticks w))).

(** *** The file system *)

Definition path_exists (path : string) (w : World) : bool :=
  bool_decide (path ∈ dirs w) || bool_decide (path ∈ dom (files w)).

Definition isfile (path : string) (w : World) : bool :=
  bool_decide (path ∈ dom (files w)).

(** [os.makedirs(path)]: the leaf and every missing directory above it.
    Where a regular file stands at a directory above the path,
    [os.makedirs] raises; this is left out here (see [unobstructed]
    below). *)
Definition makedirs (path : string) : M unit :=
  λ w, (Ok tt,
        mkWorld (dirs w ∪ list_to_set (ancestors path) ∪ {[path]})
                (files w) (repo w) (log w) (ticks w)).

(** [pymkdir(path)]. *)
Definition pymkdir (path : string) : M unit :=
  λ w, if path_exists path w then (Ok tt, w)
       else (emit (EvMakedirs path) ;;$ makedirs path) w.

(** [pathlib.Path(path).touch()]: an empty file appears unless one exists;
    the directory holding it must exist. *)
Definition touch (path : string) : M unit :=
  λ w, if bool_decide (dirname path ∈ dirs w) ||
          bool_decide (dirname path = EmptyString)
       then (emit (EvTouch path)) (
              mkWorld (dirs w)
                      (if isfile path w then files w
                       else <[path := EmptyFile]> (files w))
                      (repo w) (log w) (ticks w))
       else (Raise (FileNotFoundError path), w).

Definition write_file (path : string) (body : FileBody) : M unit :=
  λ w, (Ok tt, mkWorld (dirs w) (<[path := body]> (files w)) (repo w) (log w)
                       (ticks w)).

(** [df.to_csv(fname, index=False)]: header and cells; the row labels are
    not written.  The cells are kept as they are, which is what a write
    and a read make of the cells [pd.read_csv] delivers and of the
    checksum.  A [None] cell, which pandas writes as an empty field and
    reads back as not-a-number, is not converted: a table with such a cell
    is not what its file gives back. *)
Definition to_csv (df : DataFrame) (fname : string) : M unit :=
  emit (EvToCsv fname) ;;$ write_file fname (CsvFile (df_data df)).

(** [pd.read_csv(fname)]: the rows are labelled 0, 1, 2, ... *)
Definition read_csv (fname : string) : M DataFrame :=
  λ w, match files w !! fname with
       | Some (CsvFile ((c, cells) :: table)) =>
           (Ok (mkDF (PyInt <$> (Z.of_nat <$> seq 0 (length cells)))
                     ((c, cells) :: table)), w)
       | Some _ => (Raise (ParserError fname), w)
       | None => (Raise (FileNotFoundError fname), w)
       end.

(** [pd.read_csv(fname, header=0, index_col=0)]: the first column labels
    the rows. *)
Definition read_csv_index_col_0 (fname : string) : M DataFrame :=
  λ w, match files w !! fname with
       | Some (CsvFile ((_, labels) :: table)) => (Ok (mkDF labels table), w)
       | Some _ => (Raise (ParserError fname), w)
       | None => (Raise (FileNotFoundError fname), w)
       end.

(** [yaml.safe_load(open(fname))] where a node file, respectively a project
    file, is expected. *)
Definition load_node_yaml (fname : string) : M (list node_dict) :=
  λ w, match files w !! fname with
       | Some (NodeYaml nodes) => (Ok nodes, w)
       | Some _ => (Raise (ParserError fname), w)
       | None => (Raise (FileNotFoundError fname), w)
       end.

Definition load_project_yaml (fname : string) : M project_info :=
  λ w, match files w !! fname with
       | Some (ProjectYaml info) => (Ok info, w)
       | Some _ => (Raise (ParserError fname), w)
       | None => (Raise (FileNotFoundError fname), w)
       end.

(** *** The repository *)

(** [repo.git.add(fname)]. *)
Definition repo_git_add (fname : string) : M unit :=
  λ w, (Ok tt, mkWorld (dirs w) (files w) (git_add fname (files w) (repo w))
                       (log w ++ [EvGitAdd fname]) (ticks w)).

(** [is_file_staged(repo, filepath)]. *)
Definition is_file_staged (filepath : string) (w : World) : bool :=
  let relpath := strip_dot_slash filepath in
  let staged_files := a_path <$> index_diff_HEAD (repo w) in
  bool_decide (relpath ∈ staged_files).

(** [fileInRepo(repo, filePathIN)]. *)
Definition fileInRepo (filePathIN : string) (w : World) : bool :=
  head_tree_has (strip_dot_slash filePathIN) (repo w).

(** [GitChanged(repo, fname, gitmod)]. *)
Definition GitChanged (fname : string) (gitmod : bool) : M bool :=
  gitmod ←$ (λ w, (if negb (fileInRepo fname w)
                   then emit (EvNotice "not in the git repo") ;;$
                        repo_git_add fname ;;$ ret true
                   else ret gitmod) w) ;
  λ w,
    let rel := strip_dot_slash fname in
    match list_find (λ d, a_path d = rel ∨ b_path d = rel)
                    (index_diff_None (files w) (repo w)) with
    | Some (_, diff) =>
        (if bool_decide (change_type diff = "M")
         then repo_git_add fname ;;$ ret true
         else emit (EvNotice "change type is not M") ;;$ ret gitmod) w
    | None => ret gitmod w
    end.

(** [GitPull(repo)]: anything but an up-to-date pull ends the run.  Of the
    pull only the log and the repository are kept: a pull that is not up to
    date also rewrites the working tree, which is left out here. *)
Definition GitPull (env : RunEnv) : M unit :=
  pull_log ←$ (λ w, let '(pull_log, r) := git_pull (repo w) in
                    (Ok pull_log,
                     mkWorld (dirs w) (files w) r (log w ++ [EvGitPull])
                             (ticks w))) ;
  if negb (bool_decide (pull_log = "Already up to date.")) then
    emit (EvNotice "The remote git repo is not in sync") ;;$
    emit EvBreakpoint ;;$
    match debugger env with
    | pdb_continue => raise SystemExit
    | pdb_quit => raise BdbQuit
    end
  else ret tt.

(* ===================================================================== *)
(** ** The functions of ProjectBuilder.py *)
(* ===================================================================== *)

(** [_df_col_check(dfx, fname, colnms, args, repo, gitmod, fill_val)].

    [missing_cols == {}] compares a set with an empty dict and is false
    whatever the set holds, so the inner branch is always taken.  The set is
    walked in the order of [colnms]; the reordering that follows makes the
    walk's order immaterial. *)
Definition _df_col_check (dfx : DataFrame) (fname : string)
    (colnms : list string) (args : Args) (gitmod : bool) (fill_val : pyval)
  : M (DataFrame * bool) :=
  r ←$ (if negb (bool_decide (df_columns dfx = colnms)) then
          (* +++++ Column missmatch +++++ *)
          let missing_cols :=
            filter (λ c, c ∉ df_columns dfx) (remove_dups colnms) in
          emit (EvNotice "col missing") ;;$
          let dfx := foldl (df_add_column fill_val) dfx missing_cols in
          (* ===== Reorder and save ===== *)
          let dfx := df_select dfx colnms in
          to_csv dfx fname ;;$
          if negb (no_git args)
          then repo_git_add fname ;;$ ret (dfx, true)
          else ret (dfx, gitmod)
        else ret (dfx, gitmod)) ;
  let '(dfx, gitmod) := r in
  (* +++++ Check if the file is in the repo +++++ *)
  if negb (no_git args) then
    λ w, (if negb (fileInRepo fname w || is_file_staged fname w)
          then emit (EvNotice "not in the git repo") ;;$
               repo_git_add fname ;;$ ret (dfx, true)
          else ret (dfx, gitmod)) w
  else ret (dfx, gitmod).

(** The template [_projYAML] writes for a new project. *)
Definition project_template (project : string) : project_info :=
  mkProjectInfo project [mkSite (PyStr "") (PyInt (-9999)) PyNone].

(** [_projYAML(project, pym_fn, args, repo, gitmod)]. *)
Definition _projYAML (project : string) (pym_fn : string) (args : Args)
    (gitmod : bool) : M (project_info * bool) :=
  gitmod ←$ (λ w, (if negb (isfile pym_fn w) then
                     emit (EvYamlDump pym_fn) ;;$
                     write_file pym_fn (ProjectYaml (project_template project)) ;;$
                     if negb (no_git args)
                     then repo_git_add pym_fn ;;$ ret true
                     else ret gitmod
                   else ret gitmod) w) ;
  (* +++++ Load the yaml file +++++ *)
  Proj_data ←$ load_project_yaml pym_fn ;
  gitmod ←$ (if negb (no_git args) then GitChanged pym_fn gitmod
             else ret gitmod) ;
  ret (Proj_data, gitmod).

(** [NodeChecker(args, node, gitmod)]. *)
Definition NodeChecker (args : Args) (node : node_dict) (gitmod : bool)
  : M (DataFrame * bool) :=
  pymkdir ("./" +:+ n_name node) ;;$
  let pfilename :=
    "./" +:+ n_name node +:+ "/" +:+ n_name node +:+ "_ProjectsSummary.csv" in
  gitmod ←$ (λ w, (if negb (isfile pfilename w) then
                     let df_proj :=
                       mkDF [] ((λ c, (c, [])) <$>
                                ("Project" :: n_SensorPlatforms node)) in
                     to_csv df_proj pfilename ;;$
                     emit (EvNotice "New Node Project Summary table built") ;;$
                     if negb (no_git args)
                     then repo_git_add pfilename ;;$ ret true
                     else ret gitmod
                   else ret gitmod) w) ;
  df ←$ read_csv_index_col_0 pfilename ;
  r ←$ _df_col_check df pfilename (n_SensorPlatforms node) args gitmod
         (PyBool false) ;
  let '(df, gitmod) := r in
  gitmod ←$ (if negb (no_git args) then GitChanged pfilename gitmod
             else ret gitmod) ;
  ret (df, gitmod).

(** [projBuilder(project, node, colnames, args, repo, gitmod)]; the result
    is [(df_flog, gitmod, flog_fname, Site_names, ProjectInfo)]. *)
Definition projBuilder (project : string) (node : node_dict)
    (colnames : list string) (args : Args) (gitmod : bool)
  : M (DataFrame * bool * string * list string * project_info) :=
  let root := "./" +:+ n_name node +:+ "/" +:+ project in
  for_each (λ _ fld, pymkdir (root +:+ "/" +:+ fld))
           ["Documentation"; "Code"] tt ;;$
  let psyl_fname := root +:+ "/ProjectSummary.yaml" in
  r ←$ _projYAML project psyl_fname args gitmod ;
  let '(ProjectInfo, gitmod) := r in
  let flog_fname := root +:+ "/FieldLog.csv" in
  r ←$ (λ w, (if negb (isfile flog_fname w) then
                let df_flogO := mkDF [] ((λ c, (c, [])) <$> colnames) in
                to_csv df_flogO flog_fname ;;$
                gitmod ←$ (if negb (no_git args)
                           then repo_git_add flog_fname ;;$ ret true
                           else ret gitmod) ;
                df_flog ←$ read_csv flog_fname ;
                ret (df_flog, gitmod)
              else
                df_flog ←$ read_csv flog_fname ;
                _df_col_check df_flog flog_fname colnames args gitmod PyNone) w) ;
  let '(df_flog, gitmod) := r in
  Site_names ←$
    for_each (λ Site_names site,
                if negb (py_eq (s_name site) (PyStr "")) &&
                   negb (py_eq (s_year site) (PyInt (-9999))) then
                  sitename ←$ lift (_sitenamemaker site psyl_fname) ;
                  pymkdir (root +:+ "/" +:+ sitename) ;;$
                  for_each (λ _ fld,
                              pymkdir (root +:+ "/" +:+ sitename +:+ "/" +:+ fld))
                           ["Documentation"; "Code"] tt ;;$
                  ret ((Site_names ++ [sitename])%list)
                else ret Site_names)
             (p_sites ProjectInfo) [] ;
  ret (df_flog, gitmod, flog_fname, Site_names, ProjectInfo).

(** [f"{v:02d}"] on a cell: integers (and [bool], a subclass) are
    formatted, anything else makes Python raise. *)
Definition format_02d (v : pyval) : outcome string :=
  match v with
  | PyInt z | NpInt64 z => Ok (fmt_02d z)
  | PyBool b => Ok (fmt_02d (Z.b2z b))
  | _ => Raise (TypeError "format 02d")
  end.

(** [np.arange(n)] for an integer [n]: 0, 1, ..., n-1. *)
Definition np_arange (v : pyval) : outcome (list Z) :=
  match v with
  | PyInt z | NpInt64 z => Ok (Z.of_nat <$> seq 0 (Z.to_nat z))
  | PyBool b => Ok (Z.of_nat <$> seq 0 (Z.to_nat (Z.b2z b)))
  | _ => Raise (TypeError "arange")
  end.

Definition tiers : list string := ["Tier0_raw"; "Tier1_proc"; "Tier2_traits"].

(** Lines 127-144 of [Sitebuilder]: the sensor folder, the day folder with
    its run and tier folders, the notes file. *)
Definition Sitebuilder_folders (frow : FieldRow) (site : site_dict)
    (project : string) (node : node_dict) : M unit :=
  (* ========== Make the site name ========== *)
  sitename ←$ lift (_sitenamemaker site "") ;
  let sensor_folder := "./" +:+ n_name node +:+ "/" +:+ project +:+ "/" +:+
                       sitename +:+ "/" +:+ py_str (Sensor frow) in
  pymkdir sensor_folder ;;$
  (* +++++ Make the field day folder +++++ *)
  yy ←$ lift (format_02d (Year frow)) ;
  mm ←$ lift (format_02d (Month frow)) ;
  dd ←$ lift (format_02d (Day frow)) ;
  let dname := yy +:+ mm +:+ dd in
  let folder := sensor_folder +:+ "/" +:+ dname in
  runs ←$ lift (np_arange (Runs frow)) ;
  for_each (λ _ runNo,
              for_each (λ _ fldr,
                          pymkdir (folder +:+ "/run_" +:+ fmt_02d runNo +:+
                                   "/" +:+ fldr))
                       tiers tt)
           runs tt ;;$
  (* +++++ Make a log file +++++ *)
  if py_eq (MakeNotesFile frow) (PyBool true)
  then touch (folder +:+ "/FieldNotes.txt")
  else ret tt.

(** [Sitebuilder(flog_fname, df_flog, index, frow, check, site, project,
    node, args, repo, gitmod)]: the folders, then (lines 146-154) the
    checksum written back unless [check] is [None]. *)
Definition Sitebuilder (flog_fname : string) (df_flog : DataFrame)
    (index : pyval) (frow : FieldRow) (check : option pyfloat)
    (site : site_dict) (project : string) (node : node_dict) (args : Args)
    (gitmod : bool) : M (DataFrame * bool) :=
  Sitebuilder_folders frow site project node ;;$
  (* ========== Add the Check Sum and add the file to git ========== *)
  match check with
  | Some c =>
      let df_flog := df_loc_set df_flog index "CheckSum" (PyFloat c) in
      to_csv df_flog flog_fname ;;$
      if negb (no_git args)
      then repo_git_add flog_fname ;;$ ret (df_flog, true)
      else ret (df_flog, gitmod)
  | None => ret (df_flog, gitmod)
  end.

(** The body of the loop over the field log (lines 62-67 of [main]): one
    row is validated, then its folders are built. *)
Definition field_day (env : RunEnv) (args : Args) (flog_fname : string)
    (prow : Series) (ProjectInfo : project_info) (project : string)
    (node : node_dict) (state : DataFrame * bool) (entry : pyval * Series)
  : M (DataFrame * bool) :=
  let '(df_flog, gitmod) := state in
  let '(index, frow_cells) := entry in
  let frow := FieldRow_of_Series frow_cells in
  (* +++++ Sanity check the row +++++ *)
  now ←$ read_clock env ;
  let '(printed, result) :=
    Rowchecker now (debugger env) flog_fname frow prow ProjectInfo
               (historical args) (default_past_date (import_time env)) in
  emit_all printed ;;$
  r ←$ lift result ;
  let '(check, site) := r in
  (* +++++ Make the site name +++++ *)
  Sitebuilder flog_fname df_flog index frow check site project node args gitmod.

(** The body of the loop over the projects of a node (lines 54-67). *)
Definition project_step (env : RunEnv) (args : Args) (node : node_dict)
    (gitmod : bool) (entry : pyval * Series) : M bool :=
  let '(project_label, row) := entry in
  let project := py_str project_label in
  r ←$ projBuilder project node colnames args gitmod ;
  let '(df_flog, gitmod, flog_fname, Site_names, ProjectInfo) := r in
  if negb (df_empty df_flog) then
    r ←$ for_each (field_day env args flog_fname row ProjectInfo project node)
                  (iterrows df_flog) (df_flog, gitmod) ;
    ret r.2
  else ret gitmod.

(** The loop over the nodes (lines 42-67).  [break] leaves it. *)
Fixpoint node_loop (env : RunEnv) (args : Args) (nodes : list node_dict)
    (gitmod : bool) : M bool :=
  match nodes with
  | [] => ret gitmod
  | node :: rest =>
      r ←$ NodeChecker args node gitmod ;
      let '(df, gitmod) := r in
      if df_empty df then
        ret gitmod   (* break *)
      else
        gitmod ←$ for_each (project_step env args node) (iterrows df) gitmod ;
        node_loop env args rest gitmod
  end.

(** [main(args, repo)].  The commit and the push at the end are taken to
    succeed; a push that fails raises after the commit was made, which is
    left out here. *)
Definition main (env : RunEnv) (args : Args) : M unit :=
  (if negb (no_git args) then GitPull env else ret tt) ;;$
  nodeinfo ←$ load_node_yaml (projectsYAML args) ;
  gitmod ←$ node_loop env args nodeinfo false ;
  if gitmod then
    if negb (no_git args) then
      emit (EvNotice "Code Sucessfull. New files and folders created.") ;;$
      (λ w, (Ok tt, mkWorld (dirs w) (files w) (git_push (git_commit (repo w)))
                            (log w ++ [EvGitCommit; EvGitPush]) (ticks w)))
    else emit (EvNotice "Code Sucessfull. Git Disabled")
  else emit (EvNotice "Code Sucessfull. No new files created").

End Builder.

(* ===================================================================== *)
(** ** A concrete setting for examples *)
(* ===================================================================== *)

(** The properties below hold for every implementation of the two library
    interfaces.  To run the functions on examples we fix one of each: a
    calendar reading of [Y-M-D] texts, a polynomial hash, and a repository
    that accepts everything and reports nothing. *)
Module Demo.

Definition digit_of (c : ascii) : option Z :=
  let n := Z.of_nat (nat_of_ascii c) in
  if bool_decide (48 <= n <= 57) then Some (n - 48) else None.

(** The decimal number a non-empty run of digits denotes. *)
Fixpoint read_digits (acc : Z) (seen : bool) (s : string) : option Z :=
  match s with
  | EmptyString => if seen then Some acc else None
  | String c rest =>
      match digit_of c with
      | Some d => read_digits (10 * acc + d) true rest
      | None => None
      end
  end.

(** The fields of a text separated by [-]. *)
Fixpoint split_dash (field : string) (s : string) : list string :=
  match s with
  | EmptyString => [field]
  | String c rest =>
      if bool_decide (c = "-"%char)
      then field :: split_dash EmptyString rest
      else split_dash (field +:+ String c EmptyString) rest
  end.

Definition is_leap (y : Z) : bool :=
  bool_decide (y mod 4 = 0) && (negb (bool_decide (y mod 100 = 0)) ||
                                bool_decide (y mod 400 = 0)).

Definition days_in_month (y m : Z) : Z :=
  if bool_decide (m = 2) then (if is_leap y then 29 else 28)
  else if bool_decide (m = 4 ∨ m = 6 ∨ m = 9 ∨ m = 11) then 30 else 31.

(** Days from 1970-01-01 to the civil date [y-m-d]. *)
Definition days_from_civil (y m d : Z) : Z :=
  let y := if bool_decide (m <= 2) then y - 1 else y in
  let era := y / 400 in
  let yoe := y - era * 400 in
  let doy := (153 * (if bool_decide (m > 2) then m - 3 else m + 9) + 2) / 5
             + d - 1 in
  let doe := yoe * 365 + yoe / 4 - yoe / 100 + doy in
  era * 146097 + doe - 719468.

Definition calendar_Timestamp (text : string) : option Z :=
  match read_digits 0 false <$> split_dash EmptyString text with
  | [Some y; Some m; Some d] =>
      if bool_decide (1678 <= y <= 2261) && bool_decide (1 <= m <= 12) &&
         bool_decide (1 <= d <= days_in_month y m)
      then Some (days_from_civil y m d * 86400 * 1000000000)
      else None
  | _ => None
  end.

Fixpoint string_code (acc : Z) (s : string) : Z :=
  match s with
  | EmptyString => acc
  | String c rest => string_code ((acc * 1000003 + Z.of_nat (nat_of_ascii c))
                                  mod 2 ^ 64) rest
  end.

Definition poly_hash (s : Series) : list Z :=
  (λ kv, string_code (string_code 3430008 kv.1) (py_str kv.2)) <$> s.

#[export] Instance pandas : Pandas := {
  hash_pandas_object := poly_hash;
  Timestamp := calendar_Timestamp }.

#[export] Instance git : GitPython := {
  Repo := unit;
  git_pull := λ r, ("Already up to date.", r);
  git_add := λ _ _ r, r;
  head_tree_has := λ _ _, false;
  index_diff_HEAD := λ _, [];
  index_diff_None := λ _ _, [];
  git_commit := λ r, r;
  git_push := λ r, r }.

(** Midnight of a civil date and a time of day, in nanoseconds. *)
Definition at_time (y m d hours : Z) : Z :=
  (days_from_civil y m d * 86400 + hours * 3600) * 1000000000.

(** The scenario of the specification: node Narrabri with platforms GOBI and
    M3M, project P1 with M3M enabled, one field site Main of 2024. *)
Definition Narrabri : node_dict := mkNode "Narrabri" ["GOBI"; "M3M"].
Definition site_Main : site_dict :=
  mkSite (PyStr "Main") (PyInt 2024) (PyBool false).
Definition P1_info : project_info := mkProjectInfo "P1" [site_Main].
Definition P1_prow : Series := [("GOBI", PyBool false); ("M3M", PyBool true)].

(** The ledger row [{2024,6,1,"M3M","Tech1",2,"Main",false,NaN}]. *)
Definition row_20240601 : FieldRow :=
  mkRow (PyInt 2024) (PyInt 6) (PyInt 1) (PyStr "M3M") (PyStr "Tech1")
        (PyInt 2) (PyStr "Main") (PyBool false) (PyFloat NaN).

Definition with_CheckSum (flrow : FieldRow) (c : pyval) : FieldRow :=
  mkRow (Year flrow) (Month flrow) (Day flrow) (Sensor flrow)
        (Technician flrow) (Runs flrow) (Site flrow) (MakeNotesFile flrow) c.

Definition with_Runs (flrow : FieldRow) (n : pyval) : FieldRow :=
  mkRow (Year flrow) (Month flrow) (Day flrow) (Sensor flrow)
        (Technician flrow) n (Site flrow) (MakeNotesFile flrow) (CheckSum flrow).

(** The row as the ledger holds it after a successful run: stamped with
    its own checksum. *)
Definition stamped (flrow : FieldRow) : FieldRow :=
  with_CheckSum flrow (PyFloat (row_checksum flrow)).

(** Variants of the row: stamped and then edited by hand (three runs
    instead of two); stamped with no run at all; logged with a sensor the
    project does not have; with a boolean where the year should be; asking
    for a notes file. *)
Definition tampered : FieldRow :=
  with_Runs (stamped row_20240601) (PyInt 3).
Definition stamped_no_runs : FieldRow :=
  stamped (with_Runs row_20240601 (PyInt 0)).
Definition thermal : FieldRow :=
  mkRow (PyInt 2024) (PyInt 6) (PyInt 1) (PyStr "Thermal") (PyStr "Tech1")
        (PyInt 2) (PyStr "Main") (PyBool false) (PyFloat NaN).
Definition bool_year : FieldRow :=
  mkRow (PyBool true) (PyInt 6) (PyInt 1) (PyStr "M3M") (PyStr "Tech1")
        (PyInt 2) (PyStr "Main") (PyBool false) (PyFloat NaN).

(** The run is made at noon of 2024-06-02, the module loaded just then. *)
Definition noon_20240602 : Z := at_time 2024 6 2 12.
Definition past_20240602 : Z := default_past_date noon_20240602.
(** Twelve hours before the row's date. *)
Definition noon_20240531 : Z := at_time 2024 5 31 12.
Definition env (dbg : pdb_cmd) : RunEnv :=
  mkEnv (λ _, noon_20240602) noon_20240602 dbg.
Definition args_no_git : Args := mkArgs true "./NodeSummary.yaml" false.

End Demo.

(** The scenario's files and folders. *)
Module Scenario.
Import Demo.

Definition node_yaml : string := "./NodeSummary.yaml".
Definition summary_csv : string := "./Narrabri/Narrabri_ProjectsSummary.csv".
Definition project_yaml : string := "./Narrabri/P1/ProjectSummary.yaml".
Definition flog_fname : string := "./Narrabri/P1/FieldLog.csv".

(** FieldLog.csv holding the single row [flrow]. *)
Definition ledger_table (flrow : FieldRow) : list (string * list pyval) :=
  [("Year", [Year flrow]); ("Month", [Month flrow]); ("Day", [Day flrow]);
   ("Sensor", [Sensor flrow]); ("Technician", [Technician flrow]);
   ("Runs", [Runs flrow]); ("Site", [Site flrow]);
   ("MakeNotesFile", [MakeNotesFile flrow]); ("CheckSum", [CheckSum flrow])].

Definition ledger (flrow : FieldRow) : DataFrame :=
  mkDF [PyInt 0] (ledger_table flrow).

(** The row as [iterrows] hands it over. *)
Definition cells_of (flrow : FieldRow) : Series := df_row (ledger flrow) 0.

(** The project summary of the node: P1 may use M3M. *)
Definition summary_table : list (string * list pyval) :=
  [("Project", [PyStr "P1"]); ("GOBI", [PyBool false]); ("M3M", [PyBool true])].

(** The folders the row of 2024-06-01 calls for. *)
Definition sensor_folder : string := "./Narrabri/P1/2024Main_F/M3M".
Definition day_folder : string := "./Narrabri/P1/2024Main_F/M3M/20240601".
Definition row_folders : list string :=
  [sensor_folder; day_folder;
   day_folder +:+ "/run_00";
   day_folder +:+ "/run_00/Tier0_raw";
   day_folder +:+ "/run_00/Tier1_proc";
   day_folder +:+ "/run_00/Tier2_traits";
   day_folder +:+ "/run_01";
   day_folder +:+ "/run_01/Tier0_raw";
   day_folder +:+ "/run_01/Tier1_proc";
   day_folder +:+ "/run_01/Tier2_traits"].

(** Those of them [Sitebuilder] names in a call of [pymkdir]: the sensor
    folder and the tier folders. *)
Definition made_folders : list string :=
  [sensor_folder;
   day_folder +:+ "/run_00/Tier0_raw";
   day_folder +:+ "/run_00/Tier1_proc";
   day_folder +:+ "/run_00/Tier2_traits";
   day_folder +:+ "/run_01/Tier0_raw";
   day_folder +:+ "/run_01/Tier1_proc";
   day_folder +:+ "/run_01/Tier2_traits"].

(** The working tree before the run: the node file, the summary table, the
    project file with the site entered by hand, the ledger with the new
    row, and the project's folders from an earlier run. *)
Definition tree (nodes : list node_dict) (flrow : FieldRow) : World :=
  mkWorld {[ "."; "./Narrabri"; "./Narrabri/P1";
             "./Narrabri/P1/Documentation"; "./Narrabri/P1/Code" ]}
          {[ node_yaml := NodeYaml nodes;
             summary_csv := CsvFile summary_table;
             project_yaml := ProjectYaml P1_info;
             flog_fname := CsvFile (ledger_table flrow) ]}
          tt [] 0.

(** The same tree once [projBuilder] has made the site's folders. *)
Definition tree_with_site (flrow : FieldRow) : World :=
  mkWorld (dirs (tree [Narrabri] flrow) ∪
           {[ "./Narrabri/P1/2024Main_F";
              "./Narrabri/P1/2024Main_F/Documentation";
              "./Narrabri/P1/2024Main_F/Code" ]})
          (files (tree [Narrabri] flrow)) tt [] 0.

(** A node that has no project yet. *)
Definition Camden : node_dict := mkNode "Camden" ["GOBI"].

(** A summary table read before GOBI was added to the node. *)
Definition old_summary : DataFrame :=
  mkDF [PyStr "P1"] [("M3M", [PyBool true])].

End Scenario.

(** Further cases: a repository whose remote has moved on, a summary table
    and a ledger written before a column was added. *)
Module Cases.
Import Demo.

(** The pull brings new commits. *)
Definition git_behind : GitPython := {|
  Repo := unit;
  git_pull := λ r, ("Updating 3f2a1c9..7b4e2d0", r);
  git_add := λ _ _ r, r;
  head_tree_has := λ _ _, false;
  index_diff_HEAD := λ _, [];
  index_diff_None := λ _ _, [];
  git_commit := λ r, r;
  git_push := λ r, r |}.

Definition args_git : Args := mkArgs false "./NodeSummary.yaml" false.

(** The scenario's tree, in that repository. *)
Definition tree_behind : @World git_behind :=
  @mkWorld git_behind (dirs (Scenario.tree [Narrabri] row_20240601))
           (files (Scenario.tree [Narrabri] row_20240601)) tt [] 0.


(** The ledger of the scenario when it has no CheckSum column. *)
Definition ledger_before_CheckSum : DataFrame :=
  mkDF [PyInt 0] (take 8 (Scenario.ledger_table row_20240601)).

Definition tree_before_CheckSum : World :=
  mkWorld (dirs (Scenario.tree_with_site row_20240601))
          (<[Scenario.flog_fname := CsvFile (df_data ledger_before_CheckSum)]>
             (files (Scenario.tree_with_site row_20240601)))
          tt [] 0.

(** A year after the scenario's run. *)
Definition noon_20250602 : Z := at_time 2025 6 2 12.

End Cases.

(* ===================================================================== *)
(** ** Vocabulary of the properties *)
(* ===================================================================== *)

(** The table [_df_col_check] builds when the columns differ. *)
Definition reconciled (fill_val : pyval) (dfx : DataFrame)
    (colnms : list string) : DataFrame :=
  df_select
    (foldl (df_add_column fill_val) dfx
           (filter (λ c, c ∉ df_columns dfx) (remove_dups colnms)))
    colnms.

(** The folders [Sitebuilder] names for a row: the sensor folder, the day
    folder in it, and the tier folders of each run. *)
Definition sensor_folder_of (node : node_dict) (project sitename : string)
    (frow : FieldRow) : string :=
  "./" +:+ n_name node +:+ "/" +:+ project +:+ "/" +:+ sitename +:+ "/" +:+
  py_str (Sensor frow).

Definition day_folder_of (sensor_folder : string) (y m d : Z) : string :=
  sensor_folder +:+ "/" +:+ (fmt_02d y +:+ fmt_02d m +:+ fmt_02d d).

Definition tier_folders_of (folder : string) (runs : list Z) : list string :=
  runNo ← runs; fldr ← tiers;
  [folder +:+ "/run_" +:+ fmt_02d runNo +:+ "/" +:+ fldr].

Definition notes_file_of (folder : string) : string :=
  folder +:+ "/FieldNotes.txt".

Section Vocabulary.
Context `{GitPython}.

(** The world after [touch path] where the directory exists. *)
Definition touched (path : string) (w : World) : World :=
  mkWorld (dirs w)
          (if isfile path w then files w else <[path := EmptyFile]> (files w))
          (repo w) (log w ++ [EvTouch path]) (ticks w).

(** A well-formed tree: whatever exists lies in directories that exist. *)
Definition fs_closed (w : World) : Prop :=
  set_Forall (λ p, Forall (λ a, a ∈ dirs w) (ancestors p))
             (dirs w ∪ dom (files w)).

(** From [w] to [w'] only directories were made: files, repository and
    clock are as before, no directory is gone, and the log grew by
    [makedirs] entries only. *)
Record folders_only (w w' : World) : Prop := mkFoldersOnly {
  fo_files : files w' = files w;
  fo_repo : repo w' = repo w;
  fo_ticks : ticks w' = ticks w;
  fo_dirs : dirs w ⊆ dirs w';
  fo_log : ∃ evs, log w' = log w ++ evs ∧
                  Forall (λ ev, ∃ p, ev = EvMakedirs p) evs }.

(** The paths and everything above them. *)
Definition with_ancestors (paths : list string) : gset string :=
  list_to_set paths ∪ list_to_set (paths ≫= ancestors).

(** [m] makes sure the directories [paths] exist, and does nothing else:
    it always returns; afterwards each path exists; nothing outside the
    paths and what lies above them was created; a well-formed tree stays
    well formed, and then what lies above the paths is directories. *)
Definition ensures (paths : list string) (m : M unit) : Prop :=
  ∀ w, ∃ w',
    m w = (Ok tt, w') ∧
    folders_only w w' ∧
    (∀ p, p ∈ paths → path_exists p w' = true) ∧
    dirs w' ⊆ dirs w ∪ with_ancestors paths ∧
    (fs_closed w →
     fs_closed w' ∧ ∀ p a, p ∈ paths → a ∈ ancestors p → a ∈ dirs w').

(** The world once a row has been through [Rowchecker]: the clock was
    read and [printed] went to the output; nothing else changed. *)
Definition checked (printed : list Event) (w : World) : World :=
  mkWorld (dirs w) (files w) (repo w) (log w ++ printed) (S (ticks w)).

End Vocabulary.

(** The row once its CheckSum cell holds [c]. *)
Definition stamped_with (flrow : FieldRow) (c : pyfloat) : FieldRow :=
  mkRow (Year flrow) (Month flrow) (Day flrow) (Sensor flrow)
        (Technician flrow) (Runs flrow) (Site flrow) (MakeNotesFile flrow)
        (PyFloat c).

(** A site answers a row: same name, same year, under [==]. *)
Definition answers (flrow : FieldRow) (site : site_dict) : bool :=
  py_eq (s_name site) (Site flrow) && py_eq (s_year site) (Year flrow).

(** Every column has a cell for every row. *)
Definition df_rectangular (df : DataFrame) : Prop :=
  Forall (λ kv, length kv.2 = length (df_index df)) (df_data df).

(** A row that is settled: whenever it is validated, whatever the clock, the
    cut-off, the historical flag and the answer to the debugger are,
    [Rowchecker] prints nothing and returns [None] for it, with a site. *)
Definition settled `{Pandas} (flog_fname : string) (prow : Series)
    (info : project_info) (flrow : FieldRow) : Prop :=
  ∃ site, ∀ now dbg hist past,
    Rowchecker now dbg flog_fname flrow prow info hist past
    = ([], Ok (None, site)).

(** The rows are labelled 0, 1, 2, ... as [pd.read_csv] labels them. *)
Definition range_index (df : DataFrame) : Prop :=
  df_index df = PyInt <$> (Z.of_nat <$> seq 0 (length (df_index df))).

Section RunVocabulary.
Context `{GitPython}.

Notation "x ←$ m ; k" := (bind m (fun x => k))
  (at level 100, m at next level, right associativity,
   format "'[' x  ←$  m ; '//' k ']'").
Notation "m ;;$ k" := (bind m (fun _ => k))
  (at level 100, right associativity).

(** [m] keeps the relation [R] between the world it starts in and the world
    it leaves, whether it returns or raises. *)
Definition keeps (R : World → World → Prop) {A} (m : M A) : Prop :=
  ∀ w, R w (m w).2.

(** Nothing is taken away: directories and files stay, the output only
    gets longer. *)
Record grows (w w' : World) : Prop := mkGrows {
  grows_dirs : dirs w ⊆ dirs w';
  grows_files : dom (files w) ⊆ dom (files w');
  grows_log : log w `prefix_of` log w' }.

(** The events that are git commands. *)
Definition is_git (ev : Event) : bool :=
  match ev with
  | EvGitAdd _ | EvGitPull | EvGitCommit | EvGitPush => true
  | _ => false
  end.

(** The repository is left alone: it is the same, and no git command was
    issued. *)
Record git_quiet (w w' : World) : Prop := mkGitQuiet {
  gq_repo : repo w' = repo w;
  gq_log : ∃ evs, log w' = log w ++ evs ∧ Forall (λ ev, is_git ev = false) evs }.

(** The world after [GitPull]'s [repo.git.pull()]. *)
Definition pulled (w : World) : World :=
  mkWorld (dirs w) (files w) (git_pull (repo w)).2 (log w ++ [EvGitPull])
          (ticks w).

(** The exception that ends a run stopped at a [breakpoint()] which is
    followed by [sys.exit()]. *)
Definition exit_after_breakpoint (dbg : pdb_cmd) : Exn :=
  match dbg with
  | pdb_continue => SystemExit
  | pdb_quit => BdbQuit
  end.

(** What was printed or done between two worlds of a run. *)
Definition new_events (w w' : World) : list Event :=
  drop (length (log w)) (log w').

Definition is_add (ev : Event) : bool :=
  match ev with EvGitAdd _ => true | _ => false end.

Definition is_commit (ev : Event) : bool :=
  match ev with EvGitCommit | EvGitPush => true | _ => false end.

(** Some file was staged between the two worlds. *)
Definition staged (w w' : World) : bool := existsb is_add (new_events w w').

(** From [w] to [w'] the output grew, by no event of the kind [P]. *)
Definition without (P : Event → bool) (w w' : World) : Prop :=
  ∃ evs, log w' = log w ++ evs ∧ existsb P evs = false.

(** From [w] to [w'] the modification flag went from [g] to [g'] as the
    staging went: it is set exactly if it was set or a file was staged. *)
Definition flagged (g : bool) (w : World) (g' : bool) (w' : World) : Prop :=
  log w `prefix_of` log w' ∧ g' = g || staged w w'.

(** [m], started with the flag at [g], returns a result whose flag follows
    the staging. *)
Definition tracks {A} (g : bool) (flag : A → bool) (m : M A) : Prop :=
  ∀ w a w', m w = (Ok a, w') → flagged g w (flag a) w'.

(** What the end of [main] (lines 70-80) adds to the output, by the flag. *)
Definition closing_events (args : Args) (gitmod : bool) : list Event :=
  if gitmod then
    if negb (no_git args)
    then [EvNotice "Code Sucessfull. New files and folders created.";
          EvGitCommit; EvGitPush]
    else [EvNotice "Code Sucessfull. Git Disabled"]
  else [EvNotice "Code Sucessfull. No new files created"].

(** The working tree is the same: only the repository, the output or the
    clock may differ. *)
Definition same_tree (w w' : World) : Prop :=
  dirs w' = dirs w ∧ files w' = files w.



(** The folder of a project, and the two files kept in it. *)
Definition project_root (node : node_dict) (project : string) : string :=
  "./" +:+ n_name node +:+ "/" +:+ project.

Definition summary_yaml_of (node : node_dict) (project : string) : string :=
  project_root node project +:+ "/ProjectSummary.yaml".

Definition field_log_of (node : node_dict) (project : string) : string :=
  project_root node project +:+ "/FieldLog.csv".

(** A site entry that is not the placeholder of the template (line 227). *)
Definition is_entered (site : site_dict) : bool :=
  negb (py_eq (s_name site) (PyStr "")) &&
  negb (py_eq (s_year site) (PyInt (-9999))).

(** Lines 204-222 of [projBuilder]: the field log is created with its header
    and no row, or read and its columns checked. *)
Definition projBuilder_field_log (flog_fname : string) (colnames : list string)
    (args : Args) (gitmod : bool) : M (DataFrame * bool) :=
  λ w, (if negb (isfile flog_fname w) then
          let df_flogO := mkDF [] ((λ c, (c, [])) <$> colnames) in
          to_csv df_flogO flog_fname ;;$
          gitmod ←$ (if negb (no_git args)
                     then repo_git_add flog_fname ;;$ ret true
                     else ret gitmod) ;
          df_flog ←$ read_csv flog_fname ;
          ret (df_flog, gitmod)
        else
          df_flog ←$ read_csv flog_fname ;
          _df_col_check df_flog flog_fname colnames args gitmod PyNone) w.

(** Lines 224-237 of [projBuilder]: a folder with its Documentation and Code
    for every site entered, the names collected in order. *)
Definition projBuilder_sites (root psyl_fname : string)
    (sites : list site_dict) (Site_names : list string) : M (list string) :=
  for_each (λ Site_names site,
              if negb (py_eq (s_name site) (PyStr "")) &&
                 negb (py_eq (s_year site) (PyInt (-9999))) then
                sitename ←$ lift (_sitenamemaker site psyl_fname) ;
                pymkdir (root +:+ "/" +:+ sitename) ;;$
                for_each (λ _ fld,
                            pymkdir (root +:+ "/" +:+ sitename +:+ "/" +:+ fld))
                         ["Documentation"; "Code"] tt ;;$
                ret ((Site_names ++ [sitename])%list)
              else ret Site_names)
           sites Site_names.

(** What may become of a file: a table may be replaced by a table, anything
    else stays as it is. *)
Definition kept_as (b b' : FileBody) : Prop :=
  match b with
  | CsvFile _ => ∃ table, b' = CsvFile table
  | _ => b' = b
  end.

(** Every file of [w] is still there in [w'], kept as above. *)
Definition files_kept (w w' : World) : Prop :=
  ∀ f b, files w !! f = Some b → ∃ b', files w' !! f = Some b' ∧ kept_as b b'.

Definition is_csv (fname : string) (w : World) : Prop :=
  ∃ table, files w !! fname = Some (CsvFile table).

(** [m] keeps [R] when started in a world where [P] holds. *)
Definition keeps_from (P : World → Prop) (R : World → World → Prop) {A}
    (m : M A) : Prop :=
  ∀ w, P w → R w (m w).2.

(** The files of [w] are in [w'] as they were. *)
Definition old_files (w w' : World) : Prop :=
  ∀ f, f ∈ dom (files w) → files w' !! f = files w !! f.

(** No regular file stands where one of the folders [paths], or a folder
    above one of them, is due.  That is where [os.makedirs] raises, and
    where [pymkdir] takes a file for the folder it was asked for. *)
Definition unobstructed (paths : list string) (w : World) : Prop :=
  with_ancestors paths ## dom (files w).

End RunVocabulary.

(** Goals over the concrete setting are settled by evaluation. *)
Ltac evaluate :=
  repeat match goal with |- _ ∧ _ => split; [compute_done|] end;
  compute_done.

(** A branch that raised: no result, and a side condition that fails. *)
Ltac side_case :=
  split; [discriminate | intros; destruct_and?; by simplify_eq].

(* ===================================================================== *)
(** ** Properties of [_sitenamemaker] *)
(* ===================================================================== *)

Lemma py_in_True_False (v : pyval) :
  py_in v [PyBool true; PyBool false] = true ↔
  num_val v = Some (FInt 1) ∨ num_val v = Some (FInt 0).
Proof.
  unfold py_in, py_eq; simpl.
  destruct (num_val v) as [[|x]|] eqn:E; simpl.
  - split; [discriminate | intros [?|?]; discriminate].
  - destruct (Z.eqb_spec x 1) as [->|H1]; simpl; [by split; auto|].
    destruct (Z.eqb_spec x 0) as [->|H0]; simpl; [by split; auto|].
    split; [discriminate|]. intros [[=]|[=]]; done.
  - split; [discriminate | intros [?|?]; discriminate].
Qed.

(** The name of a site whose flag is [None], [True] or [False]. *)
Lemma _sitenamemaker_flag (n y : pyval) (psyl_fname : string) :
  _sitenamemaker (mkSite n y PyNone) psyl_fname = Ok (py_str y +:+ py_str n) ∧
  _sitenamemaker (mkSite n y (PyBool true)) psyl_fname
    = Ok ((py_str y +:+ py_str n) +:+ "_C") ∧
  _sitenamemaker (mkSite n y (PyBool false)) psyl_fname
    = Ok ((py_str y +:+ py_str n) +:+ "_F").
Proof. done. Qed.

(** Exactly when [_sitenamemaker] raises: the flag is not [None] and equals
    neither [True] nor [False] under [==].  The numbers 0 and 1 do equal
    them. *)
Lemma _sitenamemaker_raises (site : site_dict) (psyl_fname : string) :
  (∃ e, _sitenamemaker site psyl_fname = Raise e) ↔
  s_ControlledEnvironment site ≠ PyNone ∧
  num_val (s_ControlledEnvironment site) ≠ Some (FInt 1) ∧
  num_val (s_ControlledEnvironment site) ≠ Some (FInt 0).
Proof.
  unfold _sitenamemaker; cbv zeta.
  destruct (decide (s_ControlledEnvironment site = PyNone)) as [E|E].
  - rewrite bool_decide_eq_true_2 by done. simpl.
    split; [intros [e ?]; discriminate | intros [? _]; done].
  - rewrite bool_decide_eq_false_2 by done. cbn [negb].
    destruct (py_in (s_ControlledEnvironment site)
                    [PyBool true; PyBool false]) eqn:Hin; cbn [negb].
    + apply py_in_True_False in Hin.
      split.
      * intros [e He]. revert He.
        destruct (py_truth (s_ControlledEnvironment site)); discriminate.
      * intros (_ & ? & ?). destruct Hin; done.
    + split; [|by eauto].
      intros _. split; [done|].
      split; intros Hv;
        (assert (py_in (s_ControlledEnvironment site)
                       [PyBool true; PyBool false] = true) as Hc
           by (apply py_in_True_False; auto));
        congruence.
Qed.

(** C8, at the input on which the code departs from it: a site whose flag
    is the integer 1, a value outside [{true, false, null}], is not refused;
    it is named as a controlled-environment site. *)
Lemma C8_sitenamemaker_accepts_int_flag :
  _sitenamemaker (mkSite (PyStr "Main") (PyInt 2024) (PyInt 1))
                 "./Narrabri/P1/ProjectSummary.yaml"
  = Ok "2024Main_C" ∧
  _sitenamemaker (mkSite (PyStr "Main") (PyInt 2024) (PyInt 0))
                 "./Narrabri/P1/ProjectSummary.yaml"
  = Ok "2024Main_F" ∧
  type_of (PyInt 1) ≠ TBool ∧ PyInt 1 ≠ PyNone.
Proof. by vm_compute. Qed.

(* ===================================================================== *)
(** ** Properties of [Rowchecker] *)
(* ===================================================================== *)

Section RowcheckerProperties.
Context `{Pandas}.

Implicit Types (flrow : FieldRow) (prow : Series) (info : project_info).

Lemma first_dtype_error_wrong T fields flrow :
  (∃ fg, fg ∈ fields ∧ type_of (fg.2 flrow) ≠ T) →
  ∃ field found, found ≠ T ∧
    first_dtype_error T fields flrow = Some (TypeMismatch field T found).
Proof.
  induction fields as [|[vname get] rest IH]; intros (fg & Hin & Hty).
  - by apply elem_of_nil in Hin.
  - simpl. case_bool_decide as Hhead.
    + apply IH. exists fg. split; [|done].
      apply elem_of_cons in Hin as [->|]; [done|done].
    + by exists vname, (type_of (get flrow)).
Qed.

Lemma first_dtype_error_None T fields flrow :
  first_dtype_error T fields flrow = None ↔
  ∀ fg, fg ∈ fields → type_of (fg.2 flrow) = T.
Proof.
  induction fields as [|[vname get] rest IH]; simpl.
  - split; [intros _ fg Hin; by apply elem_of_nil in Hin | done].
  - case_bool_decide as Hhead.
    + rewrite IH. split.
      * intros Hrest fg [->|Hin]%elem_of_cons; [done | by apply Hrest].
      * intros Hall fg Hin. apply Hall. by right.
    + split; [discriminate|].
      intros Hall. destruct Hhead. apply (Hall (vname, get)). by left.
Qed.

Lemma first_dtype_error_Some T fields flrow cause :
  first_dtype_error T fields flrow = Some cause →
  ∃ field found, found ≠ T ∧ cause = TypeMismatch field T found.
Proof.
  induction fields as [|[vname get] rest IH]; simpl; [discriminate|].
  case_bool_decide as Hhead; [done|].
  intros [= <-]. by exists vname, (type_of (get flrow)).
Qed.

(** Every exception of the field-level checks is the one [_ErrorMessage]
    raises: it names the ledger file, carries the whole row, and a cause. *)
Lemma field_checks_raise now flog_fname flrow prow info hist past check e :
  field_checks now flog_fname flrow prow info hist past check = Raise e →
  ∃ cause, e = ValueError_row flog_fname flrow cause.
Proof.
  unfold field_checks, date_bounds, raise_when.
  repeat (first
    [ progress simpl
    | match goal with
      | |- context [first_dtype_error ?T ?f ?r] =>
          destruct (first_dtype_error T f r)
      | |- context [Timestamp ?t] => destruct (Timestamp t)
      | |- context [find_site ?s ?r ?l] => destruct (find_site s r l) as [[?|] ?]
      | |- context [match ?c with Some _ => _ | None => _ end] => destruct c
      | |- context [if ?b then _ else _] => destruct b
      end ]);
    intros [=]; subst; eauto.
Qed.

(** The checksum comparison either passes a value of [check] on, or ends in
    an exception that is not a validation error of the row. *)
Lemma checksum_stage_raise dbg flog_fname flrow printed e :
  checksum_stage dbg flog_fname flrow = (printed, Raise e) →
  e = TypeError "isnan" ∨ e = BdbQuit.
Proof.
  unfold checksum_stage.
  destruct (np_isnan _) as [[|]|]; [| |by intros [= <- <-]; left].
  - intros [=].
  - destruct (negb _); [|intros [=]].
    destruct dbg; intros [=]; subst; by right.
Qed.

Lemma find_site_Some sites flrow errorlog site :
  (find_site sites flrow errorlog).1 = Some site →
  site ∈ sites ∧ py_eq (s_name site) (Site flrow) = true ∧
  py_eq (s_year site) (Year flrow) = true.
Proof.
  revert errorlog.
  induction sites as [|s rest IH]; intros errorlog; simpl; [discriminate|].
  destruct (py_eq (s_name s) (Site flrow)) eqn:Hname.
  - destruct (py_eq (s_year s) (Year flrow)) eqn:Hyear; simpl.
    + intros [= ->]. split; [by left|done].
    + intros Hrest. destruct (IH _ Hrest) as (? & ? & ?).
      split; [by right|done].
  - intros Hrest. destruct (IH _ Hrest) as (? & ? & ?).
    split; [by right|done].
Qed.

(** What the field-level checks return, when they return, is the [check]
    they were given. *)
Lemma field_checks_returned now flog_fname flrow prow info hist past check
    check' site :
  field_checks now flog_fname flrow prow info hist past check
  = Ok (check', site) →
  check' = check.
Proof.
  unfold field_checks, date_bounds, raise_when.
  repeat (first
    [ progress simpl
    | match goal with
      | |- context [first_dtype_error ?T ?f ?r] =>
          destruct (first_dtype_error T f r)
      | |- context [Timestamp ?t] => destruct (Timestamp t)
      | |- context [find_site ?s ?r ?l] => destruct (find_site s r l) as [[?|] ?]
      | |- context [match ?c with Some _ => _ | None => _ end] => destruct c
      | |- context [if ?b then _ else _] => destruct b
      end ]);
    intros [=]; subst; eauto.
Qed.

#[local] Arguments first_dtype_error : simpl never.

(** When the checks made on a matched row succeed. *)
Lemma field_checks_None_Ok now flog_fname flrow prow info hist past check site :
  field_checks now flog_fname flrow prow info hist past None = Ok (check, site) ↔
  check = None ∧
  first_dtype_error TInt int_fields flrow = None ∧
  first_dtype_error TStr str_fields flrow = None ∧
  is_Some (Timestamp (date_text flrow)) ∧
  in_index (Sensor flrow) (enabled_sensors prow) = true ∧
  py_lt_int (Runs flrow) 1 = false ∧
  py_in (Site flrow) (s_name <$> p_sites info) = true ∧
  (find_site (p_sites info) flrow []).1 = Some site.
Proof.
  unfold field_checks, raise_when.
  destruct (first_dtype_error TInt int_fields flrow); simpl;
    [side_case|].
  destruct (first_dtype_error TStr str_fields flrow); simpl;
    [side_case|].
  destruct (Timestamp (date_text flrow)); simpl;
    [|side_case].
  destruct (in_index (Sensor flrow) (enabled_sensors prow)); simpl;
    [|side_case].
  destruct (py_lt_int (Runs flrow) 1); simpl;
    [side_case|].
  destruct (py_in (Site flrow) (s_name <$> p_sites info)); simpl;
    [|side_case].
  destruct (find_site (p_sites info) flrow []) as [[outsite|] errorlog]; simpl.
  - split.
    + intros [= <- <-]. by eauto 10.
    + intros (-> & _ & _ & _ & _ & _ & _ & Hs). by simplify_eq.
  - side_case.
Qed.

(** With the date check put aside, [check] is only passed through. *)
Lemma field_checks_None_returning now flog_fname flrow prow info hist past :
  field_checks now flog_fname flrow prow info hist past None
  = returning None (field_checks now flog_fname flrow prow info hist past None).
Proof.
  unfold field_checks, raise_when.
  repeat (first
    [ progress simpl
    | match goal with
      | |- context [first_dtype_error ?T ?f ?r] =>
          destruct (first_dtype_error T f r)
      | |- context [Timestamp ?t] => destruct (Timestamp t)
      | |- context [find_site ?s ?r ?l] => destruct (find_site s r l) as [[?|] ?]
      | |- context [if ?b then _ else _] => destruct b
      end ]); done.
Qed.

(** For a row that is well typed and dated, the field-level checks under a
    recomputed checksum are the date bounds followed by the checks made on
    a matched row. *)
Lemma field_checks_Some now flog_fname flrow prow info hist past c date :
  first_dtype_error TInt int_fields flrow = None →
  first_dtype_error TStr str_fields flrow = None →
  Timestamp (date_text flrow) = Some date →
  field_checks now flog_fname flrow prow info hist past (Some c)
  = (date_bounds now hist past flog_fname flrow date ;;?
     returning (Some c)
       (field_checks now flog_fname flrow prow info hist past None)).
Proof.
  intros Hint Hstr Hdate. unfold field_checks.
  rewrite Hint, Hstr, Hdate. simpl.
  destruct (date_bounds now hist past flog_fname flrow date); simpl; [|done].
  unfold raise_when.
  repeat (first
    [ progress simpl
    | match goal with
      | |- context [find_site ?s ?r ?l] => destruct (find_site s r l) as [[?|] ?]
      | |- context [if ?b then _ else _] => destruct b
      end ]); done.
Qed.

(** The checks made on a matched row do not read the clock, the historical
    flag or the cut-off date. *)
Lemma field_checks_None_timeless now now' flog_fname flrow prow info
    hist hist' past past' :
  field_checks now flog_fname flrow prow info hist past None
  = field_checks now' flog_fname flrow prow info hist' past' None.
Proof. reflexivity. Qed.

(** [None] is returned for a matched row only, and then nothing was
    printed. *)
Lemma Rowchecker_None now dbg flog_fname flrow prow info hist past printed site :
  Rowchecker now dbg flog_fname flrow prow info hist past
  = (printed, Ok (None, site)) →
  printed = [] ∧
  np_isnan (CheckSum flrow) = Some false ∧
  py_eq (PyFloat (row_checksum flrow)) (CheckSum flrow) = true ∧
  field_checks now flog_fname flrow prow info hist past None = Ok (None, site).
Proof.
  unfold Rowchecker, checksum_stage.
  destruct (np_isnan (CheckSum flrow)) as [[|]|]; simpl.
  - intros [= <- Hchecks]. by apply field_checks_returned in Hchecks.
  - destruct (py_eq (PyFloat (row_checksum flrow)) (CheckSum flrow)); simpl.
    + by intros [= <- ->].
    + destruct dbg; simpl; [|discriminate].
      intros [= <- Hchecks]. by apply field_checks_returned in Hchecks.
  - discriminate.
Qed.

(** A new row within the date bounds fares as a matched row does, and
    brings its recomputed checksum back. *)
Lemma Rowchecker_new_row now dbg flog_fname flrow prow info hist past date site :
  np_isnan (CheckSum flrow) = Some true →
  first_dtype_error TInt int_fields flrow = None →
  first_dtype_error TStr str_fields flrow = None →
  Timestamp (date_text flrow) = Some date →
  date <= now + hours_12 →
  past <= date ∨ hist = true →
  field_checks now flog_fname flrow prow info hist past None = Ok (None, site) →
  Rowchecker now dbg flog_fname flrow prow info hist past
  = ([], Ok (Some (row_checksum flrow), site)).
Proof.
  intros Hnew Hint Hstr Hdate Hhi Hlo Hchecks.
  unfold Rowchecker, checksum_stage. rewrite Hnew. simpl.
  rewrite (field_checks_Some _ _ _ _ _ _ _ _ date) by done.
  rewrite Hchecks. unfold date_bounds.
  rewrite bool_decide_eq_false_2 by lia.
  destruct Hlo as [Hlo| ->].
  - by rewrite bool_decide_eq_false_2 by lia.
  - by case_bool_decide.
Qed.

(** What a row that passed the field-level checks looks like. *)
Lemma field_checks_Ok_row now flog_fname flrow prow info hist past check c site :
  field_checks now flog_fname flrow prow info hist past check = Ok (c, site) →
  (∃ y m d n, Year flrow = PyInt y ∧ Month flrow = PyInt m ∧
              Day flrow = PyInt d ∧ Runs flrow = PyInt n ∧ 1 <= n) ∧
  (∃ sensor, Sensor flrow = PyStr sensor ∧ sensor ∈ enabled_sensors prow) ∧
  (find_site (p_sites info) flrow []).1 = Some site.
Proof.
  unfold field_checks, raise_when.
  destruct (first_dtype_error TInt int_fields flrow) eqn:Hint; simpl;
    [discriminate|].
  destruct (first_dtype_error TStr str_fields flrow) eqn:Hstr; simpl;
    [discriminate|].
  destruct (Timestamp (date_text flrow)); simpl; [|discriminate].
  match goal with |- (?bounds ;;? _) = _ → _ => destruct bounds end; simpl;
    [|discriminate].
  destruct (in_index (Sensor flrow) (enabled_sensors prow)) eqn:Hsensor; simpl;
    [|discriminate].
  destruct (py_lt_int (Runs flrow) 1) eqn:Hruns; simpl; [discriminate|].
  destruct (py_in (Site flrow) (s_name <$> p_sites info)); simpl;
    [|discriminate].
  destruct (find_site (p_sites info) flrow []) as [[outsite|] errorlog]; simpl;
    [|discriminate].
  intros [= <- <-].
  rewrite first_dtype_error_None in Hint, Hstr.
  assert (type_of (Year flrow) = TInt) as Hy
    by (apply (Hint ("Year", Year)); set_solver).
  assert (type_of (Month flrow) = TInt) as Hm
    by (apply (Hint ("Month", Month)); set_solver).
  assert (type_of (Day flrow) = TInt) as Hd
    by (apply (Hint ("Day", Day)); set_solver).
  assert (type_of (Runs flrow) = TInt) as Hn
    by (apply (Hint ("Runs", Runs)); set_solver).
  assert (type_of (Sensor flrow) = TStr) as Hs
    by (apply (Hstr ("Sensor", Sensor)); set_solver).
  split; [|split; [|done]].
  - destruct (Year flrow) as [| | y | | |]; try discriminate.
    destruct (Month flrow) as [| | m | | |]; try discriminate.
    destruct (Day flrow) as [| | d | | |]; try discriminate.
    destruct (Runs flrow) as [| | n | | |]; try discriminate.
    exists y, m, d, n. repeat split; try done.
    unfold py_lt_int in Hruns. simpl in Hruns.
    apply bool_decide_eq_false in Hruns. lia.
  - destruct (Sensor flrow) as [| | | | sensor |]; try discriminate.
    exists sensor. split; [done|]. simpl in Hsensor.
    by apply bool_decide_eq_true in Hsensor.
Qed.

(** C10: the type checks accept a cell only when [type(cell)] is exactly
    [int] (Year, Month, Day, Runs) or exactly [str] (Technician, Sensor,
    Site).  A row with a cell of any other type, a [bool] or a numpy integer
    included although they denote integers, fails with [TypeMismatch] for the
    first such column, whatever the other checks would say; [Rowchecker]
    returns no result for it. *)
Theorem C10_dtype_checks_are_exact now dbg flog_fname flrow prow info hist past :
  (∃ fg, fg ∈ int_fields ∧ type_of (fg.2 flrow) ≠ TInt) ∨
  (∃ fg, fg ∈ str_fields ∧ type_of (fg.2 flrow) ≠ TStr) →
  (∃ field expected found,
      found ≠ expected ∧
      (∀ check,
          field_checks now flog_fname flrow prow info hist past check
          = Raise (ValueError_row flog_fname flrow
                     (TypeMismatch field expected found))) ∧
      (∀ printed check,
          checksum_stage dbg flog_fname flrow = (printed, Ok check) →
          Rowchecker now dbg flog_fname flrow prow info hist past
          = (printed, Raise (ValueError_row flog_fname flrow
                               (TypeMismatch field expected found))))) ∧
  (∀ r, (Rowchecker now dbg flog_fname flrow prow info hist past).2 ≠ Ok r) ∧
  (∀ b z, type_of (PyBool b) ≠ TInt ∧ type_of (NpInt64 z) ≠ TInt ∧
          num_val (PyBool b) = num_val (PyInt (Z.b2z b)) ∧
          num_val (NpInt64 z) = num_val (PyInt z)).
Proof.
  intros Hbad.
  assert (∃ field expected found,
             found ≠ expected ∧
             ∀ check,
               field_checks now flog_fname flrow prow info hist past check
               = Raise (ValueError_row flog_fname flrow
                          (TypeMismatch field expected found)))
    as (field & expected & found & Hne & Hchecks).
  { destruct (first_dtype_error TInt int_fields flrow) as [cause|] eqn:Hint.
    - destruct (first_dtype_error_Some TInt int_fields flrow cause Hint)
        as (field & found & Hne & ->).
      exists field, TInt, found. split; [done|]. intros check.
      unfold field_checks. by rewrite Hint.
    - destruct Hbad as [(fg & Hin & Hty)|Hex].
      { destruct Hty. by eapply first_dtype_error_None. }
      destruct (first_dtype_error_wrong TStr str_fields flrow Hex)
        as (field & found & Hne & Hfirst).
      exists field, TStr, found. split; [done|]. intros check.
      unfold field_checks. by rewrite Hint, Hfirst. }
  split; [|split].
  - exists field, expected, found. split; [done|]. split; [done|].
    intros printed check Hstage. unfold Rowchecker.
    rewrite Hstage. simpl. by rewrite Hchecks.
  - intros r. unfold Rowchecker.
    destruct (checksum_stage dbg flog_fname flrow) as [printed [check|e]];
      simpl; [by rewrite Hchecks|done].
  - intros b z. done.
Qed.

(** C1, amended: when the stored checkSum is set and differs from the
    recomputed one, [Rowchecker] prints the conflict and opens the debugger;
    it raises nothing of its own.  If the session is quit the run ends
    there.  If it is resumed, validation goes on as for a new row, date
    bounds included, with the recomputed checksum; when the checks pass,
    the result is that checksum (never [None]) with the site. *)
Theorem C1_mismatch_opens_debugger_then_validates
    now dbg flog_fname flrow prow info hist past :
  np_isnan (CheckSum flrow) = Some false →
  py_eq (PyFloat (row_checksum flrow)) (CheckSum flrow) = false →
  Rowchecker now dbg flog_fname flrow prow info hist past
  = ([EvChecksumConflict flog_fname flrow (row_checksum flrow); EvBreakpoint],
     match dbg with
     | pdb_quit => Raise BdbQuit
     | pdb_continue =>
         field_checks now flog_fname flrow prow info hist past
                      (Some (row_checksum flrow))
     end) ∧
  (∀ check site,
      (Rowchecker now dbg flog_fname flrow prow info hist past).2
      = Ok (check, site) →
      dbg = pdb_continue ∧ check = Some (row_checksum flrow)).
Proof.
  intros Hset Hdiff.
  assert (Rowchecker now dbg flog_fname flrow prow info hist past
          = ([EvChecksumConflict flog_fname flrow (row_checksum flrow);
              EvBreakpoint],
             match dbg with
             | pdb_quit => Raise BdbQuit
             | pdb_continue =>
                 field_checks now flog_fname flrow prow info hist past
                              (Some (row_checksum flrow))
             end)) as Heq.
  { unfold Rowchecker, checksum_stage. rewrite Hset, Hdiff. simpl.
    by destruct dbg. }
  split; [done|].
  intros check site. rewrite Heq. simpl.
  destruct dbg; [|discriminate].
  intros Hok. split; [done|].
  destruct hist.
  - rewrite (field_checks_returned _ _ _ _ _ _ _ _ _ _ Hok). done.
  - rewrite (field_checks_returned _ _ _ _ _ _ _ _ _ _ Hok). done.
Qed.

(** C3, amended: for a row whose stored checkSum equals the recomputed one,
    only the date bounds are skipped.  The type checks, the date's validity,
    sensor membership, run count and site resolution are all applied, none
    of them reading the clock, the historical flag or the cut-off; when they
    pass, the result is [(None, site)] with [site] the first configured site
    of the row's name and year. *)
Theorem C3_match_skips_only_the_date_bounds
    now dbg flog_fname flrow prow info hist past :
  np_isnan (CheckSum flrow) = Some false →
  py_eq (PyFloat (row_checksum flrow)) (CheckSum flrow) = true →
  Rowchecker now dbg flog_fname flrow prow info hist past
  = ([], field_checks now flog_fname flrow prow info hist past None) ∧
  (∀ now' hist' past',
      field_checks now' flog_fname flrow prow info hist' past' None
      = field_checks now flog_fname flrow prow info hist past None) ∧
  (∀ check site,
      field_checks now flog_fname flrow prow info hist past None
      = Ok (check, site) ↔
      check = None ∧
      first_dtype_error TInt int_fields flrow = None ∧
      first_dtype_error TStr str_fields flrow = None ∧
      is_Some (Timestamp (date_text flrow)) ∧
      in_index (Sensor flrow) (enabled_sensors prow) = true ∧
      py_lt_int (Runs flrow) 1 = false ∧
      py_in (Site flrow) (s_name <$> p_sites info) = true ∧
      (find_site (p_sites info) flrow []).1 = Some site) ∧
  (∀ site,
      (find_site (p_sites info) flrow []).1 = Some site →
      site ∈ p_sites info ∧ py_eq (s_name site) (Site flrow) = true ∧
      py_eq (s_year site) (Year flrow) = true).
Proof.
  intros Hset Hsame. split; [|split; [|split]].
  - unfold Rowchecker, checksum_stage. by rewrite Hset, Hsame.
  - reflexivity.
  - intros check site. apply field_checks_None_Ok.
  - intros site. apply find_site_Some.
Qed.

(** C6: for a new row (checkSum unset) that is well typed and dated, with
    the cut-off [past_date] not beyond [now + 12 h], the date bounds are
    inclusive at both ends.  A date of exactly [now + 12 h] passes and any
    later date fails with [FutureDate]; a date of exactly [past_date] passes
    whatever [historical] is, and any earlier date fails with
    [TooHistorical] unless [historical] is set.  Passing means the row fares
    as if the date bounds were not there. *)
Theorem C6_date_bounds_are_inclusive
    now dbg flog_fname flrow prow info past date :
  np_isnan (CheckSum flrow) = Some true →
  first_dtype_error TInt int_fields flrow = None →
  first_dtype_error TStr str_fields flrow = None →
  Timestamp (date_text flrow) = Some date →
  past <= now + hours_12 →
  let run := λ hist, Rowchecker now dbg flog_fname flrow prow info hist past in
  let passes := λ hist,
    run hist =
    ([], returning (Some (row_checksum flrow))
           (field_checks now flog_fname flrow prow info hist past None)) in
  (date = now + hours_12 → ∀ hist, passes hist) ∧
  (date > now + hours_12 →
   ∀ hist, run hist = ([], Raise (ValueError_row flog_fname flrow
                                   (FutureDate date now)))) ∧
  (date = past → ∀ hist, passes hist) ∧
  (date < past →
   passes true ∧
   run false = ([], Raise (ValueError_row flog_fname flrow
                             (TooHistorical date past)))) ∧
  (past <= date <= now + hours_12 → ∀ hist, passes hist).
Proof.
  intros Hnew Hint Hstr Hdate Hpast run passes.
  assert (∀ hist, run hist =
            ([], date_bounds now hist past flog_fname flrow date ;;?
                 returning (Some (row_checksum flrow))
                   (field_checks now flog_fname flrow prow info hist past None)))
    as Hrun.
  { intros hist. unfold run, Rowchecker, checksum_stage. rewrite Hnew. simpl.
    by rewrite (field_checks_Some _ _ _ _ _ _ _ _ date). }
  assert (∀ hist, past <= date <= now + hours_12 → passes hist) as Hin.
  { intros hist [Hlo Hhi]. unfold passes. rewrite Hrun. unfold date_bounds.
    rewrite bool_decide_eq_false_2 by lia.
    by rewrite bool_decide_eq_false_2 by lia. }
  repeat split.
  - intros ->. intros hist. apply Hin. lia.
  - intros Hlate hist. rewrite Hrun. unfold date_bounds.
    by rewrite bool_decide_eq_true_2 by lia.
  - intros ->. intros hist. apply Hin. lia.
  - unfold passes. rewrite Hrun. unfold date_bounds.
    rewrite bool_decide_eq_false_2 by lia.
    by rewrite bool_decide_eq_true_2 by lia.
  - rewrite Hrun. unfold date_bounds.
    rewrite bool_decide_eq_false_2 by lia.
    by rewrite bool_decide_eq_true_2 by lia.
  - intros Hbetween hist. by apply Hin.
Qed.

End RowcheckerProperties.

(* ===================================================================== *)
(** ** Properties of [_df_col_check] *)
(* ===================================================================== *)

Section Tables.

Implicit Types (D : list (string * list pyval)) (dfx : DataFrame).

Lemma filter_label_absent D c :
  c ∉ D.*1 → filter (λ kv, kv.1 = c) D = [].
Proof.
  induction D as [|[k v] D IH]; [done|]. simpl.
  intros Hnot. apply not_elem_of_cons in Hnot as [Hne Hrest].
  rewrite filter_cons. simpl. case_decide; [congruence|]. by apply IH.
Qed.

(** Under distinct labels, a label selects exactly its column. *)
Lemma filter_label_unique D c :
  NoDup D.*1 → c ∈ D.*1 →
  ∃ cells, filter (λ kv, kv.1 = c) D = [(c, cells)].
Proof.
  induction D as [|[k v] D IH]; simpl.
  - intros _ Hin. by apply elem_of_nil in Hin.
  - intros [Hfresh Hnd]%NoDup_cons Hin. rewrite filter_cons. simpl.
    case_decide as Hk.
    + subst k. exists v. by rewrite filter_label_absent.
    + apply elem_of_cons in Hin as [->|Hin]; [done|]. by apply IH.
Qed.

Lemma select_columns D colnms :
  NoDup D.*1 → (∀ c, c ∈ colnms → c ∈ D.*1) →
  (c ← colnms; filter (λ kv, kv.1 = c) D).*1 = colnms.
Proof.
  intros Hnd. induction colnms as [|c colnms IH]; intros Hall; [done|].
  rewrite bind_cons, fmap_app.
  destruct (filter_label_unique D c Hnd) as [cells ->].
  { apply Hall. by left. }
  simpl. f_equal. apply IH. intros c' Hc'. apply Hall. by right.
Qed.

Lemma select_elem_of D colnms c cells :
  (c, cells) ∈ (c' ← colnms; filter (λ kv, kv.1 = c') D) →
  (c, cells) ∈ D.
Proof.
  intros (c' & Hin & _)%list_elem_of_bind.
  by apply list_elem_of_filter in Hin as [_ ?].
Qed.

Lemma add_columns_data fill_val dfx missing :
  df_index (foldl (df_add_column fill_val) dfx missing) = df_index dfx ∧
  df_data (foldl (df_add_column fill_val) dfx missing)
  = df_data dfx ++
    ((λ c, (c, replicate (length (df_index dfx)) fill_val)) <$> missing).
Proof.
  revert dfx. induction missing as [|c missing IH]; intros dfx; simpl.
  - by rewrite app_nil_r.
  - destruct (IH (df_add_column fill_val dfx c)) as [-> ->]. simpl.
    by rewrite <- app_assoc.
Qed.

Lemma reconciled_spec fill_val dfx colnms :
  NoDup (df_columns dfx) →
  df_columns (reconciled fill_val dfx colnms) = colnms ∧
  df_index (reconciled fill_val dfx colnms) = df_index dfx ∧
  (∀ c cells,
      (c, cells) ∈ df_data (reconciled fill_val dfx colnms) →
      if decide (c ∈ df_columns dfx)
      then (c, cells) ∈ df_data dfx
      else cells = replicate (length (df_index dfx)) fill_val).
Proof.
  intros Hnd. unfold reconciled, df_select, df_columns in *. simpl.
  set (missing := filter (λ c, c ∉ (df_data dfx).*1) (remove_dups colnms)).
  destruct (add_columns_data fill_val dfx missing) as [Hidx Hdata].
  rewrite Hidx, Hdata.
  set (new := (λ c, (c, replicate (length (df_index dfx)) fill_val)) <$> missing).
  assert (new.*1 = missing) as Hnew.
  { unfold new. rewrite <- list_fmap_compose. apply list_fmap_id. }
  assert (NoDup (df_data dfx ++ new).*1) as Hnd'.
  { rewrite fmap_app, Hnew. apply NoDup_app. split; [done|]. split.
    - intros c Hc [Hm _]%list_elem_of_filter. done.
    - apply NoDup_filter, NoDup_remove_dups. }
  split; [|split; [done|]].
  - apply select_columns; [done|].
    intros c Hc. rewrite fmap_app, Hnew. apply elem_of_app.
    destruct (decide (c ∈ (df_data dfx).*1)); [by left|right].
    apply list_elem_of_filter. split; [done|]. by apply elem_of_remove_dups.
  - intros c cells Hin%select_elem_of.
    apply elem_of_app in Hin as [Hold|Hadded].
    + rewrite decide_True; [done|]. by apply (list_elem_of_fmap_2 fst) in Hold.
    + apply list_elem_of_fmap in Hadded as (c' & [= -> ->] & Hm).
      apply list_elem_of_filter in Hm as [Hm _]. by rewrite decide_False.
Qed.

End Tables.

Section Reconcile.
Context `{GitPython}.

Implicit Types (w : World) (dfx : DataFrame).

(** On a table whose columns are already the required ones nothing is
    written; at most the file is staged, when git is on and the repository
    does not know it. *)
Lemma df_col_check_same dfx fname colnms args gitmod fill_val w :
  df_columns dfx = colnms →
  ∃ gitmod' w',
    _df_col_check dfx fname colnms args gitmod fill_val w
    = (Ok (dfx, gitmod'), w') ∧
    files w' = files w ∧ dirs w' = dirs w ∧
    (∃ evs, log w' = log w ++ evs ∧ ∀ p, EvToCsv p ∉ evs) ∧
    (no_git args = true → w' = w ∧ gitmod' = gitmod).
Proof.
  intros Hcols. unfold _df_col_check, bind, ret.
  rewrite bool_decide_eq_true_2 by done. simpl.
  destruct (no_git args); simpl.
  - exists gitmod, w. repeat split; try done.
    exists []. split; [by rewrite app_nil_r | intros p Hp; by apply elem_of_nil in Hp].
  - destruct (fileInRepo fname w || is_file_staged fname w); simpl.
    + exists gitmod, w. repeat split; try done.
      exists []. split; [by rewrite app_nil_r | intros p Hp; by apply elem_of_nil in Hp].
    + eexists _, _. split; [reflexivity|]. simpl. repeat split; try done.
      eexists. split; [by rewrite <- app_assoc|].
      intros p Hp. repeat (apply elem_of_cons in Hp as [Hp|Hp]; [discriminate|]).
      by apply elem_of_nil in Hp.
Qed.

(** On a table whose columns differ, the reconciled table is written to
    the file. *)
Lemma df_col_check_differ dfx fname colnms args gitmod fill_val w :
  df_columns dfx ≠ colnms →
  ∃ gitmod' w',
    _df_col_check dfx fname colnms args gitmod fill_val w
    = (Ok (reconciled fill_val dfx colnms, gitmod'), w') ∧
    files w'
    = <[fname := CsvFile (df_data (reconciled fill_val dfx colnms))]> (files w) ∧
    dirs w' = dirs w ∧
    EvToCsv fname ∈ log w'.
Proof.
  intros Hcols. unfold _df_col_check, bind, ret, to_csv, bind, emit, write_file.
  rewrite bool_decide_eq_false_2 by done. simpl.
  fold (reconciled fill_val dfx colnms).
  destruct (no_git args); simpl.
  - eexists _, _. split; [reflexivity|]. simpl. repeat split; try done.
    set_solver.
  - unfold repo_git_add. simpl.
    match goal with |- context [fileInRepo ?f ?w' || is_file_staged ?f ?w'] =>
      destruct (fileInRepo f w' || is_file_staged f w') end; simpl;
      (eexists _, _; split; [reflexivity|]; simpl; repeat split; try done;
       set_solver).
Qed.

(** C7: on a table whose column labels are distinct, [_df_col_check] returns
    a table whose columns are the required list, exactly and in order; a
    required column the table lacked holds the default in every row, a
    column it had keeps its cells; the table is written to its file exactly
    when the columns differed.  Applied again to the result with the same
    columns and default it returns the same table and writes nothing. *)
Theorem C7_df_col_check_reconciles_once
    dfx fname colnms args gitmod fill_val w :
  NoDup (df_columns dfx) →
  ∃ dfx' gitmod' w',
    _df_col_check dfx fname colnms args gitmod fill_val w
    = (Ok (dfx', gitmod'), w') ∧
    df_columns dfx' = colnms ∧
    df_index dfx' = df_index dfx ∧
    (∀ c cells,
        (c, cells) ∈ df_data dfx' →
        if decide (c ∈ df_columns dfx)
        then (c, cells) ∈ df_data dfx
        else cells = replicate (length (df_index dfx)) fill_val) ∧
    (if decide (df_columns dfx = colnms)
     then dfx' = dfx ∧ files w' = files w
     else files w' = <[fname := CsvFile (df_data dfx')]> (files w) ∧
          EvToCsv fname ∈ log w') ∧
    dirs w' = dirs w ∧
    ∃ gitmod'' w'',
      _df_col_check dfx' fname colnms args gitmod' fill_val w'
      = (Ok (dfx', gitmod''), w'') ∧
      files w'' = files w' ∧ dirs w'' = dirs w' ∧
      (∃ evs, log w'' = log w' ++ evs ∧ ∀ p, EvToCsv p ∉ evs) ∧
      (no_git args = true → w'' = w' ∧ gitmod'' = gitmod').
Proof.
  intros Hnd.
  destruct (decide (df_columns dfx = colnms)) as [Hsame|Hdiff].
  - destruct (df_col_check_same dfx fname colnms args gitmod fill_val w Hsame)
      as (gitmod' & w' & Hrun & Hfiles & Hdirs & Hlog & Hnogit).
    exists dfx, gitmod', w'.
    split; [done|]. split; [done|]. split; [done|]. split.
    { intros c cells Hin. rewrite decide_True; [done|].
      by apply (list_elem_of_fmap_2 fst) in Hin. }
    split; [done|]. split; [done|].
    destruct (df_col_check_same dfx fname colnms args gitmod' fill_val w' Hsame)
      as (gitmod'' & w'' & ? & ? & ? & ? & ?).
    by exists gitmod'', w''.
  - destruct (df_col_check_differ dfx fname colnms args gitmod fill_val w Hdiff)
      as (gitmod' & w' & Hrun & Hfiles & Hdirs & Hlog).
    destruct (reconciled_spec fill_val dfx colnms Hnd) as (Hcols & Hidx & Hcells).
    exists (reconciled fill_val dfx colnms), gitmod', w'.
    split; [done|]. split; [done|]. split; [done|]. split; [done|].
    split; [done|]. split; [done|].
    destruct (df_col_check_same (reconciled fill_val dfx colnms) fname colnms
                args gitmod' fill_val w' Hcols)
      as (gitmod'' & w'' & ? & ? & ? & ? & ?).
    by exists gitmod'', w''.
Qed.

End Reconcile.

(* ===================================================================== *)
(** ** Paths and directories *)
(* ===================================================================== *)

Section Paths.

Implicit Types (s t acc path : string).

Lemma string_app_cons c s t : String c s +:+ t = String c (s +:+ t).
Proof. reflexivity. Qed.

Lemma string_app_nil_r s : s +:+ EmptyString = s.
Proof. induction s as [|c s IH]; [done|]. by rewrite string_app_cons, IH. Qed.

Lemma string_app_assoc s t u : (s +:+ t) +:+ u = s +:+ (t +:+ u).
Proof. induction s as [|c s IH]; [done|]. by rewrite !string_app_cons, IH. Qed.

(** What [slash_prefixes] lists: the text before each separator. *)
Lemma slash_prefixes_spec acc path x :
  x ∈ slash_prefixes acc path ↔
  ∃ s1 s2, path = s1 +:+ String "/" s2 ∧ x = acc +:+ s1.
Proof.
  revert acc. induction path as [|c path IH]; intros acc; simpl.
  - split; [intros Hin; by apply elem_of_nil in Hin|].
    intros ([|? ?] & s2 & Heq & _); discriminate.
  - case_bool_decide as Hc.
    + subst c. rewrite elem_of_cons, IH. split.
      * intros [->|(s1 & s2 & -> & ->)].
        -- exists EmptyString, path. by rewrite string_app_nil_r.
        -- exists (String "/" s1), s2. split; [done|].
           by rewrite string_app_assoc.
      * intros ([|c s1] & s2 & Heq & ->).
        -- left. by rewrite string_app_nil_r.
        -- right. rewrite string_app_cons in Heq. injection Heq as <- ->.
           exists s1, s2. split; [done|]. by rewrite string_app_assoc.
    + rewrite IH. split.
      * intros (s1 & s2 & -> & ->). exists (String c s1), s2.
        split; [done|]. by rewrite string_app_assoc.
      * intros ([|c' s1] & s2 & Heq & ->).
        -- simpl in Heq. injection Heq as -> _. done.
        -- rewrite string_app_cons in Heq. injection Heq as <- ->.
           exists s1, s2. split; [done|]. by rewrite string_app_assoc.
Qed.

(** The directories above a path are its non-empty proper prefixes that
    end at a separator. *)
Lemma ancestors_spec path a :
  a ∈ ancestors path ↔
  a ≠ EmptyString ∧ ∃ rest, path = a +:+ String "/" rest.
Proof.
  unfold ancestors. rewrite list_elem_of_filter, slash_prefixes_spec.
  split.
  - intros (Hne & s1 & s2 & -> & ->). split; [done|]. by exists s2.
  - intros (Hne & rest & ->). split; [done|]. by exists a, rest.
Qed.

Lemma ancestors_trans path a b :
  a ∈ ancestors path → b ∈ ancestors a → b ∈ ancestors path.
Proof.
  rewrite !ancestors_spec. intros (_ & r1 & ->) (Hb & r2 & ->).
  split; [done|]. exists (r2 +:+ String "/" r1).
  by rewrite string_app_assoc.
Qed.

(** A folder is above everything built below it. *)
Lemma ancestors_below folder rest :
  folder ≠ EmptyString → folder ∈ ancestors (folder +:+ String "/" rest).
Proof. intros Hne. apply ancestors_spec. split; [done|]. by exists rest. Qed.

End Paths.

(* ===================================================================== *)
(** ** Properties of the folder-making steps *)
(* ===================================================================== *)

Section FolderProperties.
Context `{GitPython}.

Implicit Types (w : World) (p path : string) (paths : list string).

Lemma path_exists_spec p w :
  path_exists p w = true ↔ p ∈ dirs w ∨ p ∈ dom (files w).
Proof.
  unfold path_exists. by rewrite orb_true_iff, !bool_decide_eq_true.
Qed.

Lemma fs_closed_spec w :
  fs_closed w ↔
  ∀ p a, p ∈ dirs w ∨ p ∈ dom (files w) → a ∈ ancestors p → a ∈ dirs w.
Proof.
  unfold fs_closed, set_Forall. split.
  - intros Hc p a Hp Ha.
    assert (p ∈ dirs w ∪ dom (files w)) as Hin by set_solver.
    specialize (Hc p Hin). rewrite Forall_forall in Hc. by apply Hc.
  - intros Hc p Hp. apply Forall_forall. intros a Ha.
    apply (Hc p a); [set_solver|done].
Qed.

Lemma folders_only_refl w : folders_only w w.
Proof.
  split; try done. exists []. by rewrite app_nil_r.
Qed.

Lemma folders_only_trans w1 w2 w3 :
  folders_only w1 w2 → folders_only w2 w3 → folders_only w1 w3.
Proof.
  intros [Hf1 Hr1 Ht1 Hd1 (e1 & Hl1 & He1)] [Hf2 Hr2 Ht2 Hd2 (e2 & Hl2 & He2)].
  split; [congruence|congruence|congruence|set_solver|].
  exists (e1 ++ e2). split; [by rewrite Hl2, Hl1, app_assoc|].
  by apply Forall_app.
Qed.

Lemma path_exists_mono p w w' :
  folders_only w w' → path_exists p w = true → path_exists p w' = true.
Proof.
  intros [Hf _ _ Hd _]. rewrite !path_exists_spec, Hf. set_solver.
Qed.

Lemma with_ancestors_app paths1 paths2 :
  with_ancestors (paths1 ++ paths2)
  = with_ancestors paths1 ∪ with_ancestors paths2.
Proof.
  unfold with_ancestors. rewrite bind_app, !list_to_set_app_L. set_solver.
Qed.

Lemma ensures_ret : ensures [] (ret tt).
Proof.
  intros w. exists w. split; [done|]. split; [apply folders_only_refl|].
  split; [intros p Hp; by apply elem_of_nil in Hp|].
  split; [set_solver|]. intros Hc. split; [done|].
  intros p a Hp. by apply elem_of_nil in Hp.
Qed.

(** [pymkdir] makes sure of its folder. *)
Lemma ensures_pymkdir path : ensures [path] (pymkdir path).
Proof.
  intros w. unfold pymkdir. destruct (path_exists path w) eqn:Hex.
  - exists w. split; [done|]. split; [apply folders_only_refl|].
    split; [by intros p ->%list_elem_of_singleton|].
    split; [set_solver|]. intros Hc. split; [done|].
    intros p a ->%list_elem_of_singleton Ha.
    apply path_exists_spec in Hex. rewrite fs_closed_spec in Hc. by eapply Hc.
  - eexists. split; [reflexivity|]. simpl. split; [|split; [|split]].
    + split; simpl; [done|done|done|set_solver|].
      exists [EvMakedirs path]. split; [done|]. apply Forall_singleton. by eexists.
    + intros p ->%list_elem_of_singleton. apply path_exists_spec. simpl.
      left. set_solver.
    + unfold with_ancestors. simpl. rewrite app_nil_r. set_solver.
    + intros Hc. rewrite fs_closed_spec in Hc. split.
      * apply fs_closed_spec. simpl. intros p a Hp Ha.
        destruct Hp as [Hp|Hp].
        -- apply elem_of_union in Hp as [Hp|Hp].
           ++ apply elem_of_union in Hp as [Hp|Hp].
              ** apply elem_of_union_l, elem_of_union_l. apply (Hc p a); auto.
              ** apply elem_of_union_l, elem_of_union_r, elem_of_list_to_set.
                 apply elem_of_list_to_set in Hp. by eapply ancestors_trans.
           ++ apply elem_of_singleton in Hp as ->.
              by apply elem_of_union_l, elem_of_union_r, elem_of_list_to_set.
        -- apply elem_of_union_l, elem_of_union_l. apply (Hc p a); auto.
      * intros p a ->%list_elem_of_singleton Ha. simpl.
        by apply elem_of_union_l, elem_of_union_r, elem_of_list_to_set.
Qed.

Lemma ensures_bind paths1 paths2 (m1 : M unit) (k : unit → M unit) :
  ensures paths1 m1 → (∀ u, ensures paths2 (k u)) →
  ensures (paths1 ++ paths2) (bind m1 k).
Proof.
  intros H1 H2 w.
  destruct (H1 w) as (w1 & Hrun1 & Hfo1 & Hex1 & Hsub1 & Hc1).
  destruct (H2 tt w1) as (w2 & Hrun2 & Hfo2 & Hex2 & Hsub2 & Hc2).
  exists w2. unfold bind. rewrite Hrun1, Hrun2.
  split; [done|]. split; [by eapply folders_only_trans|].
  split; [|split].
  - intros p [Hp|Hp]%elem_of_app; [|by apply Hex2].
    eapply path_exists_mono; [done|]. by apply Hex1.
  - rewrite with_ancestors_app. intros p Hp. apply Hsub2 in Hp.
    apply elem_of_union in Hp as [Hp|Hp].
    + apply Hsub1 in Hp. apply elem_of_union in Hp as [Hp|Hp].
      * by apply elem_of_union_l.
      * by apply elem_of_union_r, elem_of_union_l.
    + by apply elem_of_union_r, elem_of_union_r.
  - intros Hc. destruct (Hc1 Hc) as [Hc' Hab1].
    destruct (Hc2 Hc') as [Hc'' Hab2]. split; [done|].
    intros p a [Hp|Hp]%elem_of_app Ha; [|by eapply Hab2].
    apply (fo_dirs _ _ Hfo2). by eapply Hab1.
Qed.

(** A loop whose every round makes sure of some folders makes sure of them
    all. *)
Lemma ensures_for_each {A} (body : A → M unit) (folders : A → list string)
    (xs : list A) :
  (∀ x, ensures (folders x) (body x)) →
  ensures (xs ≫= folders) (for_each (λ _ x, body x) xs tt).
Proof.
  intros Hbody. induction xs as [|x xs IH]; [apply ensures_ret|].
  rewrite bind_cons. simpl.
  apply ensures_bind; [done|]. by intros [].
Qed.

Lemma bind_assoc {A B C} (m : M A) (k : A → M B) (h : B → M C) w :
  bind (bind m k) h w = bind m (λ x, bind (k x) h) w.
Proof. unfold bind. by destruct (m w) as [[a|e] w']. Qed.

(** The directory of a file named directly in a folder is the folder. *)
Lemma dirname_join folder name :
  (∀ acc, slash_prefixes acc name = []) →
  dirname (folder +:+ String "/" name) = folder.
Proof.
  intros Hname. unfold dirname.
  assert (∀ acc, last (slash_prefixes acc (folder +:+ String "/" name))
                 = Some (acc +:+ folder)) as Hlast.
  { induction folder as [|c folder IH]; intros acc.
    - simpl. rewrite Hname. simpl. by rewrite string_app_nil_r.
    - rewrite string_app_cons. simpl. case_bool_decide.
      + rewrite last_cons, IH. subst c. by rewrite string_app_assoc.
      + rewrite IH. by rewrite string_app_assoc. }
  by rewrite Hlast.
Qed.

Lemma touch_in_dir path w :
  dirname path ∈ dirs w → touch path w = (Ok tt, touched path w).
Proof.
  intros Hdir. unfold touch. by rewrite bool_decide_eq_true_2.
Qed.

(** What [touch] leaves alone: the directories, the repository, and every
    file that already existed. *)
Lemma touched_frame path w :
  dirs (touched path w) = dirs w ∧ repo (touched path w) = repo w ∧
  ticks (touched path w) = ticks w ∧
  log (touched path w) = log w ++ [EvTouch path] ∧
  path ∈ dom (files (touched path w)) ∧
  (∀ f, f ∈ dom (files w) → files (touched path w) !! f = files w !! f) ∧
  (∀ f, f ≠ path → files (touched path w) !! f = files w !! f).
Proof.
  unfold touched, isfile; simpl. repeat split; try done.
  - case_bool_decide; [done|]. set_solver.
  - intros f Hf. case_bool_decide as Hp; [done|].
    rewrite lookup_insert_ne; [done|]. intros ->. done.
  - intros f Hf. case_bool_decide; [done|]. by rewrite lookup_insert_ne.
Qed.

(** The folder part of [Sitebuilder] on a validated row, in a well-formed
    tree: it returns; the sensor folder and every tier folder exist
    afterwards, and so do the day and run folders above them; only
    directories were made, all of them among these folders and what lies
    above them; then the notes file is touched if the row asks for it. *)
Lemma Sitebuilder_folders_spec frow site project node sitename y m d n w :
  _sitenamemaker site "" = Ok sitename →
  Year frow = PyInt y → Month frow = PyInt m → Day frow = PyInt d →
  Runs frow = PyInt n → 1 <= n →
  fs_closed w →
  let sensor := sensor_folder_of node project sitename frow in
  let folder := day_folder_of sensor y m d in
  let paths :=
    sensor :: tier_folders_of folder (Z.of_nat <$> seq 0 (Z.to_nat n)) in
  ∃ w1,
    Sitebuilder_folders frow site project node w
    = (Ok tt, if py_eq (MakeNotesFile frow) (PyBool true)
              then touched (notes_file_of folder) w1 else w1) ∧
    folders_only w w1 ∧
    (∀ p, p ∈ paths → path_exists p w1 = true) ∧
    dirs w1 ⊆ dirs w ∪ with_ancestors paths ∧
    fs_closed w1 ∧
    (∀ p a, p ∈ paths → a ∈ ancestors p → a ∈ dirs w1) ∧
    folder ∈ dirs w1.
Proof.
  intros Hname Hy Hm Hd Hn Hpos Hclosed sensor folder paths.
  set (runs := Z.of_nat <$> seq 0 (Z.to_nat n)).
  pose proof (ensures_bind [sensor] (tier_folders_of folder runs)
                (pymkdir sensor)
                (λ _, for_each
                        (λ _ runNo,
                           for_each
                             (λ _ fldr,
                                pymkdir (folder +:+ "/run_" +:+ fmt_02d runNo
                                         +:+ "/" +:+ fldr)) tiers tt)
                        runs tt)
                (ensures_pymkdir sensor)) as Hens.
  destruct (Hens
    (λ _, ensures_for_each
            (λ runNo, for_each
                        (λ _ fldr,
                           pymkdir (folder +:+ "/run_" +:+ fmt_02d runNo
                                    +:+ "/" +:+ fldr)) tiers tt)
            (λ runNo, fldr ← tiers;
                      [folder +:+ "/run_" +:+ fmt_02d runNo +:+ "/" +:+ fldr])
            runs
            (λ runNo, ensures_for_each
                        (λ fldr, pymkdir (folder +:+ "/run_" +:+ fmt_02d runNo
                                          +:+ "/" +:+ fldr))
                        (λ fldr, [folder +:+ "/run_" +:+ fmt_02d runNo
                                  +:+ "/" +:+ fldr])
                        tiers
                        (λ fldr, ensures_pymkdir _)))
    w) as (w1 & Hrun & Hfo & Hex & Hsub & Hcl).
  destruct (Hcl Hclosed) as [Hclosed1 Habove].
  assert (folder ∈ dirs w1) as Hfolder.
  { apply (Habove (folder +:+ "/run_" +:+ fmt_02d 0 +:+ "/" +:+ "Tier0_raw")).
    - apply elem_of_app. right. unfold tier_folders_of.
      apply list_elem_of_bind. exists 0. split; [set_solver|].
      unfold runs. destruct (Z.to_nat n) eqn:E; [lia|]. simpl. by left.
    - apply (ancestors_below folder). done. }
  exists w1. split; [|done].
  unfold Sitebuilder_folders. rewrite Hname, Hy, Hm, Hd, Hn.
  change (bind (pymkdir sensor)
               (λ _, bind (for_each
                             (λ _ runNo,
                                for_each
                                  (λ _ fldr,
                                     pymkdir (folder +:+ "/run_" +:+
                                              fmt_02d runNo +:+ "/" +:+ fldr))
                                  tiers tt)
                             runs tt)
                          (λ _, if py_eq (MakeNotesFile frow) (PyBool true)
                                then touch (notes_file_of folder) else ret tt))
               w
          = (Ok tt, if py_eq (MakeNotesFile frow) (PyBool true)
                    then touched (notes_file_of folder) w1 else w1)).
  rewrite <- bind_assoc. unfold bind at 1. rewrite Hrun.
  destruct (py_eq (MakeNotesFile frow) (PyBool true)); [|done].
  apply touch_in_dir. unfold notes_file_of.
  change (folder +:+ "/FieldNotes.txt")
    with (folder +:+ String "/" "FieldNotes.txt").
  by rewrite dirname_join.
Qed.

End FolderProperties.

(* ===================================================================== *)
(** ** Properties of the run over the field log *)
(* ===================================================================== *)

Section RunProperties.
Context `{Pandas} `{GitPython}.

Implicit Types (w : World) (env : RunEnv) (args : Args).

(** One round of the loop over the field log, by the verdict of
    [Rowchecker]. *)
Lemma field_day_run env args flog_fname prow info project node df_flog gitmod
    index cells w printed result :
  Rowchecker (clock env (ticks w)) (debugger env) flog_fname
             (FieldRow_of_Series cells) prow info (historical args)
             (default_past_date (import_time env)) = (printed, result) →
  field_day env args flog_fname prow info project node (df_flog, gitmod)
            (index, cells) w
  = match result with
    | Raise e => (Raise e, checked printed w)
    | Ok (check, site) =>
        Sitebuilder flog_fname df_flog index (FieldRow_of_Series cells) check
                    site project node args gitmod (checked printed w)
    end.
Proof.
  intros Hrow. unfold field_day, bind at 1, read_clock. rewrite Hrow.
  unfold bind, emit_all, lift. fold (checked printed w).
  by destruct result as [[check site]|e].
Qed.

(** An exception ends a loop at the round that raised it. *)
Lemma for_each_raise {A S} (body : S → A → M S) before x after s0 w0 s w e w' :
  for_each body before s0 w0 = (Ok s, w) →
  body s x w = (Raise e, w') →
  for_each body (before ++ x :: after) s0 w0 = (Raise e, w').
Proof.
  revert s0 w0. induction before as [|b before IH]; intros s0 w0; simpl.
  - intros [= -> ->] Hbody. unfold bind. by rewrite Hbody.
  - unfold bind. destruct (body s0 b w0) as [[s1|e1] w1]; [|discriminate].
    intros Hrest Hbody. by apply IH.
Qed.

(** Nothing in [main] catches: an exception in a step is the result. *)
Lemma bind_raise {A B} (m : M A) (k : A → M B) w e w' :
  m w = (Raise e, w') → bind m k w = (Raise e, w').
Proof. intros Hm. unfold bind. by rewrite Hm. Qed.

Lemma project_step_raise env args node gitmod project_label row w
    df_flog gitmod1 flog_fname Site_names info w1 e w' :
  projBuilder (py_str project_label) node colnames args gitmod w
  = (Ok (df_flog, gitmod1, flog_fname, Site_names, info), w1) →
  df_empty df_flog = false →
  for_each (field_day env args flog_fname row info (py_str project_label) node)
           (iterrows df_flog) (df_flog, gitmod1) w1 = (Raise e, w') →
  project_step env args node gitmod (project_label, row) w = (Raise e, w').
Proof.
  intros Hproj Hempty Hrows. unfold project_step, bind at 1.
  rewrite Hproj, Hempty. by apply bind_raise.
Qed.

Lemma node_loop_raise env args node nodes gitmod w df gitmod1 w1 e w' :
  NodeChecker args node gitmod w = (Ok (df, gitmod1), w1) →
  df_empty df = false →
  for_each (project_step env args node) (iterrows df) gitmod1 w1
  = (Raise e, w') →
  node_loop env args (node :: nodes) gitmod w = (Raise e, w').
Proof.
  intros Hnode Hempty Hprojects. simpl. unfold bind at 1.
  rewrite Hnode, Hempty. by apply bind_raise.
Qed.

Lemma main_raise env args w nodes w1 e w' :
  (if negb (no_git args) then GitPull env else ret tt) w = (Ok tt, w1) →
  load_node_yaml (projectsYAML args) w1 = (Ok nodes, w1) →
  node_loop env args nodes false w1 = (Raise e, w') →
  main env args w = (Raise e, w').
Proof.
  intros Hpull Hload Hloop. unfold main, bind at 1. rewrite Hpull.
  unfold bind at 1. rewrite Hload. by apply bind_raise.
Qed.

Lemma fs_closed_checked printed w : fs_closed w → fs_closed (checked printed w).
Proof. done. Qed.

(** C2: when [Rowchecker] raises for a row, the round of the loop raises the
    same exception with the working tree, the files (the ledger among them)
    and the repository exactly as they were before the row: no folder was
    made, nothing was written or staged.  When it is a validation check
    that failed, the exception names the ledger file, the whole row and the
    cause.  The loop over the field log ends there: the rows after it are
    not looked at. *)
Theorem C2_invalid_row_aborts_before_any_effect
    env args flog_fname prow info project node df_flog gitmod index cells w
    printed e :
  Rowchecker (clock env (ticks w)) (debugger env) flog_fname
             (FieldRow_of_Series cells) prow info (historical args)
             (default_past_date (import_time env)) = (printed, Raise e) →
  field_day env args flog_fname prow info project node (df_flog, gitmod)
            (index, cells) w = (Raise e, checked printed w) ∧
  dirs (checked printed w) = dirs w ∧
  files (checked printed w) = files w ∧
  repo (checked printed w) = repo w ∧
  (∀ check,
      checksum_stage (debugger env) flog_fname (FieldRow_of_Series cells)
      = (printed, Ok check) →
      ∃ cause, e = ValueError_row flog_fname (FieldRow_of_Series cells) cause) ∧
  (∀ before after state0 w0,
      for_each (field_day env args flog_fname prow info project node)
               before state0 w0 = (Ok (df_flog, gitmod), w) →
      for_each (field_day env args flog_fname prow info project node)
               (before ++ (index, cells) :: after) state0 w0
      = (Raise e, checked printed w)).
Proof.
  intros Hrow.
  pose proof (field_day_run env args flog_fname prow info project node df_flog
                gitmod index cells w printed (Raise e) Hrow) as Hday.
  simpl in Hday.
  split; [done|]. split; [done|]. split; [done|]. split; [done|]. split.
  - intros check Hstage. revert Hrow. unfold Rowchecker. rewrite Hstage. simpl.
    intros [= Hchecks]. by eapply field_checks_raise.
  - intros before after state0 w0 Hbefore. by eapply for_each_raise.
Qed.

(** Where no file is in the way, a folder that exists is a directory. *)
Lemma unobstructed_dir paths p w w' :
  unobstructed paths w → files w' = files w → p ∈ paths →
  path_exists p w' = true → p ∈ dirs w'.
Proof.
  intros Hfree Hfiles Hp [Hin|Hin]%path_exists_spec; [done|].
  rewrite Hfiles in Hin. exfalso. apply (Hfree p); [|done].
  unfold with_ancestors. apply elem_of_union_l, elem_of_list_to_set, Hp.
Qed.



(** C4, amended: in the scenario (node Narrabri with GOBI and M3M, project
    P1 with M3M enabled, field site Main of 2024, ledger row
    2024-06-01 / M3M / Tech1 / 2 runs / Main / no notes / checkSum unset),
    run while the date is within the bounds (or with the historical flag),
    in a well-formed tree that has the site folder and no file where a
    folder is due, the round for the row makes exactly the folders
    [./Narrabri/P1/2024Main_F/M3M], [.../M3M/20240601] and under it [run_00]
    and [run_01], each with [Tier0_raw], [Tier1_proc], [Tier2_traits]: the
    day folder is the year in full followed by the two-digit month and day.
    The ledger is rewritten with the row's checkSum set to the recomputed
    checksum, a float holding an integer in [0, 10^8); no other file is
    created, so no notes file. *)
Theorem C4_scenario_folders_and_checksum env args gitmod w date :
  Timestamp "2024-6-1" = Some date →
  date <= clock env (ticks w) + hours_12 →
  default_past_date (import_time env) <= date ∨ historical args = true →
  fs_closed w →
  "./Narrabri/P1/2024Main_F" ∈ dirs w →
  (∀ p, p ∈ Scenario.row_folders → p ∉ dom (files w)) →
  ∃ c w',
    row_checksum Demo.row_20240601 = FInt c ∧
    c = uint64 (foldr Z.add 0
                  (uint64 <$> hash_pandas_object
                                (drop_CheckSum Demo.row_20240601)))
        mod 100000000 ∧
    0 <= c < 100000000 ∧
    field_day env args Scenario.flog_fname Demo.P1_prow Demo.P1_info "P1"
              Demo.Narrabri (Scenario.ledger Demo.row_20240601, gitmod)
              (PyInt 0, Scenario.cells_of Demo.row_20240601) w
    = (Ok (Scenario.ledger
             (Demo.with_CheckSum Demo.row_20240601 (PyFloat (FInt c))),
           if no_git args then gitmod else true), w') ∧
    dirs w' = dirs w ∪ list_to_set Scenario.row_folders ∧
    files w'
    = <[Scenario.flog_fname :=
          CsvFile (Scenario.ledger_table
                     (Demo.with_CheckSum Demo.row_20240601 (PyFloat (FInt c))))]>
        (files w) ∧
    EvToCsv Scenario.flog_fname ∈ log w'.
Proof.
  intros Hts Hhi Hlo Hclosed Hsite Hfree.
  set (c := uint64 (foldr Z.add 0
                      (uint64 <$> hash_pandas_object
                                    (drop_CheckSum Demo.row_20240601)))
            mod 100000000).
  assert (row_checksum Demo.row_20240601 = FInt c) as Hc by reflexivity.
  assert (0 <= c < 100000000) as Hrange by (apply Z.mod_pos_bound; lia).
  (* the row passes validation *)
  assert (Rowchecker (clock env (ticks w)) (debugger env) Scenario.flog_fname
            (FieldRow_of_Series (Scenario.cells_of Demo.row_20240601))
            Demo.P1_prow Demo.P1_info (historical args)
            (default_past_date (import_time env))
          = ([], Ok (Some (FInt c), Demo.site_Main))) as Hrow.
  { rewrite <- Hc.
    change (FieldRow_of_Series (Scenario.cells_of Demo.row_20240601))
      with Demo.row_20240601.
    apply (Rowchecker_new_row _ _ _ _ _ _ _ _ date);
      [reflexivity|reflexivity|reflexivity|exact Hts|exact Hhi|exact Hlo|].
    unfold field_checks.
    change (date_text Demo.row_20240601) with "2024-6-1". rewrite Hts.
    reflexivity. }
  rewrite (field_day_run _ _ _ _ _ _ _ _ _ _ _ _ _ _ Hrow).
  cbv beta iota.
  change (FieldRow_of_Series (Scenario.cells_of Demo.row_20240601))
    with Demo.row_20240601.
  (* the folders *)
  destruct (Sitebuilder_folders_spec Demo.row_20240601 Demo.site_Main "P1"
              Demo.Narrabri "2024Main_F" 2024 6 1 2 (checked [] w)
              eq_refl eq_refl eq_refl eq_refl eq_refl ltac:(lia)
              (fs_closed_checked [] w Hclosed))
    as (w1 & Hrun & Hfo & Hex & Hsub & Hclosed1 & Habove & Hfolder).
  change (sensor_folder_of Demo.Narrabri "P1" "2024Main_F" Demo.row_20240601
          :: tier_folders_of
               (day_folder_of
                  (sensor_folder_of Demo.Narrabri "P1" "2024Main_F"
                     Demo.row_20240601) 2024 6 1)
               (Z.of_nat <$> seq 0 (Z.to_nat 2)))
    with Scenario.made_folders in *.
  change (day_folder_of
            (sensor_folder_of Demo.Narrabri "P1" "2024Main_F"
               Demo.row_20240601) 2024 6 1)
    with Scenario.day_folder in *.
  change (py_eq (MakeNotesFile Demo.row_20240601) (PyBool true))
    with false in Hrun.
  cbv iota in Hrun.
  destruct Hfo as [Hfiles Hrepo Hticks Hdirs _].
  change (files (checked [] w)) with (files w) in Hfiles.
  change (dirs (checked [] w)) with (dirs w) in Hdirs, Hsub.
  assert (∀ a, a ∈ ["."; "./Narrabri"; "./Narrabri/P1"] → a ∈ dirs w) as Hup.
  { rewrite fs_closed_spec in Hclosed.
    intros a Ha. apply (Hclosed "./Narrabri/P1/2024Main_F"); [by left|].
    exact Ha. }
  assert (∀ p, p ∈ Scenario.made_folders → p ∈ dirs w1) as Hmade7.
  { intros p Hp. specialize (Hex p Hp).
    apply path_exists_spec in Hex as [?|Hf]; [assumption|].
    rewrite Hfiles in Hf. exfalso. apply (Hfree p); [|exact Hf].
    revert Hp. unfold Scenario.made_folders, Scenario.row_folders.
    rewrite !elem_of_cons. tauto. }
  assert (∀ p, p ∈ Scenario.row_folders → p ∈ dirs w1) as Hmade.
  { intros p Hp. unfold Scenario.row_folders in Hp.
    rewrite !elem_of_cons in Hp.
    destruct Hp as [->|[->|[->|[->|[->|[->|[->|[->|[->|[->|Hp]]]]]]]]]].
    - apply Hmade7. unfold Scenario.made_folders. rewrite !elem_of_cons. tauto.
    - exact Hfolder.
    - apply (Habove (Scenario.day_folder +:+ "/run_00/Tier0_raw")).
      + unfold Scenario.made_folders. rewrite !elem_of_cons. tauto.
      + apply (ancestors_below (Scenario.day_folder +:+ "/run_00")
                               "Tier0_raw"). discriminate.
    - apply Hmade7. unfold Scenario.made_folders. rewrite !elem_of_cons. tauto.
    - apply Hmade7. unfold Scenario.made_folders. rewrite !elem_of_cons. tauto.
    - apply Hmade7. unfold Scenario.made_folders. rewrite !elem_of_cons. tauto.
    - apply (Habove (Scenario.day_folder +:+ "/run_01/Tier0_raw")).
      + unfold Scenario.made_folders. rewrite !elem_of_cons. tauto.
      + apply (ancestors_below (Scenario.day_folder +:+ "/run_01")
                               "Tier0_raw"). discriminate.
    - apply Hmade7. unfold Scenario.made_folders. rewrite !elem_of_cons. tauto.
    - apply Hmade7. unfold Scenario.made_folders. rewrite !elem_of_cons. tauto.
    - apply Hmade7. unfold Scenario.made_folders. rewrite !elem_of_cons. tauto.
    - destruct (proj1 (elem_of_nil p) Hp). }
  assert (with_ancestors Scenario.made_folders
          = list_to_set ["."; "./Narrabri"; "./Narrabri/P1";
                         "./Narrabri/P1/2024Main_F"]
            ∪ list_to_set Scenario.row_folders) as Hwa
    by (vm_compute; reflexivity).
  assert (dirs w1 = dirs w ∪ list_to_set Scenario.row_folders) as Hdirs1.
  { apply set_eq. intros p. rewrite elem_of_union, elem_of_list_to_set. split.
    - intros Hp. apply Hsub in Hp. rewrite Hwa in Hp.
      rewrite !elem_of_union, !elem_of_list_to_set in Hp.
      destruct Hp as [Hp|[Hp|Hp]]; [by left| |by right].
      left. rewrite !elem_of_cons in Hp.
      destruct Hp as [->|[->|[->|[->|Hp]]]];
        [apply Hup; rewrite !elem_of_cons; tauto ..|exact Hsite|].
      destruct (proj1 (elem_of_nil p) Hp).
    - intros [Hp|Hp]; [by apply Hdirs|by apply Hmade]. }
  exists c.
  destruct (no_git args) eqn:Hgit.
  - eexists. split; [exact Hc|]. split; [reflexivity|]. split; [exact Hrange|].
    split.
    { unfold Sitebuilder, bind at 1. rewrite Hrun.
      unfold to_csv, bind, emit, write_file, ret. rewrite Hgit. reflexivity. }
    cbn [dirs files log]. split; [exact Hdirs1|]. split; [by rewrite Hfiles|].
    apply elem_of_app. right. by left.
  - eexists. split; [exact Hc|]. split; [reflexivity|]. split; [exact Hrange|].
    split.
    { unfold Sitebuilder, bind at 1. rewrite Hrun.
      unfold to_csv, bind, emit, write_file, repo_git_add, ret. rewrite Hgit.
      reflexivity. }
    cbn [dirs files log]. split; [exact Hdirs1|]. split; [by rewrite Hfiles|].
    apply elem_of_app. left. apply elem_of_app. right. by left.
Qed.

End RunProperties.

(* ===================================================================== *)
(** ** The site of a row, and the historical flag *)
(* ===================================================================== *)

Section SiteLookup.
Context `{Pandas}.

Implicit Types (flrow : FieldRow) (prow : Series) (info : project_info).

(** The sites collected so far play no part in the search. *)
Lemma find_site_acc sites flrow acc :
  find_site sites flrow acc
  = ((find_site sites flrow []).1, acc ++ (find_site sites flrow []).2).
Proof.
  revert acc. induction sites as [|s sites IH]; intros acc; simpl.
  - by rewrite app_nil_r.
  - destruct (py_eq (s_name s) (Site flrow)); [|apply IH].
    destruct (py_eq (s_year s) (Year flrow)); simpl.
    + by rewrite app_nil_r.
    + rewrite (IH (acc ++ [s])), (IH [s]). simpl. by rewrite <- app_assoc.
Qed.

(** X4: the site loop of [Rowchecker] (lines 577-585) returns the first
    site of the project file whose name and year equal the row's; what it
    has collected for the error message are the sites before that one that
    are named like the row, all of another year.  If no site has the row's
    name and year, it has collected every site named like the row. *)
Theorem X4_find_site_first_answer sites flrow :
  let named := λ s, py_eq (s_name s) (Site flrow) = true in
  match find_site sites flrow [] with
  | (Some site, skipped) =>
      ∃ before after,
        sites = before ++ site :: after ∧
        answers flrow site = true ∧
        Forall (λ s, answers flrow s = false) before ∧
        skipped = filter named before
  | (None, skipped) =>
      Forall (λ s, answers flrow s = false) sites ∧
      skipped = filter named sites
  end.
Proof.
  cbv zeta. unfold answers.
  induction sites as [|s sites IH]; [done|].
  cbn [find_site]. rewrite filter_cons.
  destruct (py_eq (s_name s) (Site flrow)) eqn:Hname.
  - rewrite decide_True by done.
    destruct (py_eq (s_year s) (Year flrow)) eqn:Hyear; cbn [negb].
    + exists [], sites. by rewrite Hname, Hyear.
    + rewrite find_site_acc.
      destruct (find_site sites flrow []) as [[site|] skipped]; cbn [fst snd app].
      * destruct IH as (before & after & -> & Hans & Hbefore & ->).
        exists (s :: before), after. split; [done|]. split; [done|].
        split.
        -- constructor; [by rewrite Hname, Hyear|done].
        -- rewrite filter_cons. by rewrite decide_True.
      * destruct IH as [Hall ->]. split; [|done].
        constructor; [by rewrite Hname, Hyear|done].
  - rewrite decide_False by done.
    destruct (find_site sites flrow []) as [[site|] skipped].
    + destruct IH as (before & after & -> & Hans & Hbefore & ->).
      exists (s :: before), after. split; [done|]. split; [done|].
      split.
      * constructor; [by rewrite Hname|done].
      * rewrite filter_cons. by rewrite decide_False by (by rewrite Hname).
    + destruct IH as [Hall ->]. split; [|done].
      constructor; [by rewrite Hname|done].
Qed.

#[local] Arguments first_dtype_error : simpl never.

(** X3: the [historical] flag does nothing but lift the cut-off.  With and
    without it [Rowchecker] prints and returns the same, except for a row
    that reaches the date bounds with a date before [past_date]: without
    the flag that row fails with [TooHistorical], having printed the
    same. *)
Theorem X3_historical_only_lifts_the_cut_off
    now dbg flog_fname flrow prow info past :
  let run := λ hist, Rowchecker now dbg flog_fname flrow prow info hist past in
  run true = run false ∨
  ∃ date,
    Timestamp (date_text flrow) = Some date ∧ date < past ∧
    date <= now + hours_12 ∧
    run false = ((run true).1,
                 Raise (ValueError_row flog_fname flrow (TooHistorical date past))).
Proof.
  cbv zeta. unfold Rowchecker.
  destruct (checksum_stage dbg flog_fname flrow) as [printed [[c|]|e]]; simpl;
    [|by left|by left].
  unfold field_checks.
  destruct (first_dtype_error TInt int_fields flrow); simpl; [by left|].
  destruct (first_dtype_error TStr str_fields flrow); simpl; [by left|].
  destruct (Timestamp (date_text flrow)) as [date|] eqn:Hdate; simpl;
    [|by left].
  unfold date_bounds.
  case_bool_decide as Hlate; simpl; [by left|].
  case_bool_decide as Hearly; simpl; [|by left].
  right. exists date. split; [done|]. split; [done|]. split; [lia|done].
Qed.

End SiteLookup.

(* ===================================================================== *)
(** ** What [Rowchecker] returns, and what it raises *)
(* ===================================================================== *)

Section RowcheckerResults.
Context `{Pandas}.

Implicit Types (flrow : FieldRow) (prow : Series) (info : project_info).

#[local] Arguments first_dtype_error : simpl never.

(** When the date bounds let a row through. *)
Lemma date_bounds_Ok now hist past flog_fname flrow date :
  date_bounds now hist past flog_fname flrow date = Ok tt ↔
  date <= now + hours_12 ∧ (date < past → hist = true).
Proof.
  unfold date_bounds, raise_when.
  case_bool_decide as Hlate; [split; [discriminate|lia]|].
  case_bool_decide as Hearly.
  - destruct hist; simpl; split; try done; try lia.
  - split; [lia|done].
Qed.

(** What a row that passed the field-level checks went through. *)
Lemma field_checks_Ok_inv now flog_fname flrow prow info hist past check c site :
  field_checks now flog_fname flrow prow info hist past check = Ok (c, site) →
  c = check ∧
  first_dtype_error TInt int_fields flrow = None ∧
  first_dtype_error TStr str_fields flrow = None ∧
  (∃ date, Timestamp (date_text flrow) = Some date ∧
           (is_Some check →
            date_bounds now hist past flog_fname flrow date = Ok tt)) ∧
  field_checks now flog_fname flrow prow info hist past None = Ok (None, site).
Proof.
  intros Hok. split; [by eapply field_checks_returned|].
  revert Hok. unfold field_checks, raise_when.
  destruct (first_dtype_error TInt int_fields flrow); simpl; [discriminate|].
  destruct (first_dtype_error TStr str_fields flrow); simpl; [discriminate|].
  destruct (Timestamp (date_text flrow)) as [date|]; simpl; [|discriminate].
  destruct check as [c0|]; simpl.
  - destruct (date_bounds now hist past flog_fname flrow date) as [[]|] eqn:Hb;
      simpl; [|discriminate].
    destruct (in_index _ _); simpl; [|discriminate].
    destruct (py_lt_int _ _); simpl; [discriminate|].
    destruct (py_in _ _); simpl; [|discriminate].
    destruct (find_site _ _ _) as [[outsite|] errorlog]; [|discriminate].
    intros [= <- <-]. split; [done|]. split; [done|]. split; [|done].
    exists date. done.
  - destruct (in_index _ _); simpl; [|discriminate].
    destruct (py_lt_int _ _); simpl; [discriminate|].
    destruct (py_in _ _); simpl; [|discriminate].
    destruct (find_site _ _ _) as [[outsite|] errorlog]; [|discriminate].
    intros [= <- <-]. split; [done|]. split; [done|]. split; [|done].
    exists date. split; [done|]. by intros [? [=]].
Qed.

(** [find_site] reads the row's site and year, nothing else. *)
Lemma find_site_ext sites flrow flrow' acc :
  Site flrow' = Site flrow → Year flrow' = Year flrow →
  find_site sites flrow' acc = find_site sites flrow acc.
Proof.
  intros Hs Hy. revert acc.
  induction sites as [|s sites IH]; intros acc; simpl; [done|].
  rewrite Hs, Hy. by rewrite !IH.
Qed.

(** The checksum does not read the CheckSum cell, and is never not-a-number. *)
Lemma row_checksum_stamped flrow c :
  row_checksum (stamped_with flrow c) = row_checksum flrow.
Proof. reflexivity. Qed.

(** The three ways through the checksum comparison: a match, a new row,
    a mismatch with the debugger resumed. *)
Lemma checksum_stage_Ok dbg flog_fname flrow printed check :
  checksum_stage dbg flog_fname flrow = (printed, Ok check) →
  (check = None ∧ printed = [] ∧
   np_isnan (CheckSum flrow) = Some false ∧
   py_eq (PyFloat (row_checksum flrow)) (CheckSum flrow) = true) ∨
  (check = Some (row_checksum flrow) ∧ printed = [] ∧
   np_isnan (CheckSum flrow) = Some true) ∨
  (check = Some (row_checksum flrow) ∧ dbg = pdb_continue ∧
   printed = [EvChecksumConflict flog_fname flrow (row_checksum flrow);
              EvBreakpoint] ∧
   np_isnan (CheckSum flrow) = Some false ∧
   py_eq (PyFloat (row_checksum flrow)) (CheckSum flrow) = false).
Proof.
  unfold checksum_stage.
  destruct (np_isnan (CheckSum flrow)) as [[|]|]; [| |discriminate].
  - intros [= <- <-]. right. left. done.
  - destruct (py_eq (PyFloat (row_checksum flrow)) (CheckSum flrow)); simpl.
    + intros [= <- <-]. by left.
    + destruct dbg; [|discriminate]. intros [= <- <-]. right. right. done.
Qed.

(** X1: what [Rowchecker] guarantees about a row it returns for.  Year,
    Month, Day and Runs are plain integers, with at least one run;
    Technician, Sensor and Site are strings; the sensor is one the project
    has enabled; the site returned is one of the project's sites, with the
    row's name and the row's year; the date is a calendar date and, unless
    the stored checksum matched, within the bounds: not more than twelve
    hours ahead, and not before the cut-off unless [historical] is set.  The
    checksum returned is [None] exactly when the stored one is set and
    equals the recomputed one, and is the recomputed one otherwise. *)
Theorem X1_Rowchecker_accepted_row
    now dbg flog_fname flrow prow info hist past printed check site :
  Rowchecker now dbg flog_fname flrow prow info hist past
  = (printed, Ok (check, site)) →
  (∃ y m d n,
      Year flrow = PyInt y ∧ Month flrow = PyInt m ∧ Day flrow = PyInt d ∧
      Runs flrow = PyInt n ∧ 1 <= n ∧
      num_val (s_year site) = Some (FInt y)) ∧
  (∃ technician sensor name,
      Technician flrow = PyStr technician ∧
      Sensor flrow = PyStr sensor ∧ sensor ∈ enabled_sensors prow ∧
      Site flrow = PyStr name ∧ s_name site = PyStr name) ∧
  site ∈ p_sites info ∧
  (∃ date,
      Timestamp (date_text flrow) = Some date ∧
      (check ≠ None →
       date <= now + hours_12 ∧ (hist = false → past <= date))) ∧
  (check = None ∨ check = Some (row_checksum flrow)) ∧
  (check = None ↔
   np_isnan (CheckSum flrow) = Some false ∧
   py_eq (PyFloat (row_checksum flrow)) (CheckSum flrow) = true).
Proof.
  unfold Rowchecker.
  destruct (checksum_stage dbg flog_fname flrow) as [printed0 [check0|e]]
    eqn:Hstage; simpl; [|discriminate].
  intros [= <- Hchecks].
  destruct (field_checks_Ok_inv _ _ _ _ _ _ _ _ _ _ Hchecks)
    as (-> & Hint & Hstr & (date & Hdate & Hbounds) & Hnone).
  destruct (field_checks_Ok_row _ _ _ _ _ _ _ _ _ _ Hchecks)
    as ((y & m & d & n & Hy & Hm & Hd & Hn & Hpos) &
        (sensor & Hsensor & Hen) & Hfind).
  destruct (find_site_Some _ _ _ _ Hfind) as (Hin & Hname & Hyear).
  rewrite first_dtype_error_None in Hstr.
  assert (type_of (Technician flrow) = TStr) as Htt
    by (apply (Hstr ("Technician", Technician)); set_solver).
  assert (type_of (Site flrow) = TStr) as Hts
    by (apply (Hstr ("Site", Site)); set_solver).
  split; [|split; [|split; [done|split; [|split]]]].
  - exists y, m, d, n. repeat split; try done.
    rewrite Hy in Hyear. unfold py_eq in Hyear. simpl in Hyear.
    destruct (num_val (s_year site)) as [[|x]|]; try done.
    apply Z.eqb_eq in Hyear. by subst.
  - destruct (Technician flrow) as [| | | | technician |]; try discriminate.
    destruct (Site flrow) as [| | | | name |] eqn:Hsite; try discriminate.
    exists technician, sensor, name. repeat split; try done.
    unfold py_eq in Hname.
    destruct (s_name site) as [|b|z|[|z]|s|z]; simpl in Hname; try done.
    apply bool_decide_eq_true in Hname. by subst.
  - exists date. split; [done|]. intros Hsome.
    destruct check0 as [c|]; [|done].
    assert (date_bounds now hist past flog_fname flrow date = Ok tt) as Hb
      by (apply Hbounds; by eexists).
    apply date_bounds_Ok in Hb as [Hhi Hlo]. split; [done|].
    intros ->. destruct (decide (date < past)) as [Hlt|]; [|lia].
    by specialize (Hlo Hlt).
  - destruct (checksum_stage_Ok _ _ _ _ _ Hstage)
      as [(-> & _)|[(-> & _)|(-> & _)]]; auto.
  - destruct (checksum_stage_Ok _ _ _ _ _ Hstage)
      as [(-> & _ & ? & ?)|[(-> & _ & Hnan)|(-> & _ & _ & _ & Hne)]].
    + done.
    + split; [done|]. intros [Hnan' _]. congruence.
    + split; [done|]. intros [_ Heq]. congruence.
Qed.

(** A row stamped with the checksum returned for it is settled. *)
Lemma Rowchecker_stamped now dbg flog_fname flrow prow info hist past printed
    c site :
  Rowchecker now dbg flog_fname flrow prow info hist past
  = (printed, Ok (Some c, site)) →
  ∀ now' dbg' hist' past',
    Rowchecker now' dbg' flog_fname (stamped_with flrow c) prow info hist' past'
    = ([], Ok (None, site)).
Proof.
  unfold Rowchecker at 1.
  destruct (checksum_stage dbg flog_fname flrow) as [printed0 [check0|e]]
    eqn:Hstage; simpl; [|discriminate].
  intros [= <- Hchecks].
  destruct (field_checks_Ok_inv _ _ _ _ _ _ _ _ _ _ Hchecks)
    as (<- & Hint & Hstr & _ & Hnone).
  assert (c = row_checksum flrow) as ->.
  { destruct (checksum_stage_Ok _ _ _ _ _ Hstage)
      as [([=] & _)|[([= ->] & _)|([= ->] & _)]]; done. }
  intros now' dbg' hist' past'.
  apply field_checks_None_Ok in Hnone
    as (_ & _ & _ & Hts & Hsensor & Hruns & Hsite & Hfind).
  assert (checksum_stage dbg' flog_fname
            (stamped_with flrow (row_checksum flrow)) = ([], Ok None)) as Hst.
  { unfold checksum_stage. rewrite row_checksum_stamped.
    unfold row_checksum, np_isnan, py_eq. simpl. by rewrite Z.eqb_refl. }
  unfold Rowchecker. rewrite Hst. cbn [obind]. f_equal.
  apply field_checks_None_Ok. split; [done|].
  split; [exact Hint|]. split; [exact Hstr|]. split; [exact Hts|].
  split; [exact Hsensor|]. split; [exact Hruns|]. split; [exact Hsite|].
  rewrite (find_site_ext _ flrow); done.
Qed.

(** A row found matched is found matched whenever it is validated. *)
Lemma Rowchecker_matched_again now dbg flog_fname flrow prow info hist past
    printed site :
  Rowchecker now dbg flog_fname flrow prow info hist past
  = (printed, Ok (None, site)) →
  ∀ now' dbg' hist' past',
    Rowchecker now' dbg' flog_fname flrow prow info hist' past'
    = ([], Ok (None, site)).
Proof.
  intros (_ & Hnan & Heq & Hchecks)%Rowchecker_None now' dbg' hist' past'.
  unfold Rowchecker, checksum_stage. rewrite Hnan, Heq. cbn [negb obind].
  f_equal. exact Hchecks.
Qed.

(** A row [Rowchecker] returned for is settled once it holds the checksum
    returned, if one was. *)
Lemma settled_after flog_fname prow info flrow now dbg hist past printed check
    site :
  Rowchecker now dbg flog_fname flrow prow info hist past
  = (printed, Ok (check, site)) →
  settled flog_fname prow info
          (match check with Some c => stamped_with flrow c | None => flrow end).
Proof.
  intros Hrow. exists site. destruct check as [c|].
  - by eapply Rowchecker_stamped.
  - by eapply Rowchecker_matched_again.
Qed.

(** X2: stamping makes a row pass for good.  The checksum [Rowchecker]
    returns for a row is the recomputed one, a float holding an integer in
    [0, 10^8).  The same row with that value in its CheckSum cell is
    returned for with [None] and the same site, nothing being printed, at
    whatever time it is validated and whatever the cut-off, the historical
    flag and the answer to the debugger are. *)
Theorem X2_stamped_row_is_matched
    now dbg flog_fname flrow prow info hist past printed c site :
  Rowchecker now dbg flog_fname flrow prow info hist past
  = (printed, Ok (Some c, site)) →
  c = row_checksum flrow ∧
  (∃ z, c = FInt z ∧ 0 <= z < 100000000) ∧
  ∀ now' dbg' hist' past',
    Rowchecker now' dbg' flog_fname (stamped_with flrow c) prow info hist' past'
    = ([], Ok (None, site)).
Proof.
  intros Hrow.
  assert (c = row_checksum flrow) as Hc.
  { revert Hrow. unfold Rowchecker.
    destruct (checksum_stage dbg flog_fname flrow) as [printed0 [check0|e]]
      eqn:Hstage; simpl; [|discriminate].
    intros [= <- Hchecks]. apply field_checks_returned in Hchecks as <-.
    destruct (checksum_stage_Ok _ _ _ _ _ Hstage)
      as [([=] & _)|[([= ->] & _)|([= ->] & _)]]; done. }
  split; [done|]. split.
  { rewrite Hc. eexists. split; [reflexivity|]. apply Z.mod_pos_bound. lia. }
  by eapply Rowchecker_stamped.
Qed.

(** X5: the exceptions of [Rowchecker].  What it raises is a [ValueError]
    naming the ledger file and the row, as every failed check goes through
    [_ErrorMessage], with two exceptions, both from the checksum comparison
    that comes before the checks: the [TypeError] of [np.isnan] when the
    CheckSum cell holds no number, nothing having been printed; and
    [BdbQuit] when the stored checksum differs and the debugger session
    opened for it is quit. *)
Theorem X5_Rowchecker_exceptions
    now dbg flog_fname flrow prow info hist past printed e :
  Rowchecker now dbg flog_fname flrow prow info hist past = (printed, Raise e) →
  (∃ cause, e = ValueError_row flog_fname flrow cause) ∨
  (e = TypeError "isnan" ∧ printed = [] ∧ num_val (CheckSum flrow) = None) ∨
  (e = BdbQuit ∧ dbg = pdb_quit ∧
   printed = [EvChecksumConflict flog_fname flrow (row_checksum flrow);
              EvBreakpoint]).
Proof.
  unfold Rowchecker.
  destruct (checksum_stage dbg flog_fname flrow) as [printed0 [check0|e0]]
    eqn:Hstage; simpl.
  - intros [= <- Hchecks]. left. by eapply field_checks_raise.
  - intros [= <- <-]. right. revert Hstage. unfold checksum_stage, np_isnan.
    destruct (num_val (CheckSum flrow)) as [[|z]|].
    + discriminate.
    + destruct (negb _); [|discriminate].
      destruct dbg; [discriminate|]. intros [= <- <-]. by right.
    + intros [= <- <-]. by left.
Qed.

End RowcheckerResults.

(* ===================================================================== *)
(** ** Steps that keep a relation; nothing is taken away *)
(* ===================================================================== *)

Section Keeps.
Context `{GitPython}.

Notation "x ←$ m ; k" := (bind m (fun x => k))
  (at level 100, m at next level, right associativity,
   format "'[' x  ←$  m ; '//' k ']'").
Notation "m ;;$ k" := (bind m (fun _ => k))
  (at level 100, right associativity).

Implicit Types (R : World → World → Prop) (w : World).

(** A preorder is kept by the steps that do nothing, by a sequence and by
    a loop of steps that keep it. *)
Lemma keeps_ret R `{!Reflexive R} {A} (a : A) : keeps R (ret a).
Proof. intros w. simpl. reflexivity. Qed.

Lemma keeps_raise R `{!Reflexive R} {A} e : keeps R (raise (A:=A) e).
Proof. intros w. simpl. reflexivity. Qed.

Lemma keeps_lift R `{!Reflexive R} {A} (o : outcome A) : keeps R (lift o).
Proof. intros w. simpl. reflexivity. Qed.

Lemma keeps_bind R `{!Transitive R} {A B} (m : M A) (k : A → M B) :
  keeps R m → (∀ a, keeps R (k a)) → keeps R (bind m k).
Proof.
  intros Hm Hk w. unfold bind. specialize (Hm w).
  destruct (m w) as [[a|e] w1]; simpl in *; [|done].
  etrans; [exact Hm|apply Hk].
Qed.

Lemma keeps_for_each R `{!PreOrder R} {A S} (body : S → A → M S) xs s :
  (∀ s x, keeps R (body s x)) → keeps R (for_each body xs s).
Proof.
  intros Hbody. revert s. induction xs as [|x xs IH]; intros s; simpl.
  - apply keeps_ret. apply _.
  - apply keeps_bind; [apply _|apply Hbody|apply IH].
Qed.

(** A step chosen by a test on the world. *)
Lemma keeps_if_world R {A} (test : World → bool) (m1 m2 : M A) :
  keeps R m1 → keeps R m2 → keeps R (λ w, (if test w then m1 else m2) w).
Proof. intros H1 H2 w. destruct (test w); [apply H1|apply H2]. Qed.

End Keeps.

(** One rule, chosen by the shape of the step. *)
Ltac keeps_step :=
  match goal with
  | |- keeps _ (bind _ _) => apply keeps_bind; [apply _| |intros ?]
  | |- keeps _ (ret _) => apply keeps_ret; apply _
  | |- keeps _ (raise _) => apply keeps_raise; apply _
  | |- keeps _ (lift _) => apply keeps_lift; apply _
  | |- keeps _ (for_each _ _ _) => apply keeps_for_each; [apply _|intros ? ?]
  | |- keeps _ (if ?c then _ else _) => destruct c
  | |- keeps _ (match ?x with _ => _ end) => destruct x
  | |- keeps _ (λ w, (if _ then _ else _) w) => apply keeps_if_world
  end.

(** Back from a statement about one world to one about the step. *)
Ltac as_keeps :=
  match goal with
  | |- ?R ?w (snd (?m ?w)) => revert w; change (keeps R m)
  end.

Section Grows.
Context `{Pandas} `{GitPython}.

Notation "x ←$ m ; k" := (bind m (fun x => k))
  (at level 100, m at next level, right associativity,
   format "'[' x  ←$  m ; '//' k ']'").
Notation "m ;;$ k" := (bind m (fun _ => k))
  (at level 100, right associativity).

Implicit Types (w : World) (env : RunEnv) (args : Args).

(** Nothing is taken away by a step of the file system, of the
    repository or of the output, so by none of the functions. *)
#[global] Instance grows_preorder : PreOrder grows.
Proof.
  split.
  - intros w. by split.
  - intros w1 w2 w3 [] []. split; by etrans.
Qed.

Lemma grows_emit ev : keeps grows (emit ev).
Proof. intros w. split; simpl; [done|done|by apply prefix_app_r]. Qed.

Lemma grows_emit_all evs : keeps grows (emit_all evs).
Proof. intros w. split; simpl; [done|done|by apply prefix_app_r]. Qed.

Lemma grows_read_clock env : keeps grows (read_clock env).
Proof. intros w. by split. Qed.

Lemma grows_pymkdir path : keeps grows (pymkdir path).
Proof.
  intros w. unfold pymkdir. destruct (path_exists path w); [by split|].
  split; simpl; [set_solver|done|by apply prefix_app_r].
Qed.

Lemma grows_touch path : keeps grows (touch path).
Proof.
  intros w. unfold touch. destruct (_ || _); [|by split].
  split; simpl; [done| |by apply prefix_app_r].
  destruct (isfile path w); [done|]. rewrite dom_insert. set_solver.
Qed.

Lemma grows_to_csv df fname : keeps grows (to_csv df fname).
Proof.
  intros w. split; simpl; [done| |by apply prefix_app_r].
  rewrite dom_insert. set_solver.
Qed.

Lemma grows_write_file path body : keeps grows (write_file path body).
Proof.
  intros w. split; simpl; [done| |done]. rewrite dom_insert. set_solver.
Qed.

Lemma grows_read_csv fname : keeps grows (read_csv fname).
Proof.
  intros w. unfold read_csv.
  destruct (files w !! fname) as [[[|[c cells] table]| | |]|]; by split.
Qed.

Lemma grows_read_csv_index_col_0 fname : keeps grows (read_csv_index_col_0 fname).
Proof.
  intros w. unfold read_csv_index_col_0.
  destruct (files w !! fname) as [[[|[c cells] table]| | |]|]; by split.
Qed.

Lemma grows_load_node_yaml fname : keeps grows (load_node_yaml fname).
Proof.
  intros w. unfold load_node_yaml.
  destruct (files w !! fname) as [[| | |]|]; by split.
Qed.

Lemma grows_load_project_yaml fname : keeps grows (load_project_yaml fname).
Proof.
  intros w. unfold load_project_yaml.
  destruct (files w !! fname) as [[| | |]|]; by split.
Qed.

Lemma grows_repo_git_add fname : keeps grows (repo_git_add fname).
Proof. intros w. split; simpl; [done|done|by apply prefix_app_r]. Qed.

Create HintDb grows discriminated.
#[local] Hint Resolve grows_emit grows_emit_all grows_read_clock grows_pymkdir
  grows_touch grows_to_csv grows_write_file grows_read_csv
  grows_read_csv_index_col_0 grows_load_node_yaml grows_load_project_yaml
  grows_repo_git_add : grows.

Ltac grows_auto := repeat keeps_step; auto with grows.

Lemma grows_GitChanged fname gitmod : keeps grows (GitChanged fname gitmod).
Proof.
  unfold GitChanged. apply keeps_bind; [apply _| |intros g].
  - grows_auto.
  - intros w. cbv zeta.
    destruct (list_find _ _) as [[i diff]|]; [|by split].
    as_keeps. grows_auto.
Qed.

Lemma grows_GitPull env : keeps grows (GitPull env).
Proof.
  unfold GitPull. apply keeps_bind; [apply _| |intros pull_log].
  - intros w. destruct (git_pull (repo w)) as [pull_log r]. simpl.
    split; simpl; [done|done|by apply prefix_app_r].
  - grows_auto.
Qed.

#[local] Hint Resolve grows_GitChanged grows_GitPull : grows.

Lemma grows_df_col_check dfx fname colnms args gitmod fill_val :
  keeps grows (_df_col_check dfx fname colnms args gitmod fill_val).
Proof. unfold _df_col_check. grows_auto. Qed.

Lemma grows_projYAML project pym_fn args gitmod :
  keeps grows (_projYAML project pym_fn args gitmod).
Proof. unfold _projYAML. grows_auto. Qed.

#[local] Hint Resolve grows_df_col_check grows_projYAML : grows.

Lemma grows_NodeChecker args node gitmod :
  keeps grows (NodeChecker args node gitmod).
Proof. unfold NodeChecker. grows_auto. Qed.

Lemma grows_projBuilder project node colnames args gitmod :
  keeps grows (projBuilder project node colnames args gitmod).
Proof. unfold projBuilder. grows_auto. Qed.

Lemma grows_Sitebuilder_folders frow site project node :
  keeps grows (Sitebuilder_folders frow site project node).
Proof. unfold Sitebuilder_folders. grows_auto. Qed.

#[local] Hint Resolve grows_NodeChecker grows_projBuilder
  grows_Sitebuilder_folders : grows.

Lemma grows_Sitebuilder flog_fname df_flog index frow check site project node
    args gitmod :
  keeps grows (Sitebuilder flog_fname df_flog index frow check site project
                           node args gitmod).
Proof. unfold Sitebuilder. grows_auto. Qed.

#[local] Hint Resolve grows_Sitebuilder : grows.

Lemma grows_field_day env args flog_fname prow info project node state entry :
  keeps grows (field_day env args flog_fname prow info project node state entry).
Proof.
  unfold field_day. destruct state as [df_flog gitmod], entry as [index cells].
  apply keeps_bind; [apply _|auto with grows|intros now].
  destruct (Rowchecker _ _ _ _ _ _ _ _) as [printed result].
  grows_auto.
Qed.

#[local] Hint Resolve grows_field_day : grows.

Lemma grows_project_step env args node gitmod entry :
  keeps grows (project_step env args node gitmod entry).
Proof.
  unfold project_step. destruct entry as [project_label row]. grows_auto.
Qed.

#[local] Hint Resolve grows_project_step : grows.

Lemma grows_node_loop env args nodes gitmod :
  keeps grows (node_loop env args nodes gitmod).
Proof.
  revert gitmod. induction nodes as [|node nodes IH]; intros gitmod; simpl.
  - grows_auto.
  - grows_auto.
Qed.

#[local] Hint Resolve grows_node_loop : grows.

(** X6: a run takes nothing away.  For a run with [--no-git], or whose pull
    is up to date, whether [main] returns or raises, every directory and
    every file that existed before the run exists after it, and the output
    only got longer. *)
Theorem X6_main_takes_nothing_away env args w :
  no_git args = true ∨ (git_pull (repo w)).1 = "Already up to date." →
  grows w (main env args w).2.
Proof.
  intros _. revert w. change (keeps grows (main env args)). unfold main.
  grows_auto.
  intros w. split; simpl; [done|done|by apply prefix_app_r].
Qed.

End Grows.

(* ===================================================================== *)
(** ** The repository under [--no-git] *)
(* ===================================================================== *)

Section Quiet.
Context `{Pandas} `{GitPython}.

Notation "x ←$ m ; k" := (bind m (fun x => k))
  (at level 100, m at next level, right associativity,
   format "'[' x  ←$  m ; '//' k ']'").
Notation "m ;;$ k" := (bind m (fun _ => k))
  (at level 100, right associativity).

Implicit Types (w : World) (env : RunEnv) (args : Args).

(** The steps that leave the repository alone. *)
#[global] Instance git_quiet_preorder : PreOrder git_quiet.
Proof.
  split.
  - intros w. split; [done|]. exists []. by rewrite app_nil_r.
  - intros w1 w2 w3 [Hr1 (e1 & Hl1 & He1)] [Hr2 (e2 & Hl2 & He2)].
    split; [congruence|]. exists (e1 ++ e2).
    split; [by rewrite Hl2, Hl1, app_assoc|by apply Forall_app].
Qed.

Lemma quiet_emit ev : is_git ev = false → keeps git_quiet (emit ev).
Proof.
  intros Hev w. split; simpl; [done|].
  exists [ev]. split; [done|]. by apply Forall_singleton.
Qed.

Lemma quiet_emit_all evs :
  Forall (λ ev, is_git ev = false) evs → keeps git_quiet (emit_all evs).
Proof. intros Hevs w. split; simpl; [done|]. by exists evs. Qed.

(** A step that changes neither the repository nor the output. *)
Lemma quiet_silent {A} (m : M A) :
  (∀ w, repo (m w).2 = repo w ∧ log (m w).2 = log w) → keeps git_quiet m.
Proof.
  intros Hm w. destruct (Hm w) as [Hr Hl]. split; [done|].
  exists []. by rewrite app_nil_r.
Qed.

Lemma quiet_read_clock env : keeps git_quiet (read_clock env).
Proof. by apply quiet_silent. Qed.

Lemma quiet_pymkdir path : keeps git_quiet (pymkdir path).
Proof.
  intros w. unfold pymkdir. destruct (path_exists path w); [reflexivity|].
  split; simpl; [done|]. exists [EvMakedirs path]. split; [done|].
  by apply Forall_singleton.
Qed.

Lemma quiet_touch path : keeps git_quiet (touch path).
Proof.
  intros w. unfold touch. destruct (_ || _); [|reflexivity].
  split; simpl; [done|]. exists [EvTouch path]. split; [done|].
  by apply Forall_singleton.
Qed.

Lemma quiet_write_file path body : keeps git_quiet (write_file path body).
Proof. by apply quiet_silent. Qed.

Lemma quiet_to_csv df fname : keeps git_quiet (to_csv df fname).
Proof.
  intros w. split; simpl; [done|]. exists [EvToCsv fname]. split; [done|].
  by apply Forall_singleton.
Qed.

Lemma quiet_read_csv fname : keeps git_quiet (read_csv fname).
Proof.
  apply quiet_silent. intros w. unfold read_csv.
  by destruct (files w !! fname) as [[[|[c cells] table]| | |]|].
Qed.

Lemma quiet_read_csv_index_col_0 fname :
  keeps git_quiet (read_csv_index_col_0 fname).
Proof.
  apply quiet_silent. intros w. unfold read_csv_index_col_0.
  by destruct (files w !! fname) as [[[|[c cells] table]| | |]|].
Qed.

Lemma quiet_load_node_yaml fname : keeps git_quiet (load_node_yaml fname).
Proof.
  apply quiet_silent. intros w. unfold load_node_yaml.
  by destruct (files w !! fname) as [[| | |]|].
Qed.

Lemma quiet_load_project_yaml fname : keeps git_quiet (load_project_yaml fname).
Proof.
  apply quiet_silent. intros w. unfold load_project_yaml.
  by destruct (files w !! fname) as [[| | |]|].
Qed.

(** What [Rowchecker] prints is no git command. *)
Lemma Rowchecker_prints now dbg flog_fname flrow prow info hist past :
  Forall (λ ev, is_git ev = false)
         (Rowchecker now dbg flog_fname flrow prow info hist past).1.
Proof.
  unfold Rowchecker, checksum_stage.
  destruct (np_isnan (CheckSum flrow)) as [[|]|]; simpl; [done| |done].
  destruct (negb _); simpl; [|done].
  by repeat constructor.
Qed.

Create HintDb quiet discriminated.
#[local] Hint Resolve quiet_emit quiet_emit_all quiet_read_clock quiet_pymkdir
  quiet_touch quiet_write_file quiet_to_csv quiet_read_csv
  quiet_read_csv_index_col_0 quiet_load_node_yaml quiet_load_project_yaml
  : quiet.

Ltac quiet_auto := repeat keeps_step; auto with quiet.

Section NoGit.
Variable args : Args.
Hypothesis Hno_git : no_git args = true.

(** With [--no-git], every function does. *)
Lemma quiet_df_col_check dfx fname colnms gitmod fill_val :
  keeps git_quiet (_df_col_check dfx fname colnms args gitmod fill_val).
Proof. unfold _df_col_check. rewrite Hno_git. cbn [negb]. quiet_auto. Qed.

Lemma quiet_projYAML project pym_fn gitmod :
  keeps git_quiet (_projYAML project pym_fn args gitmod).
Proof. unfold _projYAML. rewrite Hno_git. cbn [negb]. quiet_auto. Qed.

#[local] Hint Resolve quiet_df_col_check quiet_projYAML : quiet.

Lemma quiet_NodeChecker node gitmod :
  keeps git_quiet (NodeChecker args node gitmod).
Proof. unfold NodeChecker. rewrite Hno_git. cbn [negb]. quiet_auto. Qed.

Lemma quiet_projBuilder project node colnames gitmod :
  keeps git_quiet (projBuilder project node colnames args gitmod).
Proof. unfold projBuilder. rewrite Hno_git. cbn [negb]. quiet_auto. Qed.

Lemma quiet_Sitebuilder_folders frow site project node :
  keeps git_quiet (Sitebuilder_folders frow site project node).
Proof. unfold Sitebuilder_folders. quiet_auto. Qed.

#[local] Hint Resolve quiet_NodeChecker quiet_projBuilder
  quiet_Sitebuilder_folders : quiet.

Lemma quiet_Sitebuilder flog_fname df_flog index frow check site project node
    gitmod :
  keeps git_quiet (Sitebuilder flog_fname df_flog index frow check site project
                               node args gitmod).
Proof. unfold Sitebuilder. rewrite Hno_git. cbn [negb]. quiet_auto. Qed.

#[local] Hint Resolve quiet_Sitebuilder : quiet.

Lemma quiet_field_day env flog_fname prow info project node state entry :
  keeps git_quiet
        (field_day env args flog_fname prow info project node state entry).
Proof.
  unfold field_day. destruct state as [df_flog gitmod], entry as [index cells].
  apply keeps_bind; [apply _|auto with quiet|intros now].
  pose proof (Rowchecker_prints now (debugger env) flog_fname
                (FieldRow_of_Series cells) prow info (historical args)
                (default_past_date (import_time env))) as Hprinted.
  destruct (Rowchecker _ _ _ _ _ _ _ _) as [printed result].
  quiet_auto.
Qed.

#[local] Hint Resolve quiet_field_day : quiet.

Lemma quiet_project_step env node gitmod entry :
  keeps git_quiet (project_step env args node gitmod entry).
Proof.
  unfold project_step. destruct entry as [project_label row]. quiet_auto.
Qed.

#[local] Hint Resolve quiet_project_step : quiet.

Lemma quiet_node_loop env nodes gitmod :
  keeps git_quiet (node_loop env args nodes gitmod).
Proof.
  revert gitmod. induction nodes as [|node nodes IH]; intros gitmod; simpl;
    quiet_auto.
Qed.

End NoGit.

(** X7: with [--no-git] the repository is left alone, however the run
    ends: it is the same after [main] as before, and no pull, add, commit
    or push was issued. *)
Theorem X7_no_git_leaves_the_repository_alone env args w :
  no_git args = true →
  repo (main env args w).2 = repo w ∧
  ∃ evs, log (main env args w).2 = log w ++ evs ∧
         ∀ ev, ev ∈ evs →
               ev ≠ EvGitPull ∧ ev ≠ EvGitCommit ∧ ev ≠ EvGitPush ∧
               ∀ fname, ev ≠ EvGitAdd fname.
Proof.
  intros Hno_git.
  assert (keeps git_quiet (main env args)) as Hmain.
  { unfold main. rewrite Hno_git. cbn [negb].
    pose proof (quiet_node_loop args Hno_git) as Hloop.
    quiet_auto. }
  destruct (Hmain w) as [Hrepo (evs & Hlog & Hevs)].
  split; [done|]. exists evs. split; [done|].
  intros ev Hev. rewrite Forall_forall in Hevs. specialize (Hevs ev Hev).
  repeat split; try (intros ->; discriminate).
  intros fname ->. discriminate.
Qed.

End Quiet.

(* ===================================================================== *)
(** ** The pull at the start, and [pymkdir] *)
(* ===================================================================== *)

Section Pull.
Context `{Pandas} `{GitPython}.

Notation "x ←$ m ; k" := (bind m (fun x => k))
  (at level 100, m at next level, right associativity,
   format "'[' x  ←$  m ; '//' k ']'").
Notation "m ;;$ k" := (bind m (fun _ => k))
  (at level 100, right associativity).

Implicit Types (w : World) (env : RunEnv) (args : Args).

(** [GitPull], step by step. *)
Lemma GitPull_run env w :
  GitPull env w
  = if bool_decide ((git_pull (repo w)).1 = "Already up to date.")
    then (Ok tt, pulled w)
    else (Raise (exit_after_breakpoint (debugger env)),
          mkWorld (dirs w) (files w) (git_pull (repo w)).2
                  (log w ++ [EvGitPull;
                             EvNotice "The remote git repo is not in sync";
                             EvBreakpoint])
                  (ticks w)).
Proof.
  unfold GitPull, bind, pulled. cbv beta.
  destruct (git_pull (repo w)) as [pull_log r]. cbn [fst snd].
  case_bool_decide; cbn [negb]; [done|].
  unfold emit, raise. cbn [dirs files repo log ticks].
  rewrite <- !app_assoc. by destruct (debugger env).
Qed.

(** X8: with git enabled the run goes on only if the log of the pull reads
    [Already up to date.]; [GitPull] then returns, directories and files
    being as they were.  On any other log, that of a pull which brought new
    commits included, [GitPull] opens the debugger and exits once resumed:
    [main] ends there with [SystemExit] ([BdbQuit] if the session is quit),
    before the node file is read, the script having pulled, printed and
    opened the debugger and done nothing else.  Of what such a pull has
    made of the working tree nothing is said. *)
Theorem X8_pull_must_be_up_to_date env args w :
  no_git args = false →
  if bool_decide ((git_pull (repo w)).1 = "Already up to date.")
  then GitPull env w = (Ok tt, pulled w)
  else
    ∃ w',
      GitPull env w = (Raise (exit_after_breakpoint (debugger env)), w') ∧
      main env args w = (Raise (exit_after_breakpoint (debugger env)), w') ∧
      repo w' = (git_pull (repo w)).2 ∧
      ∃ evs, log w' = log w ++ evs ∧ EvBreakpoint ∈ evs ∧
             Forall (λ ev, ev = EvGitPull ∨ ev = EvBreakpoint ∨
                           ∃ text, ev = EvNotice text) evs.
Proof.
  intros Hgit. pose proof (GitPull_run env w) as Hrun.
  case_bool_decide as Hlog; [done|].
  eexists. split; [exact Hrun|]. split.
  { unfold main. rewrite Hgit. cbn [negb]. unfold bind at 1. by rewrite Hrun. }
  split; [done|]. eexists. split; [reflexivity|]. split; [set_solver|].
  repeat apply Forall_cons_2; [by left|right; right; by eexists|right; by left|].
  apply Forall_nil_2.
Qed.

(** X9: [pymkdir], where no regular file stands above the path.  It
    returns, and the path exists afterwards; a second call changes nothing.
    Only directories were made: none if the path existed, as a folder or as
    a file; otherwise the path and the missing folders above it, with one
    line of output.  A well-formed tree stays well formed, and in it
    everything above the path is then a directory. *)
Theorem X9_pymkdir_makes_once path w :
  (∀ a, a ∈ ancestors path → a ∉ dom (files w)) →
  ∃ w',
    pymkdir path w = (Ok tt, w') ∧
    pymkdir path w' = (Ok tt, w') ∧
    path_exists path w' = true ∧
    folders_only w w' ∧
    (if path_exists path w then w' = w
     else dirs w' = dirs w ∪ list_to_set (ancestors path) ∪ {[path]} ∧
          log w' = log w ++ [EvMakedirs path]) ∧
    (fs_closed w → fs_closed w' ∧ ∀ a, a ∈ ancestors path → a ∈ dirs w').
Proof.
  intros _.
  destruct (ensures_pymkdir path w) as (w' & Hrun & Hfo & Hex & _ & Hclosed).
  assert (path_exists path w' = true) as Hpath by (apply Hex; by left).
  exists w'. split; [done|].
  split; [unfold pymkdir; by rewrite Hpath|].
  split; [done|]. split; [done|]. split.
  - revert Hrun. unfold pymkdir. destruct (path_exists path w).
    + by intros [= <-].
    + by intros [= <-].
  - intros Hc. destruct (Hclosed Hc) as [Hc' Habove]. split; [done|].
    intros a Ha. apply (Habove path a); [by left|done].
Qed.

End Pull.

(* ===================================================================== *)
(** ** Steps that issue no commit *)
(* ===================================================================== *)

Section Without.
Context `{Pandas} `{GitPython}.

Notation "x ←$ m ; k" := (bind m (fun x => k))
  (at level 100, m at next level, right associativity,
   format "'[' x  ←$  m ; '//' k ']'").
Notation "m ;;$ k" := (bind m (fun _ => k))
  (at level 100, right associativity).

Implicit Types (w : World) (env : RunEnv) (args : Args) (P : Event → bool).

(** The steps by which the output grows, by no event of a given kind. *)
Lemma new_events_app w w' evs : log w' = log w ++ evs → new_events w w' = evs.
Proof. intros Hlog. unfold new_events. by rewrite Hlog, drop_app_length. Qed.

#[global] Instance without_preorder P : PreOrder (without P).
Proof.
  split.
  - intros w. exists []. by rewrite app_nil_r.
  - intros w1 w2 w3 (e1 & Hl1 & He1) (e2 & Hl2 & He2).
    exists (e1 ++ e2). split; [by rewrite Hl2, Hl1, app_assoc|].
    by rewrite existsb_app, He1, He2.
Qed.

Lemma without_emit P ev : P ev = false → keeps (without P) (emit ev).
Proof. intros Hev w. exists [ev]. simpl. by rewrite Hev. Qed.

Lemma without_emit_all P evs :
  existsb P evs = false → keeps (without P) (emit_all evs).
Proof. intros Hevs w. by exists evs. Qed.

Lemma without_silent P {A} (m : M A) :
  (∀ w, log (m w).2 = log w) → keeps (without P) m.
Proof. intros Hm w. exists []. by rewrite Hm, app_nil_r. Qed.

Lemma without_read_clock P env : keeps (without P) (read_clock env).
Proof. by apply without_silent. Qed.

Lemma without_pymkdir P path :
  (∀ p, P (EvMakedirs p) = false) → keeps (without P) (pymkdir path).
Proof.
  intros HP w. unfold pymkdir. destruct (path_exists path w); [reflexivity|].
  exists [EvMakedirs path]. simpl. by rewrite HP.
Qed.

Lemma without_touch P path :
  (∀ p, P (EvTouch p) = false) → keeps (without P) (touch path).
Proof.
  intros HP w. unfold touch. destruct (_ || _); [|reflexivity].
  exists [EvTouch path]. simpl. by rewrite HP.
Qed.

Lemma without_write_file P path body : keeps (without P) (write_file path body).
Proof. by apply without_silent. Qed.

Lemma without_to_csv P df fname :
  (∀ p, P (EvToCsv p) = false) → keeps (without P) (to_csv df fname).
Proof. intros HP w. exists [EvToCsv fname]. simpl. by rewrite HP. Qed.

Lemma without_read_csv P fname : keeps (without P) (read_csv fname).
Proof.
  apply without_silent. intros w. unfold read_csv.
  by destruct (files w !! fname) as [[[|[c cells] table]| | |]|].
Qed.

Lemma without_read_csv_index_col_0 P fname :
  keeps (without P) (read_csv_index_col_0 fname).
Proof.
  apply without_silent. intros w. unfold read_csv_index_col_0.
  by destruct (files w !! fname) as [[[|[c cells] table]| | |]|].
Qed.

Lemma without_load_node_yaml P fname : keeps (without P) (load_node_yaml fname).
Proof.
  apply without_silent. intros w. unfold load_node_yaml.
  by destruct (files w !! fname) as [[| | |]|].
Qed.

Lemma without_load_project_yaml P fname :
  keeps (without P) (load_project_yaml fname).
Proof.
  apply without_silent. intros w. unfold load_project_yaml.
  by destruct (files w !! fname) as [[| | |]|].
Qed.

Lemma without_repo_git_add P fname :
  (∀ p, P (EvGitAdd p) = false) → keeps (without P) (repo_git_add fname).
Proof. intros HP w. exists [EvGitAdd fname]. simpl. by rewrite HP. Qed.

(** [Rowchecker] prints the checksum conflict and the opening of the
    debugger, nothing else. *)
Lemma Rowchecker_printed P now dbg flog_fname flrow prow info hist past :
  (∀ f r c, P (EvChecksumConflict f r c) = false) → P EvBreakpoint = false →
  existsb P (Rowchecker now dbg flog_fname flrow prow info hist past).1 = false.
Proof.
  intros HP1 HP2. unfold Rowchecker, checksum_stage.
  destruct (np_isnan (CheckSum flrow)) as [[|]|]; simpl; [done| |done].
  destruct (negb _); simpl; [|done]. by rewrite HP1, HP2.
Qed.

Lemma without_Sitebuilder_folders P frow site project node :
  (∀ p, P (EvMakedirs p) = false) → (∀ p, P (EvTouch p) = false) →
  keeps (without P) (Sitebuilder_folders frow site project node).
Proof.
  intros HP1 HP2. unfold Sitebuilder_folders.
  repeat keeps_step; auto using without_pymkdir, without_touch.
Qed.

End Without.

Create HintDb without discriminated.
#[export] Hint Resolve without_emit without_emit_all without_read_clock
  without_pymkdir without_touch without_write_file without_to_csv
  without_read_csv without_read_csv_index_col_0 without_load_node_yaml
  without_load_project_yaml without_repo_git_add Rowchecker_printed
  without_Sitebuilder_folders : without.

Ltac without_auto := repeat keeps_step; auto with without.

Section NoCommit.
Context `{Pandas} `{GitPython}.

Notation "x ←$ m ; k" := (bind m (fun x => k))
  (at level 100, m at next level, right associativity,
   format "'[' x  ←$  m ; '//' k ']'").
Notation "m ;;$ k" := (bind m (fun _ => k))
  (at level 100, right associativity).

Implicit Types (w : World) (env : RunEnv) (args : Args).


(** No function below [main] commits or pushes. *)
Lemma no_commit_GitChanged fname gitmod :
  keeps (without is_commit) (GitChanged fname gitmod).
Proof.
  unfold GitChanged. apply keeps_bind; [apply _| |intros g].
  - without_auto.
  - intros w. cbv zeta.
    destruct (list_find _ _) as [[i diff]|]; [|reflexivity].
    as_keeps. without_auto.
Qed.

Lemma no_commit_GitPull env : keeps (without is_commit) (GitPull env).
Proof.
  unfold GitPull. apply keeps_bind; [apply _| |intros pull_log].
  - intros w. destruct (git_pull (repo w)) as [pull_log r]. simpl.
    by exists [EvGitPull].
  - without_auto.
Qed.

#[local] Hint Resolve no_commit_GitChanged no_commit_GitPull : without.

Lemma no_commit_df_col_check dfx fname colnms args gitmod fill_val :
  keeps (without is_commit) (_df_col_check dfx fname colnms args gitmod fill_val).
Proof. unfold _df_col_check. without_auto. Qed.

Lemma no_commit_projYAML project pym_fn args gitmod :
  keeps (without is_commit) (_projYAML project pym_fn args gitmod).
Proof. unfold _projYAML. without_auto. Qed.

#[local] Hint Resolve no_commit_df_col_check no_commit_projYAML : without.

Lemma no_commit_NodeChecker args node gitmod :
  keeps (without is_commit) (NodeChecker args node gitmod).
Proof. unfold NodeChecker. without_auto. Qed.

Lemma no_commit_projBuilder project node colnames args gitmod :
  keeps (without is_commit) (projBuilder project node colnames args gitmod).
Proof. unfold projBuilder. without_auto. Qed.

#[local] Hint Resolve no_commit_NodeChecker no_commit_projBuilder : without.

Lemma no_commit_Sitebuilder flog_fname df_flog index frow check site project
    node args gitmod :
  keeps (without is_commit) (Sitebuilder flog_fname df_flog index frow check site project
                               node args gitmod).
Proof. unfold Sitebuilder. without_auto. Qed.

#[local] Hint Resolve no_commit_Sitebuilder : without.

Lemma no_commit_field_day env args flog_fname prow info project node state entry :
  keeps (without is_commit)
        (field_day env args flog_fname prow info project node state entry).
Proof.
  unfold field_day. destruct state as [df_flog gitmod], entry as [index cells].
  apply keeps_bind; [apply _|auto with without|intros now].
  pose proof (Rowchecker_printed is_commit now (debugger env) flog_fname
                (FieldRow_of_Series cells) prow info (historical args)
                (default_past_date (import_time env))
                (λ _ _ _, eq_refl) eq_refl) as Hprinted.
  destruct (Rowchecker _ _ _ _ _ _ _ _) as [printed result].
  without_auto.
Qed.

#[local] Hint Resolve no_commit_field_day : without.

Lemma no_commit_project_step env args node gitmod entry :
  keeps (without is_commit) (project_step env args node gitmod entry).
Proof.
  unfold project_step. destruct entry as [project_label row]. without_auto.
Qed.

#[local] Hint Resolve no_commit_project_step : without.

Lemma no_commit_node_loop env args nodes gitmod :
  keeps (without is_commit) (node_loop env args nodes gitmod).
Proof.
  revert gitmod. induction nodes as [|node nodes IH]; intros gitmod; simpl;
    without_auto.
Qed.

End NoCommit.

(* ===================================================================== *)
(** ** The modification flag follows the staging *)
(* ===================================================================== *)

Section Tracks.
Context `{GitPython}.

Notation "x ←$ m ; k" := (bind m (fun x => k))
  (at level 100, m at next level, right associativity,
   format "'[' x  ←$  m ; '//' k ']'").
Notation "m ;;$ k" := (bind m (fun _ => k))
  (at level 100, right associativity).

Implicit Types (w : World) (g : bool).

(** The flag follows the staging through a sequence and a loop; it is set
    by [repo.git.add] and left alone by a step that stages nothing. *)
Lemma staged_app w w' evs :
  log w' = log w ++ evs → staged w w' = existsb is_add evs.
Proof. intros Hlog. unfold staged. by rewrite (new_events_app _ _ evs). Qed.

Lemma flagged_refl g w : flagged g w g w.
Proof.
  split; [done|]. rewrite (staged_app w w []); [|by rewrite app_nil_r].
  by rewrite orb_false_r.
Qed.

Lemma flagged_trans g w g1 w1 g2 w2 :
  flagged g w g1 w1 → flagged g1 w1 g2 w2 → flagged g w g2 w2.
Proof.
  intros [[e1 Hl1] ->] [[e2 Hl2] ->]. split.
  - exists (e1 ++ e2). by rewrite Hl2, Hl1, app_assoc.
  - rewrite (staged_app w w1 e1), (staged_app w1 w2 e2) by done.
    rewrite (staged_app w w2 (e1 ++ e2)) by (by rewrite Hl2, Hl1, app_assoc).
    by rewrite existsb_app, orb_assoc.
Qed.

Lemma flagged_without g w w' : without is_add w w' → flagged g w g w'.
Proof.
  intros (evs & Hlog & Hevs). split; [by exists evs|].
  by rewrite (staged_app w w' evs), Hevs, orb_false_r.
Qed.

Lemma tracks_ret {A} g (flag : A → bool) a : flag a = g → tracks g flag (ret a).
Proof. intros <- w a' w' [= <- <-]. apply flagged_refl. Qed.

Lemma tracks_of_keeps {A} g (m : M A) :
  keeps (without is_add) m → tracks g (λ _, g) m.
Proof.
  intros Hm w a w' Hrun. apply flagged_without.
  specialize (Hm w). by rewrite Hrun in Hm.
Qed.

Lemma tracks_add g fname : tracks g (λ _, true) (repo_git_add fname).
Proof.
  intros w a w' [= <- <-]. split; [by apply prefix_app_r|].
  rewrite (staged_app _ _ [EvGitAdd fname]) by done. simpl.
  by rewrite orb_true_r.
Qed.

Lemma tracks_bind {A B} g (f1 : A → bool) (f2 : B → bool) (m : M A)
    (k : A → M B) :
  tracks g f1 m → (∀ a, tracks (f1 a) f2 (k a)) → tracks g f2 (bind m k).
Proof.
  intros Hm Hk w b w' Hrun. unfold bind in Hrun.
  destruct (m w) as [[a|e] w1] eqn:Hmw; [|discriminate].
  eapply flagged_trans; [by apply Hm|by apply Hk].
Qed.

Lemma tracks_if_world {A} g (flag : A → bool) (test : World → bool)
    (m1 m2 : M A) :
  tracks g flag m1 → tracks g flag m2 →
  tracks g flag (λ w, (if test w then m1 else m2) w).
Proof. intros H1 H2 w a w'. destruct (test w); [apply H1|apply H2]. Qed.

Lemma tracks_for_each {A S} (fl : S → bool) (body : S → A → M S) xs s :
  (∀ s x, tracks (fl s) fl (body s x)) →
  tracks (fl s) fl (for_each body xs s).
Proof.
  intros Hbody. revert s. induction xs as [|x xs IH]; intros s; simpl.
  - by apply tracks_ret.
  - eapply tracks_bind; [apply Hbody|apply IH].
Qed.

End Tracks.

(** The part of a result that is the modification flag. *)
Ltac flag_of T :=
  lazymatch T with
  | bool => constr:(λ b : bool, b)
  | (DataFrame * bool * string * list string * project_info)%type =>
      constr:(λ r : T, r.1.1.1.2)
  | (?X * bool)%type => constr:(@snd X bool)
  end.

(** One rule, chosen by the shape of the step; the flag is found in the
    result by its type. *)
Ltac tracks_step :=
  cbn [fst snd];
  lazymatch goal with
  | |- tracks _ _ (ret _) => apply tracks_ret; reflexivity
  | |- tracks ?g _ (@bind _ ?A _ _ _) =>
      first [ let f := flag_of A in apply (tracks_bind g f); [|intros ?]
            | eapply tracks_bind;
              [first [apply tracks_add
                     |apply tracks_of_keeps; solve [without_auto]]
              |intros ?] ]
  | |- tracks _ _ (if ?c then _ else _) => destruct c
  | |- tracks _ _ (match ?x with _ => _ end) => destruct x
  | |- tracks _ _ (λ w, (if _ then _ else _) w) => apply tracks_if_world
  | |- tracks _ ?f (@for_each _ _ ?S _ _ _) =>
      let fl := flag_of S in apply (tracks_for_each fl); intros ? ?
  end.

Create HintDb tracks discriminated.

Ltac tracks_auto := repeat tracks_step; auto with tracks.

Section TracksFunctions.
Context `{Pandas} `{GitPython}.

Notation "x ←$ m ; k" := (bind m (fun x => k))
  (at level 100, m at next level, right associativity,
   format "'[' x  ←$  m ; '//' k ']'").
Notation "m ;;$ k" := (bind m (fun _ => k))
  (at level 100, right associativity).

Implicit Types (w : World) (env : RunEnv) (args : Args) (g : bool).

(** In every function the flag follows the staging. *)
Lemma tracks_GitChanged fname gitmod :
  tracks gitmod (λ b, b) (GitChanged fname gitmod).
Proof.
  unfold GitChanged. apply (tracks_bind gitmod (λ b : bool, b)); [|intros g].
  - tracks_auto.
  - intros w a w'. cbv zeta.
    destruct (list_find _ _) as [[i diff]|].
    + revert w a w'.
      change (tracks g (λ b : bool, b)
                (if bool_decide (change_type diff = "M")
                 then repo_git_add fname ;;$ ret true
                 else emit (EvNotice "change type is not M") ;;$ ret g)).
      tracks_auto.
    + revert w a w'. change (tracks g (λ b : bool, b) (ret g)). tracks_auto.
Qed.

#[local] Hint Resolve tracks_GitChanged : tracks.

Lemma tracks_df_col_check dfx fname colnms args gitmod fill_val :
  tracks gitmod snd (_df_col_check dfx fname colnms args gitmod fill_val).
Proof. unfold _df_col_check. tracks_auto. Qed.

Lemma tracks_projYAML project pym_fn args gitmod :
  tracks gitmod snd (_projYAML project pym_fn args gitmod).
Proof. unfold _projYAML. tracks_auto. Qed.

#[local] Hint Resolve tracks_df_col_check tracks_projYAML : tracks.

Lemma tracks_NodeChecker args node gitmod :
  tracks gitmod snd (NodeChecker args node gitmod).
Proof. unfold NodeChecker. tracks_auto. Qed.

Lemma tracks_projBuilder project node colnames args gitmod :
  tracks gitmod (λ r, r.1.1.1.2) (projBuilder project node colnames args gitmod).
Proof. unfold projBuilder. tracks_auto. Qed.

#[local] Hint Resolve tracks_NodeChecker tracks_projBuilder : tracks.

Lemma tracks_Sitebuilder flog_fname df_flog index frow check site project node
    args gitmod :
  tracks gitmod snd (Sitebuilder flog_fname df_flog index frow check site
                                 project node args gitmod).
Proof. unfold Sitebuilder. tracks_auto. Qed.

#[local] Hint Resolve tracks_Sitebuilder : tracks.

Lemma tracks_field_day env args flog_fname prow info project node state entry :
  tracks state.2 snd
         (field_day env args flog_fname prow info project node state entry).
Proof.
  unfold field_day. destruct state as [df_flog gitmod], entry as [index cells].
  eapply tracks_bind;
    [apply tracks_of_keeps; solve [without_auto]|intros now].
  pose proof (Rowchecker_printed is_add now (debugger env) flog_fname
                (FieldRow_of_Series cells) prow info (historical args)
                (default_past_date (import_time env))
                (λ _ _ _, eq_refl) eq_refl) as Hprinted.
  destruct (Rowchecker _ _ _ _ _ _ _ _) as [printed result].
  tracks_auto.
Qed.

#[local] Hint Resolve tracks_field_day : tracks.

Lemma tracks_project_step env args node gitmod entry :
  tracks gitmod (λ b, b) (project_step env args node gitmod entry).
Proof.
  unfold project_step. destruct entry as [project_label row]. tracks_auto.
Qed.

#[local] Hint Resolve tracks_project_step : tracks.

Lemma tracks_node_loop env args nodes gitmod :
  tracks gitmod (λ b, b) (node_loop env args nodes gitmod).
Proof.
  revert gitmod. induction nodes as [|node nodes IH]; intros gitmod; simpl;
    tracks_auto.
Qed.

End TracksFunctions.

(* ===================================================================== *)
(** ** The commit at the end of [main] *)
(* ===================================================================== *)

Section Commit.
Context `{Pandas} `{GitPython}.

Notation "x ←$ m ; k" := (bind m (fun x => k))
  (at level 100, m at next level, right associativity,
   format "'[' x  ←$  m ; '//' k ']'").
Notation "m ;;$ k" := (bind m (fun _ => k))
  (at level 100, right associativity).

Implicit Types (w : World) (env : RunEnv) (args : Args).

(** The end of [main]: it always returns, and adds its closing events. *)
Lemma main_closing args (gitmod : bool) w :
  ∃ w',
    (if gitmod then
       if negb (no_git args) then
         emit (EvNotice "Code Sucessfull. New files and folders created.") ;;$
         (λ w, (Ok tt, mkWorld (dirs w) (files w)
                               (git_push (git_commit (repo w)))
                               (log w ++ [EvGitCommit; EvGitPush]) (ticks w)))
       else emit (EvNotice "Code Sucessfull. Git Disabled")
     else emit (EvNotice "Code Sucessfull. No new files created")) w
    = (Ok tt, w') ∧
    log w' = log w ++ closing_events args gitmod.
Proof.
  unfold closing_events.
  destruct gitmod; [destruct (negb (no_git args))|];
    (eexists; split; [reflexivity|]); simpl; [|done|done].
  by rewrite <- app_assoc.
Qed.

(** The pull adds a pull to the output, and notices. *)
Lemma without_GitPull P env :
  P EvGitPull = false → (∀ s, P (EvNotice s) = false) → P EvBreakpoint = false →
  keeps (without P) (GitPull env).
Proof.
  intros HP1 HP2 HP3 w. rewrite GitPull_run.
  case_bool_decide; simpl.
  - exists [EvGitPull]. simpl. by rewrite HP1.
  - eexists. split; [reflexivity|]. simpl. by rewrite HP1, HP2, HP3.
Qed.

Lemma is_add_is_git ev : is_add ev = true → is_git ev = true.
Proof. by destruct ev. Qed.

Lemma existsb_is_add_quiet evs :
  Forall (λ ev, is_git ev = false) evs → existsb is_add evs = false.
Proof.
  induction 1 as [|ev evs Hev _ IH]; [done|]. simpl. rewrite IH.
  destruct (is_add ev) eqn:Hadd; [|done].
  apply is_add_is_git in Hadd. congruence.
Qed.

(** The events of [main] up to its closing lines: none is a commit or a
    push, and the flag it arrives with says whether one is an add. *)
Lemma main_events env args w :
  ∃ evs,
    existsb is_commit evs = false ∧
    match main env args w with
    | (Raise _, w') => log w' = log w ++ evs
    | (Ok _, w') =>
        log w' = log w ++ evs ++ closing_events args (existsb is_add evs) ∧
        (no_git args = true → existsb is_add evs = false)
    end.
Proof.
  unfold main.
  set (pull := if negb (no_git args) then GitPull env else ret tt).
  assert (keeps (without is_commit) pull ∧ keeps (without is_add) pull)
    as [Hc1 Ha1].
  { unfold pull. destruct (negb (no_git args)).
    - split; by apply without_GitPull.
    - split; apply keeps_ret; apply _. }
  unfold bind at 1. specialize (Hc1 w). specialize (Ha1 w).
  destruct (pull w) as [[[]|e] w1]; simpl in Hc1, Ha1;
    destruct Hc1 as (e1 & Hl1 & Hc1), Ha1 as (e1' & Hl1' & Ha1);
    assert (e1' = e1) as -> by (rewrite Hl1 in Hl1'; by apply app_inv_head in Hl1');
    [|by exists e1].
  unfold bind at 1.
  destruct (load_node_yaml (projectsYAML args) w1) as [[nodes|e] w2] eqn:Hload.
  2:{ exists e1. split; [done|].
      revert Hload. unfold load_node_yaml.
      destruct (files w1 !! projectsYAML args) as [[| | |]|];
        intros [= <- <-]; done. }
  assert (w2 = w1) as ->.
  { revert Hload. unfold load_node_yaml.
    destruct (files w1 !! projectsYAML args) as [[| | |]|];
      intros [= <- <-]; done. }
  unfold bind at 1.
  pose proof (no_commit_node_loop env args nodes false w1) as Hc3.
  pose proof (tracks_node_loop env args nodes false w1) as Ht3.
  destruct (node_loop env args nodes false w1) as [[gitmod|e] w3] eqn:Hloop;
    simpl in Hc3; destruct Hc3 as (e3 & Hl3 & Hc3).
  2:{ exists (e1 ++ e3). split; [by rewrite existsb_app, Hc1, Hc3|].
      by rewrite Hl3, Hl1, app_assoc. }
  specialize (Ht3 gitmod w3 eq_refl) as [_ Hflag]. simpl in Hflag.
  rewrite (staged_app w1 w3 e3) in Hflag by done.
  destruct (main_closing args gitmod w3) as (w' & -> & Hl').
  exists (e1 ++ e3). split; [by rewrite existsb_app, Hc1, Hc3|].
  rewrite existsb_app, Ha1. simpl. rewrite <- Hflag. split.
  - by rewrite Hl', Hl3, Hl1, !app_assoc.
  - intros Hno_git.
    pose proof (quiet_node_loop args Hno_git env nodes false w1) as Hq.
    rewrite Hloop in Hq. destruct Hq as [_ (e3' & Hl3' & Hq)]. simpl in Hl3'.
    assert (e3' = e3) as ->
        by (rewrite Hl3 in Hl3'; by apply app_inv_head in Hl3').
    rewrite Hflag. by apply existsb_is_add_quiet.
Qed.

(** X10: the commit follows the staging.  A run of [main] that returns has
    committed and pushed exactly if it staged a file ([repo.git.add]) on
    the way; git is then enabled, and the commit and the push are the last
    two things the run did, and were done once.  Before that, in the loop
    over the nodes, nothing is committed or pushed, however the loop
    ends. *)
Theorem X10_commit_follows_staging env args w w' :
  main env args w = (Ok tt, w') →
  (if staged w w'
   then no_git args = false ∧
        ∃ before, new_events w w' = before ++ [EvGitCommit; EvGitPush] ∧
                  existsb is_commit before = false
   else existsb is_commit (new_events w w') = false) ∧
  ∀ nodes gitmod w0,
    existsb is_commit (new_events w0 (node_loop env args nodes gitmod w0).2)
    = false.
Proof.
  intros Hrun. split.
  - destruct (main_events env args w) as (evs & Hc & Hmain).
    rewrite Hrun in Hmain. destruct Hmain as [Hlog Hquiet].
    assert (existsb is_add (closing_events args (existsb is_add evs)) = false)
      as Hclosing.
    { unfold closing_events.
      by destruct (existsb is_add evs), (negb (no_git args)). }
    unfold staged. rewrite (new_events_app _ _ _ Hlog).
    rewrite existsb_app, Hclosing, orb_false_r.
    destruct (existsb is_add evs) eqn:Hadd.
    + destruct (no_git args) eqn:Hng; [by specialize (Hquiet eq_refl)|].
      split; [done|]. unfold closing_events. rewrite Hng. simpl.
      exists (evs ++ [EvNotice
                        "Code Sucessfull. New files and folders created."]).
      split; [by rewrite <- app_assoc|].
      rewrite existsb_app, Hc. done.
    + rewrite existsb_app, Hc. unfold closing_events. done.
  - intros nodes gitmod w0.
    destruct (no_commit_node_loop env args nodes gitmod w0)
      as (evs & Hlog & Hevs).
    by rewrite (new_events_app _ _ _ Hlog).
Qed.

End Commit.

(* ===================================================================== *)
(** ** A node without a summary table *)
(* ===================================================================== *)

Section NodeSummary.
Context `{Pandas} `{GitPython}.

Notation "x ←$ m ; k" := (bind m (fun x => k))
  (at level 100, m at next level, right associativity,
   format "'[' x  ←$  m ; '//' k ']'").
Notation "m ;;$ k" := (bind m (fun _ => k))
  (at level 100, right associativity).

Implicit Types (w : World) (env : RunEnv) (args : Args).

(** Running a sequence forward, and reading a returned one backward. *)
#[global] Instance same_tree_preorder : PreOrder same_tree.
Proof.
  split.
  - by intros w.
  - intros w1 w2 w3 [] []. split; congruence.
Qed.

Lemma bind_Ok {A B} (m : M A) (k : A → M B) w a w1 :
  m w = (Ok a, w1) → bind m k w = k a w1.
Proof. intros Hm. unfold bind. by rewrite Hm. Qed.

Lemma bind_Ok_inv {A B} (m : M A) (k : A → M B) w b w' :
  bind m k w = (Ok b, w') → ∃ a w1, m w = (Ok a, w1) ∧ k a w1 = (Ok b, w').
Proof.
  unfold bind. destruct (m w) as [[a|e] w1]; [|discriminate]. by eauto.
Qed.

Lemma same_tree_emit ev : keeps same_tree (emit ev).
Proof. by intros w. Qed.

Lemma same_tree_repo_git_add fname : keeps same_tree (repo_git_add fname).
Proof. by intros w. Qed.

(** [GitChanged] always returns, and leaves the working tree alone. *)
Lemma GitChanged_run fname gitmod w :
  ∃ gitmod' w',
    GitChanged fname gitmod w = (Ok gitmod', w') ∧ same_tree w w'.
Proof.
  unfold GitChanged, bind.
  destruct (negb (fileInRepo fname w)); simpl.
  - destruct (list_find _ _) as [[i diff]|]; simpl.
    + destruct (bool_decide _); simpl; by eexists _, _.
    + by eexists _, _.
  - destruct (list_find _ _) as [[i diff]|]; simpl.
    + destruct (bool_decide _); simpl; by eexists _, _.
    + by eexists _, _.
Qed.

(** [pymkdir] always returns; only directories are made. *)
Lemma pymkdir_run path w :
  ∃ w', pymkdir path w = (Ok tt, w') ∧ folders_only w w' ∧
        path_exists path w' = true.
Proof.
  destruct (ensures_pymkdir path w) as (w' & Hrun & Hfo & Hex & _).
  exists w'. split; [done|]. split; [done|]. apply Hex. by left.
Qed.

Lemma isfile_files path w w' :
  files w' = files w → isfile path w' = isfile path w.
Proof. intros Hf. unfold isfile. by rewrite Hf. Qed.



(** Run the first step of a sequence, given what it does. *)
Ltac run_with H := rewrite (bind_Ok _ _ _ _ _ H); cbv beta zeta.


End NodeSummary.

(* ===================================================================== *)
(** ** A summary table rewritten, and [GitChanged] *)
(* ===================================================================== *)

Section NodeSummaryRewrite.
Context `{Pandas} `{GitPython}.

Notation "x ←$ m ; k" := (bind m (fun x => k))
  (at level 100, m at next level, right associativity,
   format "'[' x  ←$  m ; '//' k ']'").
Notation "m ;;$ k" := (bind m (fun _ => k))
  (at level 100, right associativity).

Implicit Types (w : World) (env : RunEnv) (args : Args).

Ltac run_with H := rewrite (bind_Ok _ _ _ _ _ H); cbv beta zeta.


(** X18: [GitChanged], when it returns, has left directories and files
    alone; the flag it returns is set exactly if it was set before or the
    file was staged; if nothing was staged, the repository is unchanged; and
    for a file that is in HEAD and that no unstaged diff names, the flag
    and the world are as before. *)
Theorem X18_GitChanged_stages_or_leaves_alone fname gitmod w gitmod' w' :
  GitChanged fname gitmod w = (Ok gitmod', w') →
  dirs w' = dirs w ∧ files w' = files w ∧
  gitmod' = gitmod || staged w w' ∧
  (staged w w' = false → repo w' = repo w) ∧
  (fileInRepo fname w = true →
   (∀ d, d ∈ index_diff_None (files w) (repo w) →
         a_path d ≠ strip_dot_slash fname ∧
         b_path d ≠ strip_dot_slash fname) →
   gitmod' = gitmod ∧ w' = w).
Proof.
  intros Hrun.
  destruct (GitChanged_run fname gitmod w) as (g0 & w0 & Hrun0 & Hd & Hf).
  rewrite Hrun in Hrun0. injection Hrun0 as <- <-.
  split; [done|]. split; [done|].
  split; [apply (tracks_GitChanged fname gitmod w gitmod' w' Hrun)|].
  clear Hd Hf. revert Hrun. unfold GitChanged, bind.
  destruct (fileInRepo fname w) eqn:Hin; cbn [negb].
  - cbv beta zeta. unfold ret at 1.
    destruct (list_find _ _) as [[i diff]|] eqn:Hfind.
    + case_bool_decide; simpl.
      * intros [= <- <-]. split.
        -- rewrite (staged_app _ _ [EvGitAdd fname]) by done. discriminate.
        -- intros _ Hnone. exfalso.
           apply list_find_Some in Hfind as (Hd' & Hp & _).
           apply list_elem_of_lookup_2 in Hd'.
           destruct (Hnone _ Hd') as [? ?]. by destruct Hp.
      * intros [= <- <-]. split; [done|].
        intros _ Hnone. exfalso.
        apply list_find_Some in Hfind as (Hd' & Hp & _).
        apply list_elem_of_lookup_2 in Hd'.
        destruct (Hnone _ Hd') as [? ?]. by destruct Hp.
    + intros [= <- <-]. done.
  - unfold emit, repo_git_add, ret. cbn [dirs files repo log ticks].
    destruct (list_find _ _) as [[i diff]|].
    + case_bool_decide; simpl; intros [= <- <-]; (split; [|done]).
      * rewrite (staged_app _ _ [EvNotice "not in the git repo";
                                 EvGitAdd fname; EvGitAdd fname]);
          [discriminate|]. simpl. by rewrite <- !app_assoc.
      * rewrite (staged_app _ _ [EvNotice "not in the git repo";
                                 EvGitAdd fname;
                                 EvNotice "change type is not M"]);
          [discriminate|]. simpl. by rewrite <- !app_assoc.
    + intros [= <- <-]. split; [|done].
      rewrite (staged_app _ _ [EvNotice "not in the git repo";
                               EvGitAdd fname]);
        [discriminate|]. simpl. by rewrite <- !app_assoc.
Qed.

End NodeSummaryRewrite.

(* ===================================================================== *)
(** ** The rows of a table, and the stamping of one *)
(* ===================================================================== *)

Section Rows.

Implicit Types (df : DataFrame) (D : list (string * list pyval)).

(** Rows and cells of a table. *)
Lemma series_get_absent label (row : Series) :
  label ∉ row.*1 → series_get label row = PyNone.
Proof.
  induction row as [|[k v] row IH]; [done|]. simpl.
  intros [Hne Hrest]%not_elem_of_cons.
  rewrite bool_decide_eq_false_2 by done. by apply IH.
Qed.

Lemma df_row_labels df i : (df_row df i).*1 = df_columns df.
Proof.
  unfold df_row, df_columns. rewrite <- list_fmap_compose.
  by apply list_fmap_ext.
Qed.

(** The cell of a row under a label, for a table whose labels are
    distinct. *)
Lemma series_get_row df i label cells :
  NoDup (df_columns df) → (label, cells) ∈ df_data df →
  series_get label (df_row df i) = default PyNone (cells !! i).
Proof.
  unfold df_columns, df_row. destruct df as [idx D]. simpl.
  induction D as [|[k v] D IH]; simpl.
  - intros _ Hin. by apply elem_of_nil in Hin.
  - intros [Hfresh Hnd]%NoDup_cons [[= <- <-]|Hin]%elem_of_cons.
    + by rewrite bool_decide_eq_true_2.
    + rewrite bool_decide_eq_false_2; [by apply IH|].
      intros ->. apply Hfresh. by apply (list_elem_of_fmap_2 fst) in Hin.
Qed.

Lemma iterrows_entry df entry :
  entry ∈ iterrows df →
  ∃ i label, df_index df !! i = Some label ∧ entry = (label, df_row df i).
Proof.
  unfold iterrows. intros Hin.
  apply list_elem_of_lookup in Hin as [i Hi].
  rewrite list_lookup_imap in Hi.
  destruct (df_index df !! i) as [label|] eqn:Hl; [|done].
  simpl in Hi. injection Hi as <-. by exists i, label.
Qed.

Lemma df_loc_set_shape df index col v :
  df_index (df_loc_set df index col v) = df_index df ∧
  df_columns (df_loc_set df index col v) = df_columns df.
Proof.
  unfold df_loc_set, df_columns. simpl. split; [done|].
  rewrite <- list_fmap_compose. apply list_fmap_ext.
  intros i [k cells] _. simpl. by case_bool_decide.
Qed.

(** A row of the table after [df.loc[index, col] = v]. *)
Lemma df_row_loc_set df index col v i l :
  df_rectangular df → df_index df !! i = Some l →
  df_row (df_loc_set df index col v) i
  = (λ kv, if bool_decide (kv.1 = col) && py_eq l index then (kv.1, v) else kv)
      <$> df_row df i.
Proof.
  unfold df_rectangular, df_loc_set, df_row. destruct df as [idx D]. simpl.
  intros Hrect Hl. rewrite <- !list_fmap_compose.
  apply Forall_fmap_ext. eapply Forall_impl; [exact Hrect|].
  intros [k cells] Hlen. simpl in *.
  case_bool_decide; simpl; [|done].
  rewrite lookup_zip_with, Hl. simpl.
  destruct (cells !! i) as [cell|] eqn:Hcell.
  - simpl. by destruct (py_eq l index).
  - apply lookup_ge_None in Hcell. apply lookup_lt_Some in Hl. lia.
Qed.

(** A cell of a row in which the cells under [col] were replaced. *)
Lemma series_get_set (row : Series) col (b : bool) v label :
  series_get label
    ((λ kv, if bool_decide (kv.1 = col) && b then (kv.1, v) else kv) <$> row)
  = if bool_decide (label = col) && bool_decide (col ∈ row.*1) && b
    then v else series_get label row.
Proof.
  induction row as [|[k cell] row IH].
  - simpl. by rewrite andb_false_r.
  - rewrite fmap_cons. cbn [fst snd].
    destruct (decide (k = label)) as [->|Hne].
    + destruct (decide (label = col)) as [->|Hcol].
      * rewrite (bool_decide_eq_true_2 (col = col)) by done.
        rewrite (bool_decide_eq_true_2 (col ∈ _)) by (rewrite fmap_cons; by left).
        cbn [andb]. destruct b; cbn [series_get];
          by rewrite (bool_decide_eq_true_2 (col = col)) by done.
      * rewrite !(bool_decide_eq_false_2 (label = col)) by done.
        cbn [andb series_get].
        by rewrite (bool_decide_eq_true_2 (label = label)) by done.
    + assert (series_get label
                ((if bool_decide (k = col) && b then (k, v) else (k, cell))
                 :: ((λ kv, if bool_decide (kv.1 = col) && b
                            then (kv.1, v) else kv) <$> row))
              = series_get label
                  ((λ kv, if bool_decide (kv.1 = col) && b
                          then (kv.1, v) else kv) <$> row)) as ->.
      { destruct (bool_decide (k = col) && b); cbn [series_get];
          by rewrite (bool_decide_eq_false_2 (k = label)) by done. }
      rewrite IH. cbn [series_get].
      rewrite (bool_decide_eq_false_2 (k = label)) by done.
      destruct (decide (label = col)) as [->|Hcol].
      * rewrite (bool_decide_eq_true_2 (col = col)) by done. cbn [andb].
        rewrite (bool_decide_ext (col ∈ ((k, cell) :: row).*1)
                                 (col ∈ row.*1)); [done|].
        rewrite fmap_cons, elem_of_cons. simpl. naive_solver.
      * by rewrite !(bool_decide_eq_false_2 (label = col)) by done.
Qed.

Lemma series_get_loc_set df index col v i l label :
  df_rectangular df → df_index df !! i = Some l →
  series_get label (df_row (df_loc_set df index col v) i)
  = if bool_decide (label = col) && bool_decide (col ∈ df_columns df) &&
       py_eq l index
    then v else series_get label (df_row df i).
Proof.
  intros Hrect Hl. rewrite (df_row_loc_set df index col v i l) by done.
  by rewrite series_get_set, df_row_labels.
Qed.

(** The row read back from the table after its CheckSum cell was set. *)
Lemma FieldRow_loc_set df index c i l :
  df_rectangular df → "CheckSum" ∈ df_columns df →
  df_index df !! i = Some l →
  FieldRow_of_Series (df_row (df_loc_set df index "CheckSum" (PyFloat c)) i)
  = if py_eq l index
    then stamped_with (FieldRow_of_Series (df_row df i)) c
    else FieldRow_of_Series (df_row df i).
Proof.
  intros Hrect Hcol Hl. unfold FieldRow_of_Series, stamped_with.
  rewrite !(series_get_loc_set df index "CheckSum" _ i l) by done.
  rewrite (bool_decide_eq_true_2 ("CheckSum" ∈ df_columns df)) by done.
  simpl. by destruct (py_eq l index).
Qed.

End Rows.

Section Stamp.
Context `{Pandas} `{GitPython}.

Notation "x ←$ m ; k" := (bind m (fun x => k))
  (at level 100, m at next level, right associativity,
   format "'[' x  ←$  m ; '//' k ']'").
Notation "m ;;$ k" := (bind m (fun _ => k))
  (at level 100, right associativity).

Implicit Types (w : World) (env : RunEnv) (args : Args).

Ltac run_with H := rewrite (bind_Ok _ _ _ _ _ H); cbv beta zeta.

(** X15: [Sitebuilder] on a row for which a checksum was returned: a row
    with integer date and run cells, in a well-formed tree where no regular
    file is in the way of the row's folders, the ledger being on disk with a
    CheckSum column.  It returns; the sensor folder and the tier folders are
    directories afterwards; the returned table is the ledger with the
    checksum in the CheckSum cell of the rows labelled [index], and the
    ledger file holds it; every other file is as before; the flag is set
    unless git is disabled.  Read back row by row, the rows labelled
    [index] are the stamped rows and every other row is unchanged. *)
Theorem X15_Sitebuilder_stamps_the_row
    flog_fname df_flog index frow c site project node args gitmod sitename
    y m d n w :
  let sensor := sensor_folder_of node project sitename frow in
  let folder := day_folder_of sensor y m d in
  let tier_folders :=
    tier_folders_of folder (Z.of_nat <$> seq 0 (Z.to_nat n)) in
  let df' := df_loc_set df_flog index "CheckSum" (PyFloat c) in
  _sitenamemaker site "" = Ok sitename →
  Year frow = PyInt y → Month frow = PyInt m → Day frow = PyInt d →
  Runs frow = PyInt n → 1 <= n →
  fs_closed w → unobstructed (sensor :: tier_folders) w →
  flog_fname ∈ dom (files w) →
  df_rectangular df_flog → "CheckSum" ∈ df_columns df_flog →
  ∃ w',
    Sitebuilder flog_fname df_flog index frow (Some c) site project node args
                gitmod w
    = (Ok (df', if no_git args then gitmod else true), w') ∧
    files w' !! flog_fname = Some (CsvFile (df_data df')) ∧
    (∀ f, f ≠ flog_fname → f ∈ dom (files w) → files w' !! f = files w !! f) ∧
    dirs w ⊆ dirs w' ∧
    (∀ p, p ∈ sensor :: tier_folders → p ∈ dirs w') ∧
    df_index df' = df_index df_flog ∧
    df_columns df' = df_columns df_flog ∧
    ∀ i l,
      df_index df_flog !! i = Some l →
      FieldRow_of_Series (df_row df' i)
      = if py_eq l index
        then stamped_with (FieldRow_of_Series (df_row df_flog i)) c
        else FieldRow_of_Series (df_row df_flog i).
Proof.
  intros sensor folder tier_folders df' Hname Hy Hm Hd Hn Hpos Hclosed Hfree
         Hledger Hrect Hcol.
  destruct (Sitebuilder_folders_spec frow site project node sitename y m d n w
              Hname Hy Hm Hd Hn Hpos Hclosed)
    as (w1 & Hrun & [Hf1 _ _ Hdirs _] & Hex & _).
  fold sensor folder tier_folders in Hex, Hrun.
  destruct (touched_frame (notes_file_of folder) w1)
    as (Htd & _ & _ & _ & _ & Htold & _).
  set (w2 := if py_eq (MakeNotesFile frow) (PyBool true)
             then touched (notes_file_of folder) w1 else w1) in *.
  assert (dirs w2 = dirs w1) as Hd2 by (unfold w2; by destruct (py_eq _ _)).
  assert (∀ f, f ∈ dom (files w) → files w2 !! f = files w !! f) as Hold2.
  { intros f Hf. rewrite <- Hf1 in Hf |- *. unfold w2.
    destruct (py_eq _ _); [by apply Htold|done]. }
  destruct (df_loc_set_shape df_flog index "CheckSum" (PyFloat c))
    as [Hidx Hcols].
  assert (∃ w',
    Sitebuilder flog_fname df_flog index frow (Some c) site project node args
                gitmod w
    = (Ok (df', if no_git args then gitmod else true), w') ∧
    files w' = <[flog_fname := CsvFile (df_data df')]> (files w2) ∧
    dirs w' = dirs w2) as (w' & Hsb & Hfile & Hdirs').
  { unfold Sitebuilder. run_with Hrun. fold df'.
    destruct (no_git args); cbn [negb];
      (eexists; split; [reflexivity|]); by cbn [files dirs]. }
  exists w'. split; [done|].
  split; [by rewrite Hfile, lookup_insert_eq|].
  split.
  { intros f Hne Hf. rewrite Hfile, lookup_insert_ne by done. by apply Hold2. }
  split; [by rewrite Hdirs', Hd2|].
  split.
  { intros p Hp. rewrite Hdirs', Hd2.
    eapply unobstructed_dir; [exact Hfree|exact Hf1|exact Hp|by apply Hex]. }
  split; [done|]. split; [done|].
  intros i l Hl. by apply FieldRow_loc_set.
Qed.

(** X16: a ledger on disk that lacks the CheckSum column is completed by
    [_df_col_check] with [None] in that column ([projBuilder], line 222,
    leaves the fill value at its default), and the file is written anew
    ([to_csv]); of what the file then reads as nothing is said.  Every row
    of the table returned then stops the run: [np.isnan(None)] raises a
    [TypeError] in [Rowchecker] (line 527) before any check, nothing being
    built for the row. *)
Theorem X16_ledger_without_CheckSum_column
    env args flog_fname prow info project node dfx gitmod w :
  NoDup (df_columns dfx) → "CheckSum" ∉ df_columns dfx →
  flog_fname ∈ dom (files w) →
  ∃ df_flog gitmod' w',
    _df_col_check dfx flog_fname colnames args gitmod PyNone w
    = (Ok (df_flog, gitmod'), w') ∧
    df_columns df_flog = colnames ∧
    EvToCsv flog_fname ∈ log w' ∧
    ∀ entry gitmod0 w0,
      entry ∈ iterrows df_flog →
      CheckSum (FieldRow_of_Series entry.2) = PyNone ∧
      field_day env args flog_fname prow info project node (df_flog, gitmod0)
                entry w0
      = (Raise (TypeError "isnan"), checked [] w0).
Proof.
  intros Hnd Hmissing _.
  assert (df_columns dfx ≠ colnames) as Hdiff.
  { intros Heq. apply Hmissing. rewrite Heq. unfold colnames. set_solver. }
  destruct (df_col_check_differ dfx flog_fname colnames args gitmod PyNone w
              Hdiff) as (gitmod' & w' & Hrun & _ & _ & Hwritten).
  destruct (reconciled_spec PyNone dfx colnames Hnd) as (Hcols & Hidx & Hcells).
  set (df_flog := reconciled PyNone dfx colnames) in *.
  exists df_flog, gitmod', w'. split; [done|]. split; [done|].
  split; [done|].
  intros entry gitmod0 w0 Hentry.
  apply iterrows_entry in Hentry as (i & label & Hl & ->). cbn [snd].
  assert (CheckSum (FieldRow_of_Series (df_row df_flog i)) = PyNone) as Hnone.
  { unfold FieldRow_of_Series. simpl.
    assert ("CheckSum" ∈ df_columns df_flog) as Hin
        by (rewrite Hcols; unfold colnames; set_solver).
    unfold df_columns in Hin.
    apply list_elem_of_fmap in Hin as ([c cells] & Hc & Hin). simpl in Hc.
    subst c.
    rewrite (series_get_row df_flog i "CheckSum" cells);
      [|rewrite Hcols; unfold colnames; by compute_done|done].
    specialize (Hcells _ _ Hin). rewrite decide_False in Hcells by done.
    rewrite Hcells. destruct (replicate _ _ !! i) as [v|] eqn:Hv; [|done].
    apply lookup_replicate in Hv as [-> _]. done. }
  split; [done|].
  apply (field_day_run env args flog_fname prow info project node df_flog
           gitmod0 label (df_row df_flog i) w0 []
           (Raise (TypeError "isnan"))).
  unfold Rowchecker, checksum_stage. by rewrite Hnone.
Qed.

End Stamp.

(* ===================================================================== *)
(** ** A project without files *)
(* ===================================================================== *)

Section NewProject.
Context `{Pandas} `{GitPython}.

Notation "x ←$ m ; k" := (bind m (fun x => k))
  (at level 100, m at next level, right associativity,
   format "'[' x  ←$  m ; '//' k ']'").
Notation "m ;;$ k" := (bind m (fun _ => k))
  (at level 100, right associativity).

Implicit Types (w : World) (env : RunEnv) (args : Args).

Ltac run_with H := rewrite (bind_Ok _ _ _ _ _ H); cbv beta zeta.

(** [projBuilder] in its four steps. *)
Lemma projBuilder_steps project node colnames args gitmod :
  projBuilder project node colnames args gitmod
  = (for_each (λ _ fld, pymkdir (project_root node project +:+ "/" +:+ fld))
              ["Documentation"; "Code"] tt ;;$
     r ←$ _projYAML project (summary_yaml_of node project) args gitmod ;
     let '(ProjectInfo, gitmod) := r in
     r ←$ projBuilder_field_log (field_log_of node project) colnames args gitmod ;
     let '(df_flog, gitmod) := r in
     Site_names ←$ projBuilder_sites (project_root node project)
                     (summary_yaml_of node project) (p_sites ProjectInfo) [] ;
     ret (df_flog, gitmod, field_log_of node project, Site_names, ProjectInfo)).
Proof. reflexivity. Qed.

(** The two standing folders of a project or a site. *)
Lemma standing_folders_run root w :
  ∃ w', for_each (λ _ fld, pymkdir (root +:+ "/" +:+ fld))
                 ["Documentation"; "Code"] tt w = (Ok tt, w') ∧
        folders_only w w' ∧
        path_exists (root +:+ "/Documentation") w' = true ∧
        path_exists (root +:+ "/Code") w' = true.
Proof.
  destruct (ensures_for_each (λ fld, pymkdir (root +:+ "/" +:+ fld))
              (λ fld, [root +:+ "/" +:+ fld]) ["Documentation"; "Code"]
              (λ fld, ensures_pymkdir _) w)
    as (w' & Hrun & Hfo & Hex & _).
  exists w'. split; [done|]. split; [done|].
  split; apply Hex; simpl; set_solver.
Qed.



Lemma load_project_yaml_Ok fname info w w' :
  load_project_yaml fname w = (Ok info, w') →
  w' = w ∧ files w !! fname = Some (ProjectYaml info).
Proof.
  unfold load_project_yaml.
  destruct (files w !! fname) as [[| |info'|]|]; intros [= <- <-]; done.
Qed.


Lemma read_csv_Ok fname w df w' :
  read_csv fname w = (Ok df, w') →
  w' = w ∧ files w !! fname = Some (CsvFile (df_data df)).
Proof.
  unfold read_csv.
  destruct (files w !! fname) as [[[|[c cells] table]| | |]|];
    intros [= <- <-]; done.
Qed.



Lemma string_app_inj_l (s a b : string) : s +:+ a = s +:+ b → a = b.
Proof. induction s as [|c s IH]; [done|]. intros [=]. by apply IH. Qed.


End NewProject.

(* ===================================================================== *)
(** ** What [projBuilder] leaves on disk *)
(* ===================================================================== *)

Section ProjectOnDisk.
Context `{Pandas} `{GitPython}.

Notation "x ←$ m ; k" := (bind m (fun x => k))
  (at level 100, m at next level, right associativity,
   format "'[' x  ←$  m ; '//' k ']'").
Notation "m ;;$ k" := (bind m (fun _ => k))
  (at level 100, right associativity).

Implicit Types (w : World) (env : RunEnv) (args : Args).

Ltac run_with H := rewrite (bind_Ok _ _ _ _ _ H); cbv beta zeta.

(** What [_df_col_check] returns is what the file holds, if the table it
    was given is; no other file is touched. *)
Lemma df_col_check_Ok dfx fname colnms args gitmod fill_val w dfx' gitmod' w' :
  _df_col_check dfx fname colnms args gitmod fill_val w
  = (Ok (dfx', gitmod'), w') →
  dirs w' = dirs w ∧
  (∀ f, f ≠ fname → files w' !! f = files w !! f) ∧
  (files w !! fname = Some (CsvFile (df_data dfx)) →
   files w' !! fname = Some (CsvFile (df_data dfx'))).
Proof.
  intros Hrun.
  destruct (decide (df_columns dfx = colnms)) as [Hsame|Hdiff].
  - destruct (df_col_check_same dfx fname colnms args gitmod fill_val w Hsame)
      as (g & w1 & Hrun1 & Hf & Hd & _).
    rewrite Hrun in Hrun1. injection Hrun1 as <- <- <-.
    split; [done|]. rewrite Hf. done.
  - destruct (df_col_check_differ dfx fname colnms args gitmod fill_val w Hdiff)
      as (g & w1 & Hrun1 & Hf & Hd & _).
    rewrite Hrun in Hrun1. injection Hrun1 as -> <- <-.
    split; [done|]. rewrite Hf. split.
    + intros f Hne. by rewrite lookup_insert_ne.
    + intros _. by rewrite lookup_insert_eq.
Qed.

(** [_projYAML], when it returns, returns what the summary file holds. *)
Lemma projYAML_Ok project pym_fn args gitmod w info gitmod' w' :
  _projYAML project pym_fn args gitmod w = (Ok (info, gitmod'), w') →
  dirs w' = dirs w ∧
  files w' !! pym_fn = Some (ProjectYaml info) ∧
  (∀ f, f ≠ pym_fn → files w' !! f = files w !! f).
Proof.
  unfold _projYAML.
  intros (g1 & w1 & Hblock & Hrest)%bind_Ok_inv.
  apply bind_Ok_inv in Hrest as (info1 & w2 & Hload & Hrest).
  apply load_project_yaml_Ok in Hload as [-> Hfile].
  apply bind_Ok_inv in Hrest as (g3 & w3 & Hchanged & [= <- <- <-]).
  assert (dirs w3 = dirs w1 ∧ files w3 = files w1) as [Hd3 Hf3].
  { destruct (negb (no_git args)).
    - destruct (GitChanged_run pym_fn g1 w1) as (g & w4 & Hrun & Hd & Hf).
      rewrite Hchanged in Hrun. by injection Hrun as <- <-.
    - by injection Hchanged as <- <-. }
  rewrite Hd3, Hf3. split; [|split; [done|]].
  - revert Hblock. cbv beta.
    destruct (negb (isfile pym_fn w)); [|by intros [= <- <-]].
    destruct (negb (no_git args)); by intros [= <- <-].
  - intros f Hne. revert Hblock. cbv beta.
    destruct (negb (isfile pym_fn w)); [|by intros [= <- <-]].
    destruct (negb (no_git args)); intros [= <- <-]; cbn [files];
      by rewrite lookup_insert_ne.
Qed.

(** The field log step returns the table the file holds. *)
Lemma field_log_Ok flog_fname colnames args gitmod w df gitmod' w' :
  projBuilder_field_log flog_fname colnames args gitmod w
  = (Ok (df, gitmod'), w') →
  dirs w' = dirs w ∧
  files w' !! flog_fname = Some (CsvFile (df_data df)) ∧
  (∀ f, f ≠ flog_fname → files w' !! f = files w !! f).
Proof.
  unfold projBuilder_field_log.
  destruct (negb (isfile flog_fname w)); cbv zeta.
  - intros (u & w1 & Hcsv & Hrest)%bind_Ok_inv.
    injection Hcsv as <- <-.
    apply bind_Ok_inv in Hrest as (g2 & w2 & Hadd & Hrest).
    apply bind_Ok_inv in Hrest as (df1 & w3 & Hread & [= <- <- <-]).
    apply read_csv_Ok in Hread as [-> Hfile].
    assert (dirs w2 = dirs w ∧
            files w2 = <[flog_fname := CsvFile ((λ c, (c, [])) <$> colnames)]>
                         (files w)) as [Hd2 Hf2].
    { destruct (negb (no_git args)); by injection Hadd as <- <-. }
    split; [done|]. split; [done|].
    intros f Hne. by rewrite Hf2, lookup_insert_ne.
  - intros (df0 & w1 & Hread & Hcheck)%bind_Ok_inv.
    apply read_csv_Ok in Hread as [-> Hfile].
    apply df_col_check_Ok in Hcheck as (Hd & Hothers & Hthis).
    split; [done|]. split; [by apply Hthis|done].
Qed.

(** The folders of the sites: one for each site entered, named by
    [_sitenamemaker], with its two standing folders. *)
Lemma projBuilder_sites_Ok root psyl_fname sites acc w names w' :
  projBuilder_sites root psyl_fname sites acc w = (Ok names, w') →
  folders_only w w' ∧
  ∃ new,
    names = acc ++ new ∧
    Forall2 (λ site name, _sitenamemaker site psyl_fname = Ok name)
            (filter (λ site, is_entered site = true) sites) new ∧
    ∀ name, name ∈ new →
            path_exists (root +:+ "/" +:+ name) w' = true ∧
            path_exists (root +:+ "/" +:+ name +:+ "/Documentation") w' = true ∧
            path_exists (root +:+ "/" +:+ name +:+ "/Code") w' = true.
Proof.
  unfold projBuilder_sites.
  revert acc w. induction sites as [|site sites IH]; intros acc w.
  - intros [= <- <-]. split; [apply folders_only_refl|].
    exists []. rewrite app_nil_r. split; [done|]. split; [constructor|].
    intros name Hin. by apply elem_of_nil in Hin.
  - cbn [for_each]. intros (acc1 & w1 & Hbody & Hrest)%bind_Ok_inv.
    apply IH in Hrest as (Hfo & new & -> & Hall & Hex).
    rewrite filter_cons. fold (is_entered site) in Hbody.
    destruct (is_entered site) eqn:Hent.
    + rewrite decide_True by done.
      apply bind_Ok_inv in Hbody as (sitename & w0 & Hname & Hbody).
      unfold lift in Hname. injection Hname as Hname <-.
      destruct (pymkdir_run (root +:+ "/" +:+ sitename) w)
        as (w2 & Hmk & Hfo2 & Hex2).
      rewrite (bind_Ok _ _ _ _ _ Hmk) in Hbody.
      destruct (standing_folders_run (root +:+ "/" +:+ sitename) w2)
        as (w3 & Hst & Hfo3 & Hdoc & Hcode).
      assert (∀ s fld, root +:+ "/" +:+ s +:+ "/" +:+ fld
                       = (root +:+ "/" +:+ s) +:+ "/" +:+ fld) as Hassoc.
      { intros s fld. by rewrite !string_app_assoc. }
      assert (for_each
                (λ _ fld, pymkdir (root +:+ "/" +:+ sitename +:+ "/" +:+ fld))
                ["Documentation"; "Code"] tt w2 = (Ok tt, w3)) as Hst'.
      { rewrite <- Hst. simpl. by rewrite !Hassoc. }
      rewrite (bind_Ok _ _ _ _ _ Hst') in Hbody.
      injection Hbody as <- <-.
      split.
      { eapply folders_only_trans; [exact Hfo2|].
        eapply folders_only_trans; [exact Hfo3|exact Hfo]. }
      exists (sitename :: new). split; [by rewrite <- app_assoc|].
      split; [by constructor|].
      intros name [->|Hin]%elem_of_cons; [|by apply Hex].
      assert (∀ s t, root +:+ "/" +:+ s +:+ t = (root +:+ "/" +:+ s) +:+ t)
        as Hassoc2 by (intros s t; by rewrite !string_app_assoc).
      rewrite !Hassoc2.
      split; [|split]; (eapply path_exists_mono; [exact Hfo|]); [|done|done].
      by eapply path_exists_mono.
    + rewrite decide_False by done.
      injection Hbody as <- <-.
      split; [done|]. by exists new.
Qed.

(** When [projBuilder] returns, the two files of the project hold what it
    returned, and no other file changed. *)
Lemma projBuilder_Ok_files
    project node colnames args gitmod w df_flog gitmod' flog_fname Site_names
    ProjectInfo w' :
  projBuilder project node colnames args gitmod w
  = (Ok (df_flog, gitmod', flog_fname, Site_names, ProjectInfo), w') →
  flog_fname = field_log_of node project ∧
  files w' !! summary_yaml_of node project = Some (ProjectYaml ProjectInfo) ∧
  files w' !! flog_fname = Some (CsvFile (df_data df_flog)) ∧
  (∀ f, f ≠ summary_yaml_of node project → f ≠ flog_fname →
        files w' !! f = files w !! f).
Proof.
  rewrite projBuilder_steps.
  destruct (standing_folders_run (project_root node project) w)
    as (w1 & Hrun1 & [Hf1 _ _ _ _] & _).
  run_with Hrun1.
  intros ([info g2] & w2 & Hyaml & Hrest)%bind_Ok_inv.
  apply bind_Ok_inv in Hrest as ([df g3] & w3 & Hlog & Hrest).
  apply bind_Ok_inv in Hrest as (names & w4 & Hsites & [= <- <- <- <- <- <-]).
  apply projYAML_Ok in Hyaml as (_ & Hy2 & Ho2).
  apply field_log_Ok in Hlog as (_ & Hl3 & Ho3).
  apply projBuilder_sites_Ok in Hsites as ([Hf4 _ _ _ _] & _).
  assert (field_log_of node project ≠ summary_yaml_of node project) as Hne.
  { unfold field_log_of, summary_yaml_of.
    intros Heq%string_app_inj_l. discriminate. }
  split; [done|].
  split; [by rewrite Hf4, Ho3, Hy2|].
  split; [by rewrite Hf4|].
  intros f Hfy Hfl. by rewrite Hf4, Ho3, Ho2, Hf1.
Qed.

(** X14: what [projBuilder] returns is what the project's folder holds
    afterwards.  The field log it names is [FieldLog.csv] of the project
    and, where no cell of the returned table is [None], holds that table
    (a table completed with [None], line 222, is not what its file reads
    as); [ProjectSummary.yaml] holds the returned project information; no
    other file changed, and no directory is gone;
    Documentation and Code exist; the site names returned are those
    [_sitenamemaker] gives for the sites entered in the project file, in
    their order, and each of them has its folder, with Documentation and
    Code in it. *)
Theorem X14_projBuilder_returns_what_is_on_disk
    project node colnames args gitmod w df_flog gitmod' flog_fname Site_names
    ProjectInfo w' :
  projBuilder project node colnames args gitmod w
  = (Ok (df_flog, gitmod', flog_fname, Site_names, ProjectInfo), w') →
  flog_fname = field_log_of node project ∧
  files w' !! summary_yaml_of node project = Some (ProjectYaml ProjectInfo) ∧
  (Forall (λ column, PyNone ∉ column.2) (df_data df_flog) →
   files w' !! flog_fname = Some (CsvFile (df_data df_flog))) ∧
  (∀ f, f ≠ summary_yaml_of node project → f ≠ flog_fname →
        files w' !! f = files w !! f) ∧
  dirs w ⊆ dirs w' ∧
  path_exists (project_root node project +:+ "/Documentation") w' = true ∧
  path_exists (project_root node project +:+ "/Code") w' = true ∧
  Forall2 (λ site name,
             _sitenamemaker site (summary_yaml_of node project) = Ok name)
          (filter (λ site, is_entered site = true) (p_sites ProjectInfo))
          Site_names ∧
  ∀ name,
    name ∈ Site_names →
    path_exists (project_root node project +:+ "/" +:+ name) w' = true ∧
    path_exists (project_root node project +:+ "/" +:+ name
                 +:+ "/Documentation") w' = true ∧
    path_exists (project_root node project +:+ "/" +:+ name +:+ "/Code") w'
    = true.
Proof.
  intros Hrun.
  destruct (projBuilder_Ok_files _ _ _ _ _ _ _ _ _ _ _ _ Hrun)
    as (Hname & Hyfile & Hlfile & Hothers).
  split; [done|]. split; [done|]. split; [done|]. split; [done|].
  clear Hname Hyfile Hlfile Hothers.
  revert Hrun. rewrite projBuilder_steps.
  destruct (standing_folders_run (project_root node project) w)
    as (w1 & Hrun1 & Hfo1 & Hdoc & Hcode).
  run_with Hrun1.
  intros ([info g2] & w2 & Hyaml & Hrest)%bind_Ok_inv.
  apply bind_Ok_inv in Hrest as ([df g3] & w3 & Hlog & Hrest).
  apply bind_Ok_inv in Hrest as (names & w4 & Hsites & [= <- <- <- <- <- <-]).
  apply projYAML_Ok in Hyaml as (Hd2 & Hy2 & Ho2).
  apply field_log_Ok in Hlog as (Hd3 & Hl3 & Ho3).
  apply projBuilder_sites_Ok in Hsites as (Hfo4 & new & -> & Hall & Hex).
  destruct Hfo1 as [Hf1 _ _ Hsub1 _]. pose proof Hfo4 as [Hf4 _ _ Hsub4 _].
  split; [by rewrite <- Hsub4, Hd3, Hd2|].
  assert (∀ p, path_exists p w1 = true → path_exists p w4 = true) as Hmono.
  { intros p Hp. eapply path_exists_mono; [exact Hfo4|].
    revert Hp. rewrite !path_exists_spec, Hd3, Hd2.
    intros [Hp|Hp]; [by left|right].
    apply elem_of_dom in Hp as [b Hb]. apply elem_of_dom.
    destruct (decide (p = field_log_of node project)) as [->|Hpl];
      [by eexists|].
    destruct (decide (p = summary_yaml_of node project)) as [->|Hpy];
      [rewrite Ho3 by done; by eexists|].
    rewrite Ho3, Ho2 by done. by eexists. }
  split; [by apply Hmono|]. split; [by apply Hmono|].
  split; [done|]. done.
Qed.

End ProjectOnDisk.

(* ===================================================================== *)
(** ** Files are kept *)
(* ===================================================================== *)

Section Kept.
Context `{Pandas} `{GitPython}.

Notation "x ←$ m ; k" := (bind m (fun x => k))
  (at level 100, m at next level, right associativity,
   format "'[' x  ←$  m ; '//' k ']'").
Notation "m ;;$ k" := (bind m (fun _ => k))
  (at level 100, right associativity).

Implicit Types (w : World) (env : RunEnv) (args : Args).

(** Keeping files is a preorder; a new file keeps the others, and so does
    a table written over a table. *)
Lemma kept_as_refl b : kept_as b b.
Proof. destruct b; simpl; by eauto. Qed.

Lemma kept_as_trans b1 b2 b3 : kept_as b1 b2 → kept_as b2 b3 → kept_as b1 b3.
Proof.
  destruct b1; simpl; try (by intros ->).
  intros [t ->]. simpl. done.
Qed.

#[global] Instance files_kept_preorder : PreOrder files_kept.
Proof.
  split.
  - intros w f b Hb. exists b. split; [done|apply kept_as_refl].
  - intros w1 w2 w3 H12 H23 f b Hb.
    destruct (H12 f b Hb) as (b2 & Hb2 & Hk2).
    destruct (H23 f b2 Hb2) as (b3 & Hb3 & Hk3).
    exists b3. split; [done|]. by eapply kept_as_trans.
Qed.

Lemma files_kept_same w w' : files w' = files w → files_kept w w'.
Proof.
  intros Hf f b Hb. exists b. rewrite Hf. split; [done|apply kept_as_refl].
Qed.

Lemma files_kept_new w w' fname body :
  files w' = <[fname := body]> (files w) → fname ∉ dom (files w) →
  files_kept w w'.
Proof.
  intros Hf Hnew f b Hb. exists b. split; [|apply kept_as_refl].
  rewrite Hf, lookup_insert_ne; [done|].
  intros ->. apply Hnew. apply elem_of_dom. by eexists.
Qed.

Lemma files_kept_csv w w' fname table :
  files w' = <[fname := CsvFile table]> (files w) → is_csv fname w →
  files_kept w w'.
Proof.
  intros Hf [t0 Ht0] f b Hb. rewrite Hf.
  destruct (decide (f = fname)) as [->|Hne].
  - rewrite lookup_insert_eq. exists (CsvFile table). split; [done|].
    rewrite Ht0 in Hb. injection Hb as <-. simpl. by eexists.
  - rewrite lookup_insert_ne by done. exists b.
    split; [done|apply kept_as_refl].
Qed.

Lemma is_csv_kept fname w w' : is_csv fname w → files_kept w w' → is_csv fname w'.
Proof.
  intros [t Ht] Hk. destruct (Hk _ _ Ht) as (b' & Hb' & [t' ->]).
  by exists t'.
Qed.

(** Steps under a condition on the starting world. *)
Lemma keeps_from_keeps P R {A} (m : M A) : keeps R m → keeps_from P R m.
Proof. intros Hm w _. apply Hm. Qed.

Lemma keeps_of_from R {A} (m : M A) : keeps_from (λ _, True) R m → keeps R m.
Proof. intros Hm w. by apply Hm. Qed.

Lemma keeps_from_bind P R `{!Transitive R} {A B} (Q : A → World → Prop)
    (m : M A) (k : A → M B) :
  keeps_from P R m →
  (∀ w a w1, P w → m w = (Ok a, w1) → Q a w1) →
  (∀ a, keeps_from (Q a) R (k a)) →
  keeps_from P R (bind m k).
Proof.
  intros Hm Hpost Hk w HP. unfold bind. specialize (Hm w HP).
  destruct (m w) as [[a|e] w1] eqn:Hmw; simpl in *; [|done].
  etrans; [exact Hm|]. apply Hk. by eapply Hpost.
Qed.

Lemma keeps_from_for_each P R `{!PreOrder R} {A S} (body : S → A → M S) xs s :
  (∀ w w', P w → R w w' → P w') →
  (∀ s x, keeps_from P R (body s x)) →
  keeps_from P R (for_each body xs s).
Proof.
  intros Hstable Hbody. revert s.
  induction xs as [|x xs IH]; intros s; simpl.
  - intros w _. simpl. reflexivity.
  - apply (keeps_from_bind P R (λ _, P)); [apply Hbody| |apply IH].
    intros w a w1 HP Hrun. apply (Hstable w); [done|].
    specialize (Hbody s x w HP). by rewrite Hrun in Hbody.
Qed.

(** The steps that write no file. *)
Lemma files_kept_silent {A} (m : M A) :
  (∀ w, files (m w).2 = files w) → keeps files_kept m.
Proof. intros Hm w. by apply files_kept_same. Qed.

(** The steps that keep the files. *)
Lemma files_kept_emit ev : keeps files_kept (emit ev).
Proof. by apply files_kept_silent. Qed.

Lemma files_kept_emit_all evs : keeps files_kept (emit_all evs).
Proof. by apply files_kept_silent. Qed.

Lemma files_kept_read_clock env : keeps files_kept (read_clock env).
Proof. by apply files_kept_silent. Qed.

Lemma files_kept_pymkdir path : keeps files_kept (pymkdir path).
Proof.
  apply files_kept_silent. intros w. unfold pymkdir.
  by destruct (path_exists path w).
Qed.

Lemma files_kept_touch path : keeps files_kept (touch path).
Proof.
  intros w. unfold touch. destruct (_ || _); [|reflexivity].
  cbn [snd emit]. unfold isfile. case_bool_decide as Hin.
  - by apply files_kept_same.
  - by eapply files_kept_new.
Qed.

(** [to_csv] makes a new file, or replaces a table. *)
Lemma files_kept_to_csv_new df fname :
  keeps_from (λ w, fname ∉ dom (files w)) files_kept (to_csv df fname).
Proof. intros w Hnew. by eapply files_kept_new. Qed.

Lemma files_kept_to_csv df fname :
  keeps_from (is_csv fname) files_kept (to_csv df fname).
Proof. intros w Hcsv. by eapply files_kept_csv. Qed.

Lemma files_kept_read_csv fname : keeps files_kept (read_csv fname).
Proof.
  apply files_kept_silent. intros w. unfold read_csv.
  by destruct (files w !! fname) as [[[|[c cells] table]| | |]|].
Qed.

Lemma files_kept_read_csv_index_col_0 fname :
  keeps files_kept (read_csv_index_col_0 fname).
Proof.
  apply files_kept_silent. intros w. unfold read_csv_index_col_0.
  by destruct (files w !! fname) as [[[|[c cells] table]| | |]|].
Qed.

Lemma files_kept_load_node_yaml fname : keeps files_kept (load_node_yaml fname).
Proof.
  apply files_kept_silent. intros w. unfold load_node_yaml.
  by destruct (files w !! fname) as [[| | |]|].
Qed.

Lemma files_kept_load_project_yaml fname :
  keeps files_kept (load_project_yaml fname).
Proof.
  apply files_kept_silent. intros w. unfold load_project_yaml.
  by destruct (files w !! fname) as [[| | |]|].
Qed.

Lemma files_kept_repo_git_add fname : keeps files_kept (repo_git_add fname).
Proof. by apply files_kept_silent. Qed.

Lemma files_kept_GitChanged fname gitmod :
  keeps files_kept (GitChanged fname gitmod).
Proof.
  apply files_kept_silent. intros w.
  destruct (GitChanged_run fname gitmod w) as (g & w' & -> & _ & Hf). done.
Qed.

Lemma files_kept_GitPull env : keeps files_kept (GitPull env).
Proof.
  apply files_kept_silent. intros w. rewrite GitPull_run.
  by case_bool_decide.
Qed.

Lemma files_kept_Sitebuilder_folders frow site project node :
  keeps files_kept (Sitebuilder_folders frow site project node).
Proof.
  unfold Sitebuilder_folders.
  repeat keeps_step; auto using files_kept_pymkdir, files_kept_touch.
Qed.

End Kept.

Create HintDb kept discriminated.
#[export] Hint Resolve files_kept_emit files_kept_emit_all files_kept_read_clock
  files_kept_pymkdir files_kept_touch files_kept_read_csv
  files_kept_read_csv_index_col_0 files_kept_load_node_yaml
  files_kept_load_project_yaml files_kept_repo_git_add files_kept_GitChanged
  files_kept_GitPull files_kept_Sitebuilder_folders : kept.

Ltac kept_auto := repeat keeps_step; auto with kept.

Section KeptFunctions.
Context `{Pandas} `{GitPython}.

Notation "x ←$ m ; k" := (bind m (fun x => k))
  (at level 100, m at next level, right associativity,
   format "'[' x  ←$  m ; '//' k ']'").
Notation "m ;;$ k" := (bind m (fun _ => k))
  (at level 100, right associativity).

Implicit Types (w : World) (env : RunEnv) (args : Args).

(** [_df_col_check] rewrites at most the table it was given the name of. *)
Lemma files_kept_df_col_check dfx fname colnms args gitmod fill_val :
  keeps_from (is_csv fname) files_kept
             (_df_col_check dfx fname colnms args gitmod fill_val).
Proof.
  intros w Hcsv.
  destruct (decide (df_columns dfx = colnms)) as [Hsame|Hdiff].
  - destruct (df_col_check_same dfx fname colnms args gitmod fill_val w Hsame)
      as (g & w1 & -> & Hf & _).
    by apply files_kept_same.
  - destruct (df_col_check_differ dfx fname colnms args gitmod fill_val w Hdiff)
      as (g & w1 & -> & Hf & _).
    by eapply files_kept_csv.
Qed.

(** The functions keep the files: what they write is a file that was not
    there, or a table they have read. *)
Lemma files_kept_projYAML project pym_fn args gitmod :
  keeps files_kept (_projYAML project pym_fn args gitmod).
Proof.
  unfold _projYAML. apply keeps_bind; [apply _| |intros g; kept_auto].
  intros w. cbv beta. unfold isfile. case_bool_decide as Hin; cbn [negb].
  - reflexivity.
  - destruct (negb (no_git args)); by eapply files_kept_new.
Qed.

Lemma files_kept_NodeChecker args node gitmod :
  keeps files_kept (NodeChecker args node gitmod).
Proof.
  unfold NodeChecker. apply keeps_bind; [apply _|auto with kept|intros _].
  cbv zeta. apply keeps_bind; [apply _| |intros g].
  { intros w. cbv beta. unfold isfile. case_bool_decide as Hin; cbn [negb].
    - reflexivity.
    - destruct (negb (no_git args)); by eapply files_kept_new. }
  apply keeps_of_from.
  eapply (keeps_from_bind _ _ (λ _, is_csv _)).
  - apply keeps_from_keeps. auto with kept.
  - intros w df w1 _ Hread. revert Hread. unfold read_csv_index_col_0.
    destruct (files w !! _) as [[[|[c cells] table]| | |]|] eqn:Hfile;
      intros [= <- <-]. by eexists.
  - intros df. eapply (keeps_from_bind _ _ (λ _ _, True)).
    + apply files_kept_df_col_check.
    + done.
    + intros [df' g']. apply keeps_from_keeps. kept_auto.
Qed.

Lemma files_kept_field_log flog_fname colnames args gitmod :
  keeps files_kept (projBuilder_field_log flog_fname colnames args gitmod).
Proof.
  intros w. unfold projBuilder_field_log, isfile.
  case_bool_decide as Hin; cbn [negb].
  - clear Hin. as_keeps. apply keeps_of_from.
    eapply (keeps_from_bind _ _ (λ _, is_csv flog_fname)).
    + apply keeps_from_keeps. auto with kept.
    + intros w df w1 _ Hread. apply read_csv_Ok in Hread as [-> Hfile].
      by eexists.
    + intros df. apply files_kept_df_col_check.
  - cbv zeta.
    match goal with |- files_kept ?w0 (snd (?m ?w0)) =>
      revert w0 Hin;
      change (keeps_from (λ w, flog_fname ∉ dom (files w)) files_kept m)
    end.
    eapply (keeps_from_bind _ _ (λ _ _, True)).
    + apply files_kept_to_csv_new.
    + done.
    + intros _. apply keeps_from_keeps. kept_auto.
Qed.

Lemma files_kept_projBuilder_sites root psyl_fname sites acc :
  keeps files_kept (projBuilder_sites root psyl_fname sites acc).
Proof. unfold projBuilder_sites. kept_auto. Qed.

#[local] Hint Resolve files_kept_projYAML files_kept_NodeChecker
  files_kept_field_log files_kept_projBuilder_sites : kept.

Lemma files_kept_projBuilder project node colnames args gitmod :
  keeps files_kept (projBuilder project node colnames args gitmod).
Proof. rewrite projBuilder_steps. kept_auto. Qed.

#[local] Hint Resolve files_kept_projBuilder : kept.

Lemma files_kept_Sitebuilder flog_fname df_flog index frow check site project
    node args gitmod :
  keeps_from (is_csv flog_fname) files_kept
             (Sitebuilder flog_fname df_flog index frow check site project node
                          args gitmod).
Proof.
  unfold Sitebuilder.
  eapply (keeps_from_bind _ _ (λ _, is_csv flog_fname)).
  - apply keeps_from_keeps. auto with kept.
  - intros w a w1 Hcsv Hrun. apply (is_csv_kept _ w); [done|].
    pose proof (files_kept_Sitebuilder_folders frow site project node w) as Hk.
    by rewrite Hrun in Hk.
  - intros _. destruct check as [c|]; [|apply keeps_from_keeps; kept_auto].
    cbv zeta. eapply (keeps_from_bind _ _ (λ _ _, True)).
    + apply files_kept_to_csv.
    + done.
    + intros _. apply keeps_from_keeps. kept_auto.
Qed.

Lemma files_kept_field_day env args flog_fname prow info project node state
    entry :
  keeps_from (is_csv flog_fname) files_kept
             (field_day env args flog_fname prow info project node state entry).
Proof.
  unfold field_day. destruct state as [df_flog gitmod], entry as [index cells].
  eapply (keeps_from_bind _ _ (λ _, is_csv flog_fname)).
  - apply keeps_from_keeps. auto with kept.
  - by intros w a w1 Hcsv [= <- <-].
  - intros now. destruct (Rowchecker _ _ _ _ _ _ _ _) as [printed result].
    eapply (keeps_from_bind _ _ (λ _, is_csv flog_fname)).
    + apply keeps_from_keeps. auto with kept.
    + by intros w a w1 Hcsv [= <- <-].
    + intros _. eapply (keeps_from_bind _ _ (λ _, is_csv flog_fname)).
      * apply keeps_from_keeps. kept_auto.
      * by intros w a w1 Hcsv [= _ <-].
      * intros [check site]. apply files_kept_Sitebuilder.
Qed.

Lemma files_kept_project_step env args node gitmod entry :
  keeps files_kept (project_step env args node gitmod entry).
Proof.
  unfold project_step. destruct entry as [project_label row].
  apply keeps_of_from.
  eapply (keeps_from_bind _ _ (λ r, is_csv r.1.1.2)).
  - apply keeps_from_keeps. auto with kept.
  - intros w [[[[df g] f] names] info] w1 _ Hrun. simpl.
    apply projBuilder_Ok_files in Hrun as (_ & _ & Hfile & _).
    by eexists.
  - intros [[[[df g] f] names] info]. simpl.
    destruct (negb (df_empty df)); [|apply keeps_from_keeps; kept_auto].
    eapply (keeps_from_bind _ _ (λ _ _, True)).
    + apply keeps_from_for_each; [apply _| |].
      * intros w w'. apply is_csv_kept.
      * intros s x. apply files_kept_field_day.
    + done.
    + intros r. apply keeps_from_keeps. kept_auto.
Qed.

#[local] Hint Resolve files_kept_project_step : kept.

Lemma files_kept_node_loop env args nodes gitmod :
  keeps files_kept (node_loop env args nodes gitmod).
Proof.
  revert gitmod. induction nodes as [|node nodes IH]; intros gitmod; simpl;
    kept_auto.
Qed.

#[local] Hint Resolve files_kept_node_loop : kept.

(** X17: a run rewrites tables only.  For a run with [--no-git], or whose
    pull is up to date, however [main] ends, a file that existed before is
    still there; if it was not a CSV table (the node file, a project
    summary, a notes file), its content is unchanged; a CSV table is still
    a CSV table. *)
Theorem X17_main_rewrites_tables_only env args w f body :
  no_git args = true ∨ (git_pull (repo w)).1 = "Already up to date." →
  files w !! f = Some body →
  ∃ body', files (main env args w).2 !! f = Some body' ∧ kept_as body body'.
Proof.
  intros _. revert f body. change (files_kept w (main env args w).2).
  revert w. change (keeps files_kept (main env args)). unfold main.
  kept_auto. by apply files_kept_silent.
Qed.

End KeptFunctions.

(* ===================================================================== *)
(** ** From validation to folders *)
(* ===================================================================== *)

Section Built.
Context `{Pandas} `{GitPython}.

Notation "x ←$ m ; k" := (bind m (fun x => k))
  (at level 100, m at next level, right associativity,
   format "'[' x  ←$  m ; '//' k ']'").
Notation "m ;;$ k" := (bind m (fun _ => k))
  (at level 100, right associativity).

Implicit Types (w : World) (env : RunEnv) (args : Args).

Ltac run_with H := rewrite (bind_Ok _ _ _ _ _ H); cbv beta zeta.


End Built.
(* ===================================================================== *)
(** ** The ledger after the loop over its rows *)
(* ===================================================================== *)

Section Labels.

Implicit Types (df : DataFrame).

(** Labels 0, 1, 2, ... tell the rows apart. *)
Lemma range_index_lookup df j l :
  range_index df → df_index df !! j = Some l → l = PyInt (Z.of_nat j).
Proof.
  intros Hrange Hl. rewrite Hrange in Hl.
  rewrite !list_lookup_fmap in Hl.
  destruct (seq 0 (length (df_index df)) !! j) as [i|] eqn:Hi; [|done].
  apply lookup_seq in Hi as [-> _]. simpl in Hl. by injection Hl as <-.
Qed.

Lemma py_eq_label (j k : nat) :
  py_eq (PyInt (Z.of_nat j)) (PyInt (Z.of_nat k)) = bool_decide (j = k).
Proof.
  unfold py_eq. simpl. case_bool_decide as Hjk.
  - subst. apply Z.eqb_refl.
  - apply Z.eqb_neq. lia.
Qed.

Lemma df_loc_set_rectangular df index col v :
  df_rectangular df → df_rectangular (df_loc_set df index col v).
Proof.
  unfold df_rectangular, df_loc_set. simpl. intros Hrect.
  apply Forall_fmap. eapply Forall_impl; [exact Hrect|].
  intros [k cells] Hlen. simpl in *. case_bool_decide; simpl; [|done].
  rewrite length_zip_with. lia.
Qed.

Lemma length_iterrows df : length (iterrows df) = length (df_index df).
Proof. unfold iterrows. apply length_imap. Qed.

Lemma iterrows_lookup df k entry :
  iterrows df !! k = Some entry →
  ∃ l, df_index df !! k = Some l ∧ entry = (l, df_row df k).
Proof.
  unfold iterrows. rewrite list_lookup_imap.
  destruct (df_index df !! k) as [l|]; [|done].
  intros [= <-]. by exists l.
Qed.

End Labels.

Section RowLoop.
Context `{Pandas} `{GitPython}.

Notation "x ←$ m ; k" := (bind m (fun x => k))
  (at level 100, m at next level, right associativity,
   format "'[' x  ←$  m ; '//' k ']'").
Notation "m ;;$ k" := (bind m (fun _ => k))
  (at level 100, right associativity).

Implicit Types (w : World) (env : RunEnv) (args : Args).

(** The folders and the notes file of a row leave the files that exist
    alone. *)
#[global] Instance old_files_preorder : PreOrder old_files.
Proof.
  split.
  - by intros w f Hf.
  - intros w1 w2 w3 H12 H23 f Hf. rewrite H23, H12; [done|done|].
    apply elem_of_dom. rewrite H12 by done. by apply elem_of_dom.
Qed.

Lemma old_files_pymkdir path : keeps old_files (pymkdir path).
Proof.
  intros w f Hf. unfold pymkdir. by destruct (path_exists path w).
Qed.

Lemma old_files_touch path : keeps old_files (touch path).
Proof.
  intros w f Hf. unfold touch. destruct (_ || _); [|done].
  cbn [snd emit files]. unfold isfile. case_bool_decide as Hin; [done|].
  rewrite lookup_insert_ne; [done|]. by intros ->.
Qed.

Lemma old_files_Sitebuilder_folders frow site project node :
  keeps old_files (Sitebuilder_folders frow site project node).
Proof.
  unfold Sitebuilder_folders.
  repeat keeps_step; auto using old_files_pymkdir, old_files_touch.
Qed.

(** What [Sitebuilder] returns, and what has become of the ledger file. *)
Lemma Sitebuilder_Ok_inv flog_fname df_flog index frow check site project node
    args gitmod w df' gitmod' w' :
  Sitebuilder flog_fname df_flog index frow check site project node args gitmod
              w
  = (Ok (df', gitmod'), w') →
  df' = match check with
        | Some c => df_loc_set df_flog index "CheckSum" (PyFloat c)
        | None => df_flog
        end ∧
  match check with
  | Some c => files w' !! flog_fname = Some (CsvFile (df_data df'))
  | None => old_files w w'
  end.
Proof.
  unfold Sitebuilder.
  intros ([] & w1 & Hfolders & Hrest)%bind_Ok_inv.
  destruct check as [c|].
  - cbv zeta in Hrest.
    apply bind_Ok_inv in Hrest as ([] & w2 & Hcsv & Hrest).
    injection Hcsv as <-.
    destruct (negb (no_git args)).
    + injection Hrest as <- <- <-. split; [done|].
      cbn [files]. by rewrite lookup_insert_eq.
    + injection Hrest as <- <- <-. split; [done|].
      cbn [files]. by rewrite lookup_insert_eq.
  - injection Hrest as <- <- <-. split; [done|].
    pose proof (old_files_Sitebuilder_folders frow site project node w) as Hk.
    by rewrite Hfolders in Hk.
Qed.

(** A property that holds before a loop and is carried from round to round
    holds after it. *)
Lemma for_each_invariant {A T} (body : T → A → M T)
    (I : nat → T → World → Prop) xs s0 w0 s w :
  for_each body xs s0 w0 = (Ok s, w) →
  I 0%nat s0 w0 →
  (∀ k x s1 w1 s2 w2,
      xs !! k = Some x → I k s1 w1 → body s1 x w1 = (Ok s2, w2) →
      I (S k) s2 w2) →
  I (length xs) s w.
Proof.
  revert I s0 w0. induction xs as [|x xs IH]; intros I s0 w0; simpl.
  - by intros [= <- <-] Hbase _.
  - intros (s1 & w1 & Hbody & Hrest)%bind_Ok_inv Hbase Hstep.
    apply (IH (λ k, I (S k)) s1 w1 Hrest).
    + by apply (Hstep 0%nat x s0 w0).
    + intros k y s2 w2 s3 w3 Hy. by apply (Hstep (S k)).
Qed.

(** X20: the loop over the rows of a ledger settles it.  For a ledger as
    [pd.read_csv] delivers it (rows labelled 0, 1, 2, ..., every column with
    a cell for every row) that has a CheckSum column and is what the ledger
    file holds: if the loop over its rows (lines 62-67 of [main]) returns,
    the file holds the table the loop ends with; that table has the rows and
    columns of the ledger, each row either as it was or with the recomputed
    checksum in its CheckSum cell; and every one of its rows is settled:
    whenever it is validated again, [Rowchecker] returns [None] for it
    without looking at its date. *)
Theorem X20_row_loop_settles_the_ledger
    env args flog_fname prow info project node df_flog gitmod w df' gitmod' w' :
  range_index df_flog → df_rectangular df_flog →
  "CheckSum" ∈ df_columns df_flog →
  files w !! flog_fname = Some (CsvFile (df_data df_flog)) →
  for_each (field_day env args flog_fname prow info project node)
           (iterrows df_flog) (df_flog, gitmod) w
  = (Ok (df', gitmod'), w') →
  files w' !! flog_fname = Some (CsvFile (df_data df')) ∧
  df_index df' = df_index df_flog ∧
  df_columns df' = df_columns df_flog ∧
  ∀ i label,
    df_index df_flog !! i = Some label →
    settled flog_fname prow info (FieldRow_of_Series (df_row df' i)) ∧
    (FieldRow_of_Series (df_row df' i)
     = FieldRow_of_Series (df_row df_flog i) ∨
     FieldRow_of_Series (df_row df' i)
     = stamped_with (FieldRow_of_Series (df_row df_flog i))
                    (row_checksum (FieldRow_of_Series (df_row df_flog i)))).
Proof.
  intros Hrange Hrect Hcol Hfile Hloop.
  set (F := λ (df : DataFrame) (i : nat), FieldRow_of_Series (df_row df i)).
  set (I := λ (k : nat) (s : DataFrame * bool) (w1 : World),
    df_index s.1 = df_index df_flog ∧ df_rectangular s.1 ∧
    df_columns s.1 = df_columns df_flog ∧
    files w1 !! flog_fname = Some (CsvFile (df_data s.1)) ∧
    ∀ j l, df_index df_flog !! j = Some l →
      ((j < k)%nat →
       settled flog_fname prow info (F s.1 j) ∧
       (F s.1 j = F df_flog j ∨
        F s.1 j = stamped_with (F df_flog j) (row_checksum (F df_flog j)))) ∧
      ((k ≤ j)%nat → F s.1 j = F df_flog j)).
  assert (I (length (iterrows df_flog)) (df', gitmod') w') as Hend.
  { apply (for_each_invariant _ I _ _ _ _ _ Hloop).
    { unfold I. cbn [fst].
      split; [done|]. split; [done|]. split; [done|]. split; [done|].
      intros j l _. split; [lia|done]. }
    clear Hloop df' gitmod' w'.
    intros k [lk cells] [df g] w1 [df2 g2] w2 Hk
           (Hidx & Hrect1 & Hcols & Hfile1 & Hrows) Hbody.
    apply iterrows_lookup in Hk as (l & Hl & [= -> ->]).
    cbn [fst] in *.
    destruct (Rowchecker (clock env (ticks w1)) (debugger env) flog_fname
                (FieldRow_of_Series (df_row df_flog k)) prow info
                (historical args) (default_past_date (import_time env)))
      as [printed result] eqn:Hrow.
    rewrite (field_day_run _ _ _ _ _ _ _ _ _ _ _ _ _ _ Hrow) in Hbody.
    destruct result as [[check site]|e]; [|discriminate].
    pose proof (settled_after _ _ _ _ _ _ _ _ _ _ _ Hrow) as Hsettled.
    assert (check = None ∨ check = Some (row_checksum (F df_flog k)))
      as Hcheck.
    { destruct check as [c|]; [right|by left].
      revert Hrow. unfold Rowchecker.
      destruct (checksum_stage _ _ _) as [printed0 [check0|e]] eqn:Hstage;
        simpl; [|discriminate].
      intros [= <- Hchecks]. apply field_checks_returned in Hchecks as <-.
      destruct (checksum_stage_Ok _ _ _ _ _ Hstage)
        as [([=] & _)|[([= ->] & _)|([= ->] & _)]]; done. }
    apply Sitebuilder_Ok_inv in Hbody as [-> Hfile2].
    pose proof (range_index_lookup _ _ _ Hrange Hl) as ->.
    assert (∀ j l, df_index df_flog !! j = Some l →
                   df_index df !! j = Some l) as Hlabel
        by (intros j l'; by rewrite Hidx).
    unfold I. cbn [fst].
    destruct check as [c|].
    - destruct (df_loc_set_shape df (PyInt (Z.of_nat k)) "CheckSum" (PyFloat c))
        as [Hidx2 Hcols2].
      split; [by rewrite Hidx2|].
      split; [by apply df_loc_set_rectangular|].
      split; [by rewrite Hcols2|].
      split; [done|].
      intros j lj Hlj.
      pose proof (range_index_lookup _ _ _ Hrange Hlj) as ->.
      assert (F (df_loc_set df (PyInt (Z.of_nat k)) "CheckSum" (PyFloat c)) j
              = if bool_decide (j = k)
                then stamped_with (F df j) c else F df j) as Hrow_j.
      { unfold F.
        rewrite (FieldRow_loc_set df _ c j (PyInt (Z.of_nat j)));
          [|done|by rewrite Hcols|by apply Hlabel].
        by rewrite py_eq_label. }
      rewrite Hrow_j.
      destruct (Hrows j _ Hlj) as [Hbefore Hafter].
      case_bool_decide as Hjk.
      + subst j. rewrite (Hafter ltac:(lia)).
        split; [|intros ?; lia].
        intros _. split; [exact Hsettled|].
        right. destruct Hcheck as [[=]|[= ->]]. done.
      + split.
        * intros Hlt. apply Hbefore. lia.
        * intros Hle. apply Hafter. lia.
    - split; [done|]. split; [done|]. split; [done|].
      split.
      { rewrite Hfile2; [done|]. cbn [files checked].
        apply elem_of_dom. by eexists. }
      intros j lj Hlj. destruct (Hrows j _ Hlj) as [Hbefore Hafter].
      split.
      + intros Hlt. destruct (decide (j = k)) as [->|Hjk].
        * rewrite (Hafter ltac:(lia)). split; [exact Hsettled|by left].
        * apply Hbefore. lia.
      + intros Hle. apply Hafter. lia. }
  destruct Hend as (Hidx & _ & Hcols & Hfile' & Hrows). cbn [fst] in *.
  split; [done|]. split; [done|]. split; [done|].
  intros i label Hlabel. apply (Hrows i label Hlabel).
  rewrite length_iterrows. by eapply lookup_lt_Some.
Qed.

End RowLoop.

(* ===================================================================== *)
(** ** The properties at work *)
(* ===================================================================== *)

(** C1, as stated, fails: a row edited after it was stamped (its stored
    checkSum is set and differs from the recomputed one) is returned by
    [Rowchecker] once the debugger is resumed, with the recomputed checksum;
    the round then builds the row's folders and rewrites the ledger with
    the new checksum in place of the stored one. *)
Lemma C1_mismatch_is_returned_after_resume :
  np_isnan (CheckSum Demo.tampered) = Some false ∧
  py_eq (PyFloat (@row_checksum Demo.pandas Demo.tampered))
        (CheckSum Demo.tampered) = false ∧
  (@Rowchecker Demo.pandas Demo.noon_20240602 pdb_continue Scenario.flog_fname
     Demo.tampered Demo.P1_prow Demo.P1_info false Demo.past_20240602).2
  = Ok (Some (@row_checksum Demo.pandas Demo.tampered), Demo.site_Main) ∧
  (@field_day Demo.pandas Demo.git (Demo.env pdb_continue) Demo.args_no_git
     Scenario.flog_fname Demo.P1_prow Demo.P1_info "P1" Demo.Narrabri
     (Scenario.ledger Demo.tampered, false)
     (PyInt 0, Scenario.cells_of Demo.tampered)
     (Scenario.tree_with_site Demo.tampered)).1
  = Ok (Scenario.ledger (Demo.stamped Demo.tampered), false) ∧
  files (@field_day Demo.pandas Demo.git (Demo.env pdb_continue)
           Demo.args_no_git Scenario.flog_fname Demo.P1_prow Demo.P1_info "P1"
           Demo.Narrabri (Scenario.ledger Demo.tampered, false)
           (PyInt 0, Scenario.cells_of Demo.tampered)
           (Scenario.tree_with_site Demo.tampered)).2 !! Scenario.flog_fname
  = Some (CsvFile (Scenario.ledger_table (Demo.stamped Demo.tampered))) ∧
  Scenario.sensor_folder
  ∈ dirs (@field_day Demo.pandas Demo.git (Demo.env pdb_continue)
            Demo.args_no_git Scenario.flog_fname Demo.P1_prow Demo.P1_info "P1"
            Demo.Narrabri (Scenario.ledger Demo.tampered, false)
            (PyInt 0, Scenario.cells_of Demo.tampered)
            (Scenario.tree_with_site Demo.tampered)).2.
Proof. evaluate. Qed.

(** The amended C1 on the edited row, the debugger session being quit. *)
Lemma C1_witness :
  np_isnan (CheckSum Demo.tampered) = Some false ∧
  py_eq (PyFloat (@row_checksum Demo.pandas Demo.tampered))
        (CheckSum Demo.tampered) = false ∧
  @Rowchecker Demo.pandas Demo.noon_20240602 pdb_quit Scenario.flog_fname
    Demo.tampered Demo.P1_prow Demo.P1_info false Demo.past_20240602
  = ([EvChecksumConflict Scenario.flog_fname Demo.tampered
        (@row_checksum Demo.pandas Demo.tampered); EvBreakpoint],
     Raise BdbQuit).
Proof.
  split; [compute_done|]. split; [compute_done|].
  apply (proj1 (@C1_mismatch_opens_debugger_then_validates Demo.pandas
                  Demo.noon_20240602 pdb_quit Scenario.flog_fname Demo.tampered
                  Demo.P1_prow Demo.P1_info false Demo.past_20240602
                  ltac:(compute_done) ltac:(compute_done))).
Defined.

(** C2 on the scenario's second row: the sensor Thermal is not enabled for
    the project; the round raises [UnknownSensor] and the tree is as it
    was. *)
Lemma C2_witness :
  @Rowchecker Demo.pandas Demo.noon_20240602 pdb_continue Scenario.flog_fname
    (FieldRow_of_Series (Scenario.cells_of Demo.thermal)) Demo.P1_prow
    Demo.P1_info false Demo.past_20240602
  = ([], Raise (ValueError_row Scenario.flog_fname Demo.thermal
                  (UnknownSensor (PyStr "Thermal") ["M3M"]))) ∧
  @field_day Demo.pandas Demo.git (Demo.env pdb_continue) Demo.args_no_git
    Scenario.flog_fname Demo.P1_prow Demo.P1_info "P1" Demo.Narrabri
    (Scenario.ledger Demo.thermal, false)
    (PyInt 0, Scenario.cells_of Demo.thermal)
    (Scenario.tree_with_site Demo.thermal)
  = (Raise (ValueError_row Scenario.flog_fname Demo.thermal
              (UnknownSensor (PyStr "Thermal") ["M3M"])),
     checked [] (Scenario.tree_with_site Demo.thermal)).
Proof.
  split; [compute_done|].
  apply (proj1 (@C2_invalid_row_aborts_before_any_effect Demo.pandas Demo.git
                  (Demo.env pdb_continue) Demo.args_no_git Scenario.flog_fname
                  Demo.P1_prow Demo.P1_info "P1" Demo.Narrabri
                  (Scenario.ledger Demo.thermal) false (PyInt 0)
                  (Scenario.cells_of Demo.thermal)
                  (Scenario.tree_with_site Demo.thermal) [] _
                  ltac:(compute_done))).
Defined.

(** C3, as stated, fails: a row whose stored checkSum matches is still put
    through the run-count check; with no run it is refused, not returned. *)
Lemma C3_matched_row_is_still_checked :
  np_isnan (CheckSum Demo.stamped_no_runs) = Some false ∧
  py_eq (PyFloat (@row_checksum Demo.pandas Demo.stamped_no_runs))
        (CheckSum Demo.stamped_no_runs) = true ∧
  @Rowchecker Demo.pandas Demo.noon_20240602 pdb_continue Scenario.flog_fname
    Demo.stamped_no_runs Demo.P1_prow Demo.P1_info false Demo.past_20240602
  = ([], Raise (ValueError_row Scenario.flog_fname Demo.stamped_no_runs
                  (InvalidRunCount (PyInt 0)))).
Proof. evaluate. Qed.

(** The amended C3 on the stamped row of the scenario. *)
Lemma C3_witness :
  np_isnan (CheckSum (Demo.stamped Demo.row_20240601)) = Some false ∧
  py_eq (PyFloat (@row_checksum Demo.pandas (Demo.stamped Demo.row_20240601)))
        (CheckSum (Demo.stamped Demo.row_20240601)) = true ∧
  @Rowchecker Demo.pandas Demo.noon_20240602 pdb_continue Scenario.flog_fname
    (Demo.stamped Demo.row_20240601) Demo.P1_prow Demo.P1_info false
    Demo.past_20240602
  = ([], @field_checks Demo.pandas Demo.noon_20240602 Scenario.flog_fname
           (Demo.stamped Demo.row_20240601) Demo.P1_prow Demo.P1_info false
           Demo.past_20240602 None).
Proof.
  split; [compute_done|]. split; [compute_done|].
  apply (proj1 (@C3_match_skips_only_the_date_bounds Demo.pandas
                  Demo.noon_20240602 pdb_continue Scenario.flog_fname
                  (Demo.stamped Demo.row_20240601) Demo.P1_prow Demo.P1_info
                  false Demo.past_20240602
                  ltac:(compute_done) ltac:(compute_done))).
Defined.

(** C4, as stated, fails on the day folder: run end to end on the
    scenario, [main] makes [.../M3M/20240601/...] and nothing named
    [240601]. *)
Lemma C4_day_folder_has_the_full_year :
  (@main Demo.pandas Demo.git (Demo.env pdb_continue) Demo.args_no_git
     (Scenario.tree [Demo.Narrabri] Demo.row_20240601)).1 = Ok tt ∧
  ("./Narrabri/P1/2024Main_F/M3M/240601/run_00/Tier0_raw"
  ∉ dirs (@main Demo.pandas Demo.git (Demo.env pdb_continue) Demo.args_no_git
            (Scenario.tree [Demo.Narrabri] Demo.row_20240601)).2) ∧
  ("./Narrabri/P1/2024Main_F/M3M/240601"
  ∉ dirs (@main Demo.pandas Demo.git (Demo.env pdb_continue) Demo.args_no_git
            (Scenario.tree [Demo.Narrabri] Demo.row_20240601)).2) ∧
  "./Narrabri/P1/2024Main_F/M3M/20240601/run_00/Tier0_raw"
  ∈ dirs (@main Demo.pandas Demo.git (Demo.env pdb_continue) Demo.args_no_git
            (Scenario.tree [Demo.Narrabri] Demo.row_20240601)).2 ∧
  fmt_02d 2024 = "2024".
Proof. evaluate. Qed.

(** The amended C4 in the concrete setting. *)
Lemma C4_witness :
  @Timestamp Demo.pandas "2024-6-1" = Some (Demo.at_time 2024 6 1 0) ∧
  Demo.at_time 2024 6 1 0 <= Demo.noon_20240602 + hours_12 ∧
  Demo.past_20240602 <= Demo.at_time 2024 6 1 0 ∧
  @fs_closed Demo.git (Scenario.tree_with_site Demo.row_20240601) ∧
  ∃ c w',
    @field_day Demo.pandas Demo.git (Demo.env pdb_continue) Demo.args_no_git
      Scenario.flog_fname Demo.P1_prow Demo.P1_info "P1" Demo.Narrabri
      (Scenario.ledger Demo.row_20240601, false)
      (PyInt 0, Scenario.cells_of Demo.row_20240601)
      (Scenario.tree_with_site Demo.row_20240601)
    = (Ok (Scenario.ledger
             (Demo.with_CheckSum Demo.row_20240601 (PyFloat (FInt c))),
           false), w') ∧
    dirs w' = dirs (Scenario.tree_with_site Demo.row_20240601)
              ∪ list_to_set Scenario.row_folders.
Proof.
  split; [compute_done|]. split; [compute_done|]. split; [compute_done|].
  split; [compute_done|].
  destruct (@C4_scenario_folders_and_checksum Demo.pandas Demo.git
              (Demo.env pdb_continue) Demo.args_no_git false
              (Scenario.tree_with_site Demo.row_20240601)
              (Demo.at_time 2024 6 1 0))
    as (c & w' & _ & _ & _ & Hrun & Hdirs & _).
  - compute_done.
  - compute_done.
  - left. compute_done.
  - compute_done.
  - compute_done.
  - apply Forall_forall. compute_done.
  - exists c, w'. split; [exact Hrun|exact Hdirs].
Defined.

(** C5, at the input on which the code departs from it: Camden has no
    project yet and comes first in the node file.  Its empty summary table
    ends the loop, so Narrabri, which has a project and a new ledger row, is
    not visited: no site or day folder is made for it and its ledger is
    left unstamped.  With Narrabri first, both nodes are processed. *)
Lemma C5_empty_table_ends_the_node_loop :
  (@main Demo.pandas Demo.git (Demo.env pdb_continue) Demo.args_no_git
     (Scenario.tree [Scenario.Camden; Demo.Narrabri] Demo.row_20240601)).1
  = Ok tt ∧
  "./Camden"
  ∈ dirs (@main Demo.pandas Demo.git (Demo.env pdb_continue) Demo.args_no_git
            (Scenario.tree [Scenario.Camden; Demo.Narrabri]
                           Demo.row_20240601)).2 ∧
  ("./Narrabri/P1/2024Main_F"
  ∉ dirs (@main Demo.pandas Demo.git (Demo.env pdb_continue) Demo.args_no_git
            (Scenario.tree [Scenario.Camden; Demo.Narrabri]
                           Demo.row_20240601)).2) ∧
  (Scenario.day_folder
  ∉ dirs (@main Demo.pandas Demo.git (Demo.env pdb_continue) Demo.args_no_git
            (Scenario.tree [Scenario.Camden; Demo.Narrabri]
                           Demo.row_20240601)).2) ∧
  files (@main Demo.pandas Demo.git (Demo.env pdb_continue) Demo.args_no_git
           (Scenario.tree [Scenario.Camden; Demo.Narrabri]
                          Demo.row_20240601)).2 !! Scenario.flog_fname
  = Some (CsvFile (Scenario.ledger_table Demo.row_20240601)) ∧
  "./Camden"
  ∈ dirs (@main Demo.pandas Demo.git (Demo.env pdb_continue) Demo.args_no_git
            (Scenario.tree [Demo.Narrabri; Scenario.Camden]
                           Demo.row_20240601)).2 ∧
  Scenario.day_folder
  ∈ dirs (@main Demo.pandas Demo.git (Demo.env pdb_continue) Demo.args_no_git
            (Scenario.tree [Demo.Narrabri; Scenario.Camden]
                           Demo.row_20240601)).2 ∧
  files (@main Demo.pandas Demo.git (Demo.env pdb_continue) Demo.args_no_git
           (Scenario.tree [Demo.Narrabri; Scenario.Camden]
                          Demo.row_20240601)).2 !! Scenario.flog_fname
  = Some (CsvFile (Scenario.ledger_table (Demo.stamped Demo.row_20240601))).
Proof. evaluate. Qed.

(** C6 on the scenario's row, validated exactly twelve hours before its
    date. *)
Lemma C6_witness :
  np_isnan (CheckSum Demo.row_20240601) = Some true ∧
  @Timestamp Demo.pandas (date_text Demo.row_20240601)
  = Some (Demo.noon_20240531 + hours_12) ∧
  default_past_date Demo.noon_20240531 <= Demo.noon_20240531 + hours_12 ∧
  @Rowchecker Demo.pandas Demo.noon_20240531 pdb_continue Scenario.flog_fname
    Demo.row_20240601 Demo.P1_prow Demo.P1_info false
    (default_past_date Demo.noon_20240531)
  = ([], returning (Some (@row_checksum Demo.pandas Demo.row_20240601))
           (@field_checks Demo.pandas Demo.noon_20240531 Scenario.flog_fname
              Demo.row_20240601 Demo.P1_prow Demo.P1_info false
              (default_past_date Demo.noon_20240531) None)).
Proof.
  split; [compute_done|]. split; [compute_done|]. split; [compute_done|].
  pose proof (@C6_date_bounds_are_inclusive Demo.pandas Demo.noon_20240531
                pdb_continue Scenario.flog_fname Demo.row_20240601 Demo.P1_prow
                Demo.P1_info (default_past_date Demo.noon_20240531)
                (Demo.noon_20240531 + hours_12)
                ltac:(compute_done) ltac:(compute_done) ltac:(compute_done)
                ltac:(compute_done) ltac:(compute_done)) as Hbounds.
  cbv zeta in Hbounds. destruct Hbounds as (Hupper & _).
  exact (Hupper eq_refl false).
Defined.

(** C7 on a summary table read before a platform was added to the node. *)
Lemma C7_witness :
  NoDup (df_columns Scenario.old_summary) ∧
  ∃ dfx' gitmod' w',
    @_df_col_check Demo.git Scenario.old_summary Scenario.summary_csv
      ["GOBI"; "M3M"] Demo.args_no_git false (PyBool false)
      (Scenario.tree [Demo.Narrabri] Demo.row_20240601)
    = (Ok (dfx', gitmod'), w') ∧
    df_columns dfx' = ["GOBI"; "M3M"] ∧
    ∃ gitmod'' w'',
      @_df_col_check Demo.git dfx' Scenario.summary_csv ["GOBI"; "M3M"]
        Demo.args_no_git gitmod' (PyBool false) w'
      = (Ok (dfx', gitmod''), w'') ∧
      files w'' = files w'.
Proof.
  split; [compute_done|].
  destruct (@C7_df_col_check_reconciles_once Demo.git Scenario.old_summary
              Scenario.summary_csv ["GOBI"; "M3M"] Demo.args_no_git false
              (PyBool false) (Scenario.tree [Demo.Narrabri] Demo.row_20240601)
              ltac:(compute_done))
    as (dfx' & gitmod' & w' & Hrun & Hcols & _ & _ & _ & _ &
        gitmod'' & w'' & Hagain & Hfiles & _).
  exists dfx', gitmod', w'. split; [exact Hrun|]. split; [exact Hcols|].
  exists gitmod'', w''. split; [exact Hagain|exact Hfiles].
Defined.


(** C10 on a row whose Year cell is the boolean True. *)
Lemma C10_witness :
  (∃ fg, fg ∈ int_fields ∧ type_of (fg.2 Demo.bool_year) ≠ TInt) ∧
  ∃ field expected found,
    found ≠ expected ∧
    @Rowchecker Demo.pandas Demo.noon_20240602 pdb_continue Scenario.flog_fname
      Demo.bool_year Demo.P1_prow Demo.P1_info false Demo.past_20240602
    = ([], Raise (ValueError_row Scenario.flog_fname Demo.bool_year
                    (TypeMismatch field expected found))).
Proof.
  assert (∃ fg, fg ∈ int_fields ∧ type_of (fg.2 Demo.bool_year) ≠ TInt)
    as Hbad.
  { exists ("Year", Year). split; [by left|discriminate]. }
  split; [exact Hbad|].
  destruct (@C10_dtype_checks_are_exact Demo.pandas Demo.noon_20240602
              pdb_continue Scenario.flog_fname Demo.bool_year Demo.P1_prow
              Demo.P1_info false Demo.past_20240602 (or_introl Hbad))
    as ((field & expected & found & Hne & _ & Hrow) & _).
  exists field, expected, found. split; [exact Hne|].
  apply (Hrow [] (Some (@row_checksum Demo.pandas Demo.bool_year))).
  reflexivity.
Defined.

(** X1 on the scenario's row, validated the day after its date. *)
Lemma X1_witness :
  @Rowchecker Demo.pandas Demo.noon_20240602 pdb_continue Scenario.flog_fname
    Demo.row_20240601 Demo.P1_prow Demo.P1_info false Demo.past_20240602
  = ([], Ok (Some (@row_checksum Demo.pandas Demo.row_20240601),
             Demo.site_Main)) ∧
  Demo.site_Main ∈ p_sites Demo.P1_info ∧
  ∃ sensor, Sensor Demo.row_20240601 = PyStr sensor ∧
            sensor ∈ enabled_sensors Demo.P1_prow.
Proof.
  split; [compute_done|].
  destruct (@X1_Rowchecker_accepted_row Demo.pandas Demo.noon_20240602
              pdb_continue Scenario.flog_fname Demo.row_20240601 Demo.P1_prow
              Demo.P1_info false Demo.past_20240602 []
              (Some (@row_checksum Demo.pandas Demo.row_20240601))
              Demo.site_Main ltac:(compute_done))
    as (_ & (technician & sensor & name & _ & Hsensor & Hen & _) & Hsite & _).
  split; [exact Hsite|]. exists sensor. split; [exact Hsensor|exact Hen].
Defined.

(** X2 on the scenario's row: stamped, it passes a year later, when its date
    is long before the cut-off. *)
Lemma X2_witness :
  @Timestamp Demo.pandas (date_text Demo.row_20240601)
  = Some (Demo.at_time 2024 6 1 0) ∧
  Demo.at_time 2024 6 1 0 < default_past_date Cases.noon_20250602 ∧
  @Rowchecker Demo.pandas Cases.noon_20250602 pdb_quit Scenario.flog_fname
    (stamped_with Demo.row_20240601
                  (@row_checksum Demo.pandas Demo.row_20240601))
    Demo.P1_prow Demo.P1_info false (default_past_date Cases.noon_20250602)
  = ([], Ok (None, Demo.site_Main)).
Proof.
  split; [compute_done|]. split; [compute_done|].
  destruct (@X2_stamped_row_is_matched Demo.pandas Demo.noon_20240602
              pdb_continue Scenario.flog_fname Demo.row_20240601 Demo.P1_prow
              Demo.P1_info false Demo.past_20240602 []
              (@row_checksum Demo.pandas Demo.row_20240601) Demo.site_Main
              ltac:(compute_done))
    as (_ & _ & Hlater).
  apply Hlater.
Defined.

(** X5 on the row logged with a sensor the project does not have. *)
Lemma X5_witness :
  @Rowchecker Demo.pandas Demo.noon_20240602 pdb_continue Scenario.flog_fname
    Demo.thermal Demo.P1_prow Demo.P1_info false Demo.past_20240602
  = ([], Raise (ValueError_row Scenario.flog_fname Demo.thermal
                  (UnknownSensor (PyStr "Thermal") ["M3M"]))) ∧
  ((∃ cause,
       ValueError_row Scenario.flog_fname Demo.thermal
                      (UnknownSensor (PyStr "Thermal") ["M3M"])
       = ValueError_row Scenario.flog_fname Demo.thermal cause) ∨
   (ValueError_row Scenario.flog_fname Demo.thermal
                   (UnknownSensor (PyStr "Thermal") ["M3M"])
    = TypeError "isnan" ∧ @nil Event = [] ∧
    num_val (CheckSum Demo.thermal) = None) ∨
   (ValueError_row Scenario.flog_fname Demo.thermal
                   (UnknownSensor (PyStr "Thermal") ["M3M"])
    = BdbQuit ∧ pdb_continue = pdb_quit ∧
    @nil Event
    = [EvChecksumConflict Scenario.flog_fname Demo.thermal
         (@row_checksum Demo.pandas Demo.thermal); EvBreakpoint])).
Proof.
  split; [compute_done|].
  apply (@X5_Rowchecker_exceptions Demo.pandas Demo.noon_20240602 pdb_continue
           Scenario.flog_fname Demo.thermal Demo.P1_prow Demo.P1_info false
           Demo.past_20240602).
  compute_done.
Defined.

(** X6 on the scenario with git enabled and an up-to-date pull. *)
Lemma X6_witness :
  (@git_pull Demo.git
     (repo (Scenario.tree [Demo.Narrabri] Demo.row_20240601))).1
  = "Already up to date." ∧
  grows (Scenario.tree [Demo.Narrabri] Demo.row_20240601)
        (@main Demo.pandas Demo.git (Demo.env pdb_continue) Cases.args_git
           (Scenario.tree [Demo.Narrabri] Demo.row_20240601)).2.
Proof.
  split; [reflexivity|].
  apply (@X6_main_takes_nothing_away Demo.pandas Demo.git
           (Demo.env pdb_continue) Cases.args_git
           (Scenario.tree [Demo.Narrabri] Demo.row_20240601)).
  right. reflexivity.
Defined.

(** X7 on the scenario, run with [--no-git]. *)
Lemma X7_witness :
  no_git Demo.args_no_git = true ∧
  repo (@main Demo.pandas Demo.git (Demo.env pdb_continue) Demo.args_no_git
          (Scenario.tree [Demo.Narrabri] Demo.row_20240601)).2
  = repo (Scenario.tree [Demo.Narrabri] Demo.row_20240601).
Proof.
  split; [reflexivity|].
  apply (proj1 (@X7_no_git_leaves_the_repository_alone Demo.pandas Demo.git
                  (Demo.env pdb_continue) Demo.args_no_git
                  (Scenario.tree [Demo.Narrabri] Demo.row_20240601)
                  eq_refl)).
Defined.

(** X8 on the scenario with git enabled: when the remote has moved on, the
    run ends at the pull. *)
Lemma X8_witness :
  no_git Cases.args_git = false ∧
  (@git_pull Cases.git_behind (repo Cases.tree_behind)).1
  ≠ "Already up to date." ∧
  ∃ w',
    @main Demo.pandas Cases.git_behind (Demo.env pdb_continue) Cases.args_git
      Cases.tree_behind
    = (Raise SystemExit, w') ∧
    ∃ evs, log w' = log Cases.tree_behind ++ evs ∧ EvBreakpoint ∈ evs.
Proof.
  split; [reflexivity|]. split; [compute_done|].
  pose proof (@X8_pull_must_be_up_to_date Demo.pandas Cases.git_behind
                (Demo.env pdb_continue) Cases.args_git Cases.tree_behind
                eq_refl) as Hpull.
  rewrite bool_decide_eq_false_2 in Hpull by compute_done.
  destruct Hpull as (w' & _ & Hmain & _ & evs & Hlog & Hbreak & _).
  exists w'. split; [exact Hmain|]. exists evs. split; [exact Hlog|exact Hbreak].
Defined.

(** X9 on the sensor folder of the scenario's row. *)
Lemma X9_witness :
  ∃ w',
    @pymkdir Demo.git Scenario.sensor_folder
      (Scenario.tree_with_site Demo.row_20240601)
    = (Ok tt, w') ∧
    @pymkdir Demo.git Scenario.sensor_folder w' = (Ok tt, w') ∧
    @fs_closed Demo.git w'.
Proof.
  destruct (@X9_pymkdir_makes_once Demo.git Scenario.sensor_folder
              (Scenario.tree_with_site Demo.row_20240601))
    as (w' & Hrun & Hagain & _ & _ & _ & Hclosed).
  - apply Forall_forall. compute_done.
  - exists w'. split; [exact Hrun|]. split; [exact Hagain|].
    apply Hclosed. compute_done.
Defined.

(** X10 on the scenario with git enabled: the run stages files, and ends
    with the commit and the push. *)
Lemma X10_witness :
  ∃ w',
    @main Demo.pandas Demo.git (Demo.env pdb_continue) Cases.args_git
      (Scenario.tree [Demo.Narrabri] Demo.row_20240601)
    = (Ok tt, w') ∧
    staged (Scenario.tree [Demo.Narrabri] Demo.row_20240601) w' = true ∧
    ∃ before,
      new_events (Scenario.tree [Demo.Narrabri] Demo.row_20240601) w'
      = before ++ [EvGitCommit; EvGitPush] ∧
      existsb is_commit before = false.
Proof.
  set (w' := (@main Demo.pandas Demo.git (Demo.env pdb_continue)
                Cases.args_git
                (Scenario.tree [Demo.Narrabri] Demo.row_20240601)).2).
  assert (@main Demo.pandas Demo.git (Demo.env pdb_continue) Cases.args_git
            (Scenario.tree [Demo.Narrabri] Demo.row_20240601)
          = (Ok tt, w')) as Hrun by compute_done.
  assert (staged (Scenario.tree [Demo.Narrabri] Demo.row_20240601) w' = true)
    as Hstaged by compute_done.
  destruct (@X10_commit_follows_staging Demo.pandas Demo.git
              (Demo.env pdb_continue) Cases.args_git
              (Scenario.tree [Demo.Narrabri] Demo.row_20240601) w' Hrun)
    as [Hcommit _].
  rewrite Hstaged in Hcommit. destruct Hcommit as [_ Hcommit].
  exists w'. split; [exact Hrun|]. split; [exact Hstaged|exact Hcommit].
Defined.




(** X14 on the scenario's project. *)
Lemma X14_witness :
  Forall (λ column : string * list pyval, PyNone ∉ column.2)
         (df_data (Scenario.ledger Demo.row_20240601)) ∧
  files (@projBuilder Demo.git "P1" Demo.Narrabri colnames Demo.args_no_git
           false (Scenario.tree [Demo.Narrabri] Demo.row_20240601)).2
    !! Scenario.flog_fname
  = Some (CsvFile (Scenario.ledger_table Demo.row_20240601)) ∧
  Forall2 (λ site name,
             _sitenamemaker site (summary_yaml_of Demo.Narrabri "P1")
             = Ok name)
          (filter (λ site, is_entered site = true) (p_sites Demo.P1_info))
          ["2024Main_F"].
Proof.
  destruct (@X14_projBuilder_returns_what_is_on_disk Demo.git "P1"
              Demo.Narrabri colnames Demo.args_no_git false
              (Scenario.tree [Demo.Narrabri] Demo.row_20240601)
              (Scenario.ledger Demo.row_20240601) false Scenario.flog_fname
              ["2024Main_F"] Demo.P1_info
              (@projBuilder Demo.git "P1" Demo.Narrabri colnames
                 Demo.args_no_git false
                 (Scenario.tree [Demo.Narrabri] Demo.row_20240601)).2
              ltac:(compute_done))
    as (_ & _ & Hledger & _ & _ & _ & _ & Hnames & _).
  assert (Forall (λ column : string * list pyval, PyNone ∉ column.2)
                 (df_data (Scenario.ledger Demo.row_20240601))) as Hcells
    by (repeat constructor; compute_done).
  split; [exact Hcells|]. split; [exact (Hledger Hcells)|exact Hnames].
Defined.

(** X15 on the scenario's row. *)
Lemma X15_witness :
  ∃ w',
    @Sitebuilder Demo.git Scenario.flog_fname
      (Scenario.ledger Demo.row_20240601) (PyInt 0) Demo.row_20240601
      (Some (@row_checksum Demo.pandas Demo.row_20240601)) Demo.site_Main "P1"
      Demo.Narrabri Demo.args_no_git false
      (Scenario.tree_with_site Demo.row_20240601)
    = (Ok (df_loc_set (Scenario.ledger Demo.row_20240601) (PyInt 0) "CheckSum"
                      (PyFloat (@row_checksum Demo.pandas Demo.row_20240601)),
           false), w') ∧
    Scenario.sensor_folder ∈ dirs w' ∧
    FieldRow_of_Series
      (df_row (df_loc_set (Scenario.ledger Demo.row_20240601) (PyInt 0)
                          "CheckSum"
                          (PyFloat (@row_checksum Demo.pandas
                                      Demo.row_20240601))) 0)
    = stamped_with
        (FieldRow_of_Series (df_row (Scenario.ledger Demo.row_20240601) 0))
        (@row_checksum Demo.pandas Demo.row_20240601).
Proof.
  destruct (@X15_Sitebuilder_stamps_the_row Demo.git
              Scenario.flog_fname (Scenario.ledger Demo.row_20240601) (PyInt 0)
              Demo.row_20240601
              (@row_checksum Demo.pandas Demo.row_20240601) Demo.site_Main
              "P1" Demo.Narrabri Demo.args_no_git false "2024Main_F"
              2024 6 1 2 (Scenario.tree_with_site Demo.row_20240601)
              ltac:(compute_done) eq_refl eq_refl eq_refl eq_refl
              ltac:(lia) ltac:(compute_done)
              ltac:(unfold unobstructed; compute_done)
              ltac:(compute_done) ltac:(compute_done) ltac:(compute_done))
    as (w' & Hrun & _ & _ & _ & Hdirs & _ & _ & Hrows).
  exists w'. split; [exact Hrun|].
  split; [apply Hdirs; by left|].
  apply (Hrows 0%nat (PyInt 0)). reflexivity.
Defined.

(** X16 on the scenario's ledger without its CheckSum column. *)
Lemma X16_witness :
  ∃ df_flog gitmod' w',
    @_df_col_check Demo.git Cases.ledger_before_CheckSum Scenario.flog_fname
      colnames Demo.args_no_git false PyNone Cases.tree_before_CheckSum
    = (Ok (df_flog, gitmod'), w') ∧
    df_columns df_flog = colnames ∧
    EvToCsv Scenario.flog_fname ∈ log w' ∧
    ∀ entry,
      entry ∈ iterrows df_flog →
      @field_day Demo.pandas Demo.git (Demo.env pdb_continue) Demo.args_no_git
        Scenario.flog_fname Demo.P1_prow Demo.P1_info "P1" Demo.Narrabri
        (df_flog, gitmod') entry w'
      = (Raise (TypeError "isnan"), checked [] w').
Proof.
  destruct (@X16_ledger_without_CheckSum_column Demo.pandas Demo.git
              (Demo.env pdb_continue) Demo.args_no_git Scenario.flog_fname
              Demo.P1_prow Demo.P1_info "P1" Demo.Narrabri
              Cases.ledger_before_CheckSum false Cases.tree_before_CheckSum
              ltac:(compute_done) ltac:(compute_done) ltac:(compute_done))
    as (df_flog & gitmod' & w' & Hrun & Hcols & Hwritten & Hrows).
  exists df_flog, gitmod', w'. split; [exact Hrun|]. split; [exact Hcols|].
  split; [exact Hwritten|].
  intros entry Hentry. apply (Hrows entry gitmod' w' Hentry).
Defined.

(** X17 on the scenario's node file, in a run with [--no-git]. *)
Lemma X17_witness :
  no_git Demo.args_no_git = true ∧
  files (Scenario.tree [Demo.Narrabri] Demo.row_20240601) !! Scenario.node_yaml
  = Some (NodeYaml [Demo.Narrabri]) ∧
  ∃ body',
    files (@main Demo.pandas Demo.git (Demo.env pdb_continue)
             Demo.args_no_git
             (Scenario.tree [Demo.Narrabri] Demo.row_20240601)).2
      !! Scenario.node_yaml = Some body' ∧
    body' = NodeYaml [Demo.Narrabri].
Proof.
  split; [reflexivity|]. split; [compute_done|].
  apply (@X17_main_rewrites_tables_only Demo.pandas Demo.git
           (Demo.env pdb_continue) Demo.args_no_git
           (Scenario.tree [Demo.Narrabri] Demo.row_20240601)
           Scenario.node_yaml (NodeYaml [Demo.Narrabri])
           (or_introl eq_refl)).
  compute_done.
Defined.

(** X18 on the scenario's ledger, which is not in HEAD: it is staged. *)
Lemma X18_witness :
  (@GitChanged Demo.git Scenario.flog_fname false
     (Scenario.tree [Demo.Narrabri] Demo.row_20240601)).1 = Ok true ∧
  files (@GitChanged Demo.git Scenario.flog_fname false
           (Scenario.tree [Demo.Narrabri] Demo.row_20240601)).2
  = files (Scenario.tree [Demo.Narrabri] Demo.row_20240601) ∧
  true = false || staged (Scenario.tree [Demo.Narrabri] Demo.row_20240601)
                    (@GitChanged Demo.git Scenario.flog_fname false
                       (Scenario.tree [Demo.Narrabri] Demo.row_20240601)).2.
Proof.
  split; [compute_done|].
  destruct (@X18_GitChanged_stages_or_leaves_alone Demo.git Scenario.flog_fname
              false (Scenario.tree [Demo.Narrabri] Demo.row_20240601) true
              (@GitChanged Demo.git Scenario.flog_fname false
                 (Scenario.tree [Demo.Narrabri] Demo.row_20240601)).2
              ltac:(compute_done))
    as (_ & Hfiles & Hflag & _).
  split; [exact Hfiles|exact Hflag].
Defined.


(** X20 on the scenario's ledger: the loop stamps its row, and the row is
    settled. *)
Lemma X20_witness :
  (@for_each Demo.git _ _
     (@field_day Demo.pandas Demo.git (Demo.env pdb_continue) Demo.args_no_git
        Scenario.flog_fname Demo.P1_prow Demo.P1_info "P1" Demo.Narrabri)
     (iterrows (Scenario.ledger Demo.row_20240601))
     (Scenario.ledger Demo.row_20240601, false)
     (Scenario.tree_with_site Demo.row_20240601)).1
  = Ok (Scenario.ledger (Demo.stamped Demo.row_20240601), false) ∧
  @settled Demo.pandas Scenario.flog_fname Demo.P1_prow Demo.P1_info
    (FieldRow_of_Series
       (df_row (Scenario.ledger (Demo.stamped Demo.row_20240601)) 0)).
Proof.
  split; [compute_done|].
  destruct (@X20_row_loop_settles_the_ledger Demo.pandas Demo.git
              (Demo.env pdb_continue) Demo.args_no_git Scenario.flog_fname
              Demo.P1_prow Demo.P1_info "P1" Demo.Narrabri
              (Scenario.ledger Demo.row_20240601) false
              (Scenario.tree_with_site Demo.row_20240601)
              (Scenario.ledger (Demo.stamped Demo.row_20240601)) false
              (@for_each Demo.git _ _
                 (@field_day Demo.pandas Demo.git (Demo.env pdb_continue)
                    Demo.args_no_git Scenario.flog_fname Demo.P1_prow
                    Demo.P1_info "P1" Demo.Narrabri)
                 (iterrows (Scenario.ledger Demo.row_20240601))
                 (Scenario.ledger Demo.row_20240601, false)
                 (Scenario.tree_with_site Demo.row_20240601)).2
              ltac:(compute_done) ltac:(compute_done) ltac:(compute_done)
              ltac:(compute_done) ltac:(compute_done))
    as (_ & _ & _ & Hrows).
  apply (Hrows 0%nat (PyInt 0)). reflexivity.
Defined.
